(** * ACME_image_funcs: the HOBJ decoder and the OMA2 decoder and encoder

    A shallow embedding of [read_hobj], [read_oma] and [write_oma] of
    [ACME_image_funcs.py], and the properties of the three codecs.

    Modelling conventions.
    - A file is the list of its bytes.  A file opened for reading is the
      byte list with a cursor; a file opened for writing is the list of the
      bytes written so far.  File names, [print] and [time] are left out.
    - Python exceptions are values of [exn]; a computation that can raise
      returns a [res].
    - [struct] formats without a byte-order prefix use the byte order of
      the host, taken to be little-endian (the byte order the files are
      documented with).
    - A sample packed with the ['f'] format is represented by its IEEE-754
      binary32 bit pattern, an integer in [0, 2^32).  Packing and unpacking
      convert between binary32 and the binary64 of a Python float: every
      pattern goes through unchanged except a signalling NaN, which comes
      out as the quiet NaN with the same payload.  No other arithmetic is
      performed on samples by the code.
    - A numpy array is its shape and its elements in row-major order. *)

From Stdlib Require Import String ZArith List Lia Bool.
From coqutil Require Import Byte Word.LittleEndianList.
Import ListNotations.
Local Open Scope Z_scope.

(** ** Exceptions and results *)

Inductive exn : Type :=
| StructError   (* struct.error *)
| IndexError
| ValueError
| OSError
| OverflowError.

Inductive res (A : Type) : Type :=
| Ok (a : A)
| Raise (e : exn).
Arguments Ok {A} a.
Arguments Raise {A} e.

Definition res_bind {A B} (r : res A) (k : A -> res B) : res B :=
  match r with
  | Ok a => k a
  | Raise e => Raise e
  end.

(** ** Python sequences *)

Module py.

(** [l[i]] on a tuple: a negative index counts from the end. *)
Definition getitem {A} (l : list A) (i : Z) : res A :=
  let n := Z.of_nat (length l) in
  let j := if i <? 0 then i + n else i in
  if (0 <=? j) && (j <? n)
  then match nth_error l (Z.to_nat j) with
       | Some a => Ok a
       | None => Raise IndexError
       end
  else Raise IndexError.

(** [b[lo:hi]] for literal bounds [0 <= lo <= hi]. *)
Definition slice {A} (l : list A) (lo hi : nat) : list A :=
  firstn (hi - lo) (skipn lo l).

(** [needle in haystack] on bytes. *)
Fixpoint starts_with (needle hay : list byte) : bool :=
  match needle, hay with
  | [], _ => true
  | _ :: _, [] => false
  | a :: needle', b :: hay' => Byte.eqb a b && starts_with needle' hay'
  end.

Fixpoint contains (needle hay : list byte) : bool :=
  starts_with needle hay ||
  match hay with
  | [] => false
  | _ :: hay' => contains needle hay'
  end.

(** [n] consecutive groups of [k] elements of a sequence. *)
Fixpoint chunks {A} (k n : nat) (l : list A) : list (list A) :=
  match n with
  | O => []
  | S n' => firstn k l :: chunks k n' (skipn k l)
  end.

(** [l[i] = v] for an index [i] inside [l] (the indices stored to are
    literals inside their arrays). *)
Fixpoint setitem {A} (l : list A) (i : nat) (v : A) : list A :=
  match l, i with
  | [], _ => []
  | _ :: t, O => v :: t
  | h :: t, S i' => h :: setitem t i' v
  end.

(** [a, b, c = t] *)
Definition unpack3 {A} (t : list A) : res (A * A * A) :=
  match t with
  | [a; b; c] => Ok (a, b, c)
  | _ => Raise ValueError
  end.

(** [a, b = t] *)
Definition unpack2 {A} (t : list A) : res (A * A) :=
  match t with
  | [a; b] => Ok (a, b)
  | _ => Raise ValueError
  end.

(** [a, b, c, d = t] *)
Definition unpack4 {A} (t : list A) : res (A * A * A * A) :=
  match t with
  | [a; b; c; d] => Ok (a, b, c, d)
  | _ => Raise ValueError
  end.

(** [int(a / b)] for integers [a], [b]: the true quotient truncated
    towards zero (exact for the 32-bit magnitudes that reach it). *)
Definition int_truediv (a b : Z) : Z := Z.quot a b.

(** [sys.maxsize]: the largest length and index, [2^63 - 1] on the 64-bit
    builds. *)
Definition maxsize : Z := 2 ^ 63 - 1.

End py.

(** ** The [struct] module *)

Module struct.

(** Two's complement reading of a [w]-bit pattern. *)
Definition swrap (w : Z) (z : Z) : Z :=
  (z + 2 ^ (w - 1)) mod 2 ^ w - 2 ^ (w - 1).

(** [struct.pack('i', v)] *)
Definition pack_i (v : Z) : res (list byte) :=
  if (- 2 ^ 31 <=? v) && (v <=? 2 ^ 31 - 1)
  then Ok (le_split 4 v)
  else Raise StructError.

(** [struct.pack('H', v)] *)
Definition pack_H (v : Z) : res (list byte) :=
  if (0 <=? v) && (v <=? 2 ^ 16 - 1)
  then Ok (le_split 2 v)
  else Raise StructError.

(** A signalling NaN: the eight exponent bits set, the quiet bit (bit 22)
    clear and the rest of the mantissa not zero. *)
Definition is_snan (x : Z) : bool :=
  (Z.land x 2139095040 =? 2139095040)
  && negb (Z.testbit x 22)
  && negb (Z.land x 4194303 =? 0).

(** The conversion between binary32 and binary64 sets the quiet bit of a
    signalling NaN and keeps every other pattern. *)
Definition quiet (x : Z) : Z :=
  if is_snan x then Z.lor x 4194304 else x.

(** [struct.pack('f', d)], [d] given by its binary32 pattern: the value
    is converted to a C double and back to a float. *)
Definition pack_f (d : Z) : list byte := le_split 4 (quiet d).

(** [struct.pack('c', b)]: [b] must be a bytes object of length 1. *)
Definition pack_c (b : list byte) : res (list byte) :=
  match b with
  | [c] => Ok [c]
  | _ => Raise StructError
  end.

(** Pack several values with one format, as [struct.pack('iii', ...)]. *)
Fixpoint pack_all (p : Z -> res (list byte)) (vs : list Z) : res (list byte) :=
  match vs with
  | [] => Ok []
  | v :: vs' =>
      res_bind (p v) (fun b =>
      res_bind (pack_all p vs') (fun bs => Ok (b ++ bs)))
  end.

(** [struct.unpack('<count><code>', buf)] for a fixed-width code: the
    format is rejected when the count is negative (the sign is not a
    format character), the buffer when its length is not the size the
    format requires. *)
Definition unpack_array {A} (width : nat) (decode : list byte -> A)
           (count : Z) (buf : list byte) : res (list A) :=
  if count <? 0 then Raise StructError
  else if Z.of_nat (length buf) =? Z.of_nat width * count
       then Ok (map decode (py.chunks width (Z.to_nat count) buf))
       else Raise StructError.

Definition decode_i (b : list byte) : Z := swrap 32 (le_combine b).
Definition decode_h (b : list byte) : Z := swrap 16 (le_combine b).
Definition decode_f (b : list byte) : Z := quiet (le_combine b).
Definition decode_c (b : list byte) : list byte := b.

Definition unpack_i := unpack_array 4 decode_i.
Definition unpack_h := unpack_array 2 decode_h.
Definition unpack_f := unpack_array 4 decode_f.
Definition unpack_c := unpack_array 1 decode_c.

End struct.

(** ** Files *)

Module file.

(** A file opened with ['rb']: a computation reads the content and moves
    the cursor. *)
Definition reader (A : Type) : Type := list byte -> nat -> res (A * nat).

Definition ret {A} (a : A) : reader A := fun _ pos => Ok (a, pos).

Definition bind {A B} (m : reader A) (k : A -> reader B) : reader B :=
  fun content pos =>
    match m content pos with
    | Ok (a, pos') => k a content pos'
    | Raise e => Raise e
    end.

Definition lift {A} (r : res A) : reader A :=
  fun _ pos => match r with
               | Ok a => Ok (a, pos)
               | Raise e => Raise e
               end.

(** [f.read(n)]: at most [n] bytes from the cursor, all the remaining
    bytes when [n] is -1.  A length that does not fit a 64-bit index is an
    [OverflowError], another negative length a [ValueError]. *)
Definition read (n : Z) : reader (list byte) :=
  fun content pos =>
    if (n <? - 2 ^ 63) || (py.maxsize <? n) then Raise OverflowError
    else if n <? - 1 then Raise ValueError
    else
      let rest := skipn pos content in
      let got := if n <? 0 then rest else firstn (Z.to_nat n) rest in
      Ok (got, (pos + length got)%nat).

(** [f.seek(p)]: a position past the end is accepted, a negative one is
    an [OSError] (the positions the code seeks to are far inside the
    64-bit range of a file offset). *)
Definition seek (p : Z) : reader unit :=
  fun _ _ => if p <? 0 then Raise OSError else Ok (tt, Z.to_nat p).

Definition run {A} (m : reader A) (content : list byte) : res A :=
  match m content O with
  | Ok (a, _) => Ok a
  | Raise e => Raise e
  end.

(** A file opened with ['wb'], together with the operating system's
    entropy source read by [os.urandom]: what is written before an
    exception stays written. *)
Record wstate : Type := mk_wstate {
  written : list byte;
  entropy : nat -> byte
}.

Definition writer (A : Type) : Type := wstate -> wstate * res A.

Definition wret {A} (a : A) : writer A := fun s => (s, Ok a).

Definition wbind {A B} (m : writer A) (k : A -> writer B) : writer B :=
  fun s =>
    match m s with
    | (s', Ok a) => k a s'
    | (s', Raise e) => (s', Raise e)
    end.

Definition wlift {A} (r : res A) : writer A := fun s => (s, r).

(** [f.write(b)] *)
Definition write (b : list byte) : writer unit :=
  fun s => (mk_wstate (written s ++ b) (entropy s), Ok tt).

(** [os.urandom(n)] *)
Definition urandom (n : nat) : writer (list byte) :=
  fun s => (mk_wstate (written s) (fun i => entropy s (n + i)%nat),
            Ok (map (entropy s) (seq 0 n))).

(** [for x in xs: body(x)] *)
Fixpoint for_each {A} (xs : list A) (body : A -> writer unit) : writer unit :=
  match xs with
  | [] => wret tt
  | x :: xs' => wbind (body x) (fun _ => for_each xs' body)
  end.

Definition wrun {A} (m : writer A) (tape : nat -> byte) : list byte * res A :=
  let (s, r) := m (mk_wstate [] tape) in (written s, r).

End file.

(** ** numpy arrays *)

Module np.

Record ndarray : Type := mk_ndarray {
  shape : list Z;
  flat : list Z
}.

Definition prod (sh : list Z) : Z := fold_right Z.mul 1 sh.

(** [np.array(t)] for a tuple of numbers. *)
Definition array (t : list Z) : ndarray :=
  mk_ndarray [Z.of_nat (length t)] t.

(** [np.zeros(sh)] *)
Definition zeros (sh : list Z) : res ndarray :=
  if forallb (fun d => 0 <=? d) sh
  then Ok (mk_ndarray sh (repeat 0 (Z.to_nat (prod sh))))
  else Raise ValueError.

(** [a.reshape(r, c)]: a negative entry stands for the one dimension to
    be inferred from the size; otherwise the sizes must agree. *)
Definition reshape2 (a : ndarray) (r c : Z) : res ndarray :=
  let n := Z.of_nat (length (flat a)) in
  if (r <? 0) && (c <? 0) then Raise ValueError
  else if r <? 0 then
    if (c =? 0) || negb (n mod c =? 0) then Raise ValueError
    else Ok (mk_ndarray [n / c; c] (flat a))
  else if c <? 0 then
    if (r =? 0) || negb (n mod r =? 0) then Raise ValueError
    else Ok (mk_ndarray [r; n / r] (flat a))
  else if r * c =? n then Ok (mk_ndarray [r; c] (flat a))
  else Raise ValueError.

(** [np.reshape(a, n)] *)
Definition reshape1 (a : ndarray) (n : Z) : res ndarray :=
  let len := Z.of_nat (length (flat a)) in
  if n <? 0 then Ok (mk_ndarray [len] (flat a))
  else if n =? len then Ok (mk_ndarray [n] (flat a))
  else Raise ValueError.

(** [a[:, :, k]] for a literal [k >= 0]. *)
Definition take_axis2 (a : ndarray) (k : nat) : res ndarray :=
  match shape a with
  | r :: c :: d :: rest =>
      if Z.of_nat k <? d then
        let inner := Z.to_nat (prod rest) in
        Ok (mk_ndarray (r :: c :: rest)
              (concat (map (fun px => firstn inner (skipn (k * inner) px))
                           (py.chunks (Z.to_nat d * inner) (Z.to_nat (r * c))
                                      (flat a)))))
      else Raise IndexError
  | _ => Raise IndexError
  end.

Definition atleast_2d (a : ndarray) : ndarray :=
  match shape a with
  | [] => mk_ndarray [1; 1] (flat a)
  | [n] => mk_ndarray [1; n] (flat a)
  | _ => a
  end.

(** [np.vstack(l)]: concatenation along the first axis of arrays that
    agree on the other axes. *)
Definition vstack (l : list ndarray) : res ndarray :=
  match map atleast_2d l with
  | [] => Raise ValueError
  | a0 :: rest =>
      if forallb (fun a => if list_eq_dec Z.eq_dec (tl (shape a)) (tl (shape a0))
                           then true else false) rest
      then Ok (mk_ndarray
                 (fold_right Z.add 0 (map (fun a => hd 0 (shape a)) (a0 :: rest))
                    :: tl (shape a0))
                 (concat (map flat (a0 :: rest))))
      else Raise ValueError
  end.

(** The bound of a slice clipped to an axis of length [len]. *)
Definition slice_bound (i len : Z) : Z :=
  if i <? 0 then Z.max 0 (i + len) else Z.min i len.

(** [a[lo:hi, :]] on a two-dimensional array. *)
Definition slice_rows (a : ndarray) (lo hi : Z) : res ndarray :=
  match shape a with
  | [r; c] =>
      let s := slice_bound lo r in
      let n := Z.max 0 (slice_bound hi r - s) in
      Ok (mk_ndarray [n; c]
            (firstn (Z.to_nat (n * c)) (skipn (Z.to_nat (s * c)) (flat a))))
  | _ => Raise IndexError
  end.

(** Element [k] of every group of [d] elements of [dst] takes the next
    value of [src]. *)
Fixpoint put_axis2 (d k : nat) (src dst : list Z) : list Z :=
  match src with
  | [] => dst
  | v :: src' =>
      py.setitem (firstn d dst) k v ++ put_axis2 d k src' (skipn d dst)
  end.

(** [dst[:, :, k] = src] on a three-dimensional [dst], for a source of
    the shape of the plane assigned to (the only case that arises: no
    broadcasting is modelled). *)
Definition assign_axis2 (dst : ndarray) (k : nat) (src : ndarray) : res ndarray :=
  match shape dst with
  | [r; c; d] =>
      if Z.of_nat k <? d then
        if list_eq_dec Z.eq_dec (shape src) [r; c]
        then Ok (mk_ndarray (shape dst)
                   (put_axis2 (Z.to_nat d) k (flat src) (flat dst)))
        else Raise ValueError
      else Raise IndexError
  | _ => Raise IndexError
  end.

(** [header[i] = v] on a [uint16] array: the value is stored modulo
    [2^16], the conversion done by the numpy releases for the Python
    versions the file is documented with. *)
Definition setitem_uint16 (a : list Z) (i : nat) (v : Z) : list Z :=
  py.setitem a i (v mod 2 ^ 16).

End np.

(** ** Notation for sequencing *)

Declare Scope reader_scope.
Delimit Scope reader_scope with reader.
Notation "x <- m ;; k" := (file.bind m (fun x => k))
  (at level 61, m at next level, right associativity) : reader_scope.
Notation "' p <- m ;; k" := (file.bind m (fun x => let 'p := x in k))
  (at level 61, p pattern, m at next level, right associativity) : reader_scope.
Notation "m ;; k" := (file.bind m (fun _ => k))
  (at level 61, right associativity) : reader_scope.

Declare Scope writer_scope.
Delimit Scope writer_scope with writer.
Notation "x <- m ;; k" := (file.wbind m (fun x => k))
  (at level 61, m at next level, right associativity) : writer_scope.
Notation "' p <- m ;; k" := (file.wbind m (fun x => let 'p := x in k))
  (at level 61, p pattern, m at next level, right associativity) : writer_scope.
Notation "m ;; k" := (file.wbind m (fun _ => k))
  (at level 61, right associativity) : writer_scope.

(** ** [read_hobj] *)

Definition read_hobj : file.reader np.ndarray :=
  (ibuffer <- file.read 84 ;;
   t <- file.lift (struct.unpack_i 1 (rev (py.slice ibuffer 72 76))) ;;
   npixels <- file.lift (py.getitem t 0) ;;
   t <- file.lift (struct.unpack_h 1 (rev (py.slice ibuffer 80 82))) ;;
   rows0 <- file.lift (py.getitem t 0) ;;
   let rows := rows0 + 1 in
   t <- file.lift (struct.unpack_h 1 (rev (py.slice ibuffer 82 84))) ;;
   cols0 <- file.lift (py.getitem t 0) ;;
   let cols := cols0 + 1 in
   file.seek (84 + rows * 6 + 17) ;;
   image_str <- file.read (npixels * 2) ;;
   image_array <- file.lift (struct.unpack_h npixels image_str) ;;
   file.lift (np.reshape2 (np.array image_array) rows cols))%reader.

(** ** [read_oma] *)

(** [b'OMA2 Binary Data'] *)
Definition oma2_tag : list byte := list_byte_of_string "OMA2 Binary Data".

(** The fields of a tagged header, lines 66 to 81: the tuple [specs]. *)
Definition read_oma_tagged_fields : file.reader (list Z) :=
  (buf <- file.read (3 * 4) ;;
   t <- file.lift (struct.unpack_i 3 buf) ;;
   '(nspecs, nvalues, nrulerchar) <- file.lift (py.unpack3 t) ;;
   buf <- file.read (4 * nspecs) ;;
   specs <- file.lift (struct.unpack_i nspecs buf) ;;
   buf <- file.read (4 * nvalues) ;;
   values <- file.lift (struct.unpack_f nvalues buf) ;;
   buf <- file.read (1 * nrulerchar) ;;
   rulerchar <- file.lift (struct.unpack_c nrulerchar buf) ;;
   buf <- file.read (4 * 4) ;;
   t <- file.lift (struct.unpack_i 4 buf) ;;
   '(error, is_big_endian, commentSize, extraSize) <- file.lift (py.unpack4 t) ;;
   (if 0 <? commentSize
    then buf <- file.read (1 * commentSize) ;;
         comment <- file.lift (struct.unpack_c commentSize buf) ;;
         file.ret tt
    else file.ret tt) ;;
   (if 0 <? extraSize
    then buf <- file.read (1 * extraSize) ;;
         extra <- file.lift (struct.unpack_c extraSize buf) ;;
         file.ret tt
    else file.ret tt) ;;
   file.ret specs)%reader.

(** Lines 83 to 85: the geometry and the colour flag. *)
Definition specs_geometry (specs : list Z) : res (Z * Z * Z) :=
  res_bind (py.getitem specs 0) (fun row =>
  res_bind (py.getitem specs 1) (fun col =>
  res_bind (py.getitem specs 8) (fun is_color =>
  Ok (row, col, is_color)))).

Definition read_oma_tagged_header : file.reader (Z * Z * Z) :=
  (specs <- read_oma_tagged_fields ;;
   file.lift (specs_geometry specs))%reader.

(** The header of an untagged file, lines 87 to 90. *)
Definition read_oma_legacy_header : file.reader (Z * Z * Z) :=
  (file.seek (7 * 2) ;;
   buf <- file.read 4 ;;
   t <- file.lift (struct.unpack_h 2 buf) ;;
   '(col, row) <- file.lift (py.unpack2 t) ;;
   file.seek (256 * 2 + 80 * 4) ;;
   file.ret (row, col, 0))%reader.

(** Lines 97 to 107: the three bands of the plane become the channels. *)
Definition split_planes (image : np.ndarray) (row col : Z) : res np.ndarray :=
  let row_size := py.int_truediv row 3 in
  res_bind (np.slice_rows image 0 row_size) (fun red =>
  res_bind (np.slice_rows image row_size (2 * row_size)) (fun green =>
  res_bind (np.slice_rows image (2 * row_size) (3 * row_size)) (fun blue =>
  res_bind (np.zeros [row_size; col; 3]) (fun color_image =>
  res_bind (np.assign_axis2 color_image 0 red) (fun color_image =>
  res_bind (np.assign_axis2 color_image 1 green) (fun color_image =>
  res_bind (np.assign_axis2 color_image 2 blue) (fun color_image =>
  Ok color_image))))))).

(** Lines 93 to 110: the image made of the bytes of the samples. *)
Definition oma_image (row col is_color : Z) (image_str : list byte)
  : res np.ndarray :=
  let npixels := row * col in
  res_bind (struct.unpack_f npixels image_str) (fun image =>
  res_bind (np.reshape2 (np.array image) row col) (fun image =>
  if is_color =? 1
  then split_planes image row col
  else Ok image)).

(** Lines 91 to 110: the samples are read and the image is made. *)
Definition read_oma_image (row col is_color : Z) : file.reader np.ndarray :=
  (let npixels := row * col in
   image_str <- file.read (npixels * 4) ;;
   file.lift (oma_image row col is_color image_str))%reader.

Definition read_oma : file.reader np.ndarray :=
  (image_header <- file.read 30 ;;
   '(row, col, is_color) <-
     (if py.contains oma2_tag image_header
      then read_oma_tagged_header
      else read_oma_legacy_header) ;;
   read_oma_image row col is_color)%reader.

(** ** [write_oma] *)

(** [b'OMA2 Binary Data 1.0\x00\x00\x00\x00\x00\x00\x00\x00\x00\x00'] *)
Definition oma2_header : list byte :=
  list_byte_of_string "OMA2 Binary Data 1.0" ++ repeat Byte.x00 10.

(** The array of line 136. *)
Definition specs_template (row col : Z) : list Z :=
  [row; col; 0; 0; 1; 1; 117315; 600; 1; 1; 0; 117315; 600; 117314; 26;
   121200; 33; 0; 2; 0; 1; 0; 2; 0; 16; 0; 0; 0; 0; 0; 2791529; 0].

(** [np.vstack([data[:,:,0], data[:,:,1], data[:,:,2]])] *)
Definition stack_planes (data : np.ndarray) : res np.ndarray :=
  res_bind (np.take_axis2 data 0) (fun p0 =>
  res_bind (np.take_axis2 data 1) (fun p1 =>
  res_bind (np.take_axis2 data 2) (fun p2 =>
  np.vstack [p0; p1; p2]))).

(** [len(data.shape)] *)
Definition ndim (data : np.ndarray) : Z := Z.of_nat (length (np.shape data)).

(** Lines 125 to 129 and 162 to 166. *)
Definition rows_and_cols (data : np.ndarray) : file.writer (Z * Z) :=
  (row <- file.wlift (py.getitem (np.shape data) 0) ;;
   col <- (if 1 <? ndim data
           then file.wlift (py.getitem (np.shape data) 1)
           else file.wret 1) ;;
   file.wret (row, col))%writer.

(** Lines 150 to 153 and 178 to 181. *)
Definition write_samples (data : np.ndarray) (row col : Z) : file.writer unit :=
  (data_single_row <- file.wlift (np.reshape1 data (row * col)) ;;
   file.for_each (np.flat data_single_row)
     (fun d => file.write (struct.pack_f d)))%writer.

(** Lines 136 to 153: the header fields after the counts, and the samples. *)
Definition write_oma_new_body (is_color : Z) (data : np.ndarray) (row col : Z)
  : file.writer unit :=
  (let specs := specs_template row col in
   let specs := py.setitem specs 8 is_color in
   file.for_each specs
     (fun spec => b <- file.wlift (struct.pack_i spec) ;; file.write b) ;;
   file.for_each (seq 0 16)
     (fun value => file.write (struct.pack_f 0)) ;;
   file.for_each (seq 0 16)
     (fun ruler => r <- file.urandom 1 ;;
                   b <- file.wlift (struct.pack_c r) ;;
                   file.write b) ;;
   b <- file.wlift (struct.pack_all struct.pack_i [0; 0; 0; 0]) ;;
   file.write b ;;
   write_samples data row col)%writer.

(** Lines 119 to 153. *)
Definition write_oma_new (data : np.ndarray) : file.writer unit :=
  (file.write oma2_header ;;
   b <- file.wlift (struct.pack_all struct.pack_i [32; 16; 16]) ;;
   file.write b ;;
   '(row, col) <- rows_and_cols data ;;
   colour <- (if 2 <? ndim data
              then d <- file.wlift (py.getitem (np.shape data) 2) ;;
                   file.wret (d =? 3)
              else file.wret false) ;;
   '(is_color, data, row) <-
     (if colour : bool
      then data <- file.wlift (stack_planes data) ;;
           file.wret (1, data, 3 * row)
      else file.wret (0, data, row)) ;;
   write_oma_new_body is_color data row col)%writer.

(** Lines 156 to 181. *)
Definition write_oma_legacy (data : np.ndarray) : file.writer unit :=
  (let le := 32639 in
   let header := repeat 0 256 in
   let data_offset := repeat 0 80 in
   let header := np.setitem_uint16 header 226 le in
   '(row, col) <- rows_and_cols data ;;
   let header := np.setitem_uint16 header 7 col in
   let header := np.setitem_uint16 header 8 row in
   file.for_each header
     (fun h => header_bytes <- file.wlift (struct.pack_H h) ;;
               file.write header_bytes) ;;
   file.for_each data_offset
     (fun o => file.write (struct.pack_f o)) ;;
   '(data, row) <-
     (if ndim data =? 3
      then data <- file.wlift (stack_planes data) ;;
           file.wret (data, 3 * row)
      else file.wret (data, row)) ;;
   write_samples data row col)%writer.

Definition write_oma (data : np.ndarray) (use_new : bool) : file.writer unit :=
  if use_new then write_oma_new data else write_oma_legacy data.

(** ** Vocabulary of the statements *)

(** The values the ['i'] format packs. *)
Definition in_int32 (v : Z) : Prop := - 2 ^ 31 <= v <= 2 ^ 31 - 1.

(** The patterns of binary32 samples. *)
Definition is_f32 (x : Z) : Prop := 0 <= x < 2 ^ 32.

(** Little-endian 32-bit integers, 16-bit words and binary32 samples. *)
Definition ints (vs : list Z) : list byte := flat_map (le_split 4) vs.
Definition words (vs : list Z) : list byte := flat_map (le_split 2) vs.
Definition floats (vs : list Z) : list byte := flat_map struct.pack_f vs.

(** The [n] binary32 samples stored from byte [pos] of a file. *)
Definition samples_at (content : list byte) (pos : nat) (n : Z) : list Z :=
  map struct.decode_f
      (py.chunks 4 (Z.to_nat n) (firstn (Z.to_nat (n * 4)) (skipn pos content))).

(** The signed 16-bit and 32-bit integers stored at byte [pos] of a file. *)
Definition int16_at (content : list byte) (pos : nat) : Z :=
  struct.decode_h (firstn 2 (skipn pos content)).
Definition int32_at (content : list byte) (pos : nat) : Z :=
  struct.decode_i (firstn 4 (skipn pos content)).
(** The same fields stored most significant byte first. *)
Definition int16_be_at (content : list byte) (pos : nat) : Z :=
  struct.decode_h (rev (firstn 2 (skipn pos content))).
Definition int32_be_at (content : list byte) (pos : nat) : Z :=
  struct.decode_i (rev (firstn 4 (skipn pos content))).

(** The [n] signed 16-bit samples stored from byte [pos] of a file. *)
Definition int16s_at (content : list byte) (pos : nat) (n : Z) : list Z :=
  map struct.decode_h
      (py.chunks 2 (Z.to_nat n) (firstn (Z.to_nat (n * 2)) (skipn pos content))).

(** [a[i, j]] and [a[i, j, k]] for indices inside the array. *)
Definition item2 (a : np.ndarray) (i j : Z) : Z :=
  match np.shape a with
  | [_; c] => nth (Z.to_nat (i * c + j)) (np.flat a) 0
  | _ => 0
  end.
Definition item3 (a : np.ndarray) (i j k : Z) : Z :=
  match np.shape a with
  | [_; c; d] => nth (Z.to_nat ((i * c + j) * d + k)) (np.flat a) 0
  | _ => 0
  end.

(** The image of the data model: [rows] by [cols] samples, one plane or
    three interleaved channels, both dimensions positive 32-bit counts. *)
Inductive layout : Type := Mono | Color.

Definition image_shape (l : layout) (rows cols : Z) : list Z :=
  match l with
  | Mono => [rows; cols]
  | Color => [rows; cols; 3]
  end.

Definition Image (a : np.ndarray) (l : layout) (rows cols : Z) : Prop :=
  np.shape a = image_shape l rows cols /\
  0 < rows < 2 ^ 32 /\ 0 < cols < 2 ^ 32 /\
  Z.of_nat (length (np.flat a)) = np.prod (np.shape a) /\
  Forall is_f32 (np.flat a).

(** The array with every signalling NaN quieted: what packing and
    unpacking make of the samples. *)
Definition quieted (a : np.ndarray) : np.ndarray :=
  np.mk_ndarray (np.shape a) (map struct.quiet (np.flat a)).

(** No sample is a signalling NaN. *)
Definition no_snan (a : np.ndarray) : Prop :=
  Forall (fun x => struct.is_snan x = false) (np.flat a).

(** The rows of the plane an image is stored as. *)
Definition stored_rows (l : layout) (rows : Z) : Z :=
  match l with
  | Mono => rows
  | Color => 3 * rows
  end.

(** The bytes of a new-format file. *)
Definition oma2_new_bytes (row col is_color : Z) (ruler : list byte)
           (samples : list Z) : list byte :=
  oma2_header ++ ints [32; 16; 16]
    ++ ints (py.setitem (specs_template row col) 8 is_color)
    ++ floats (repeat 0 16) ++ ruler ++ ints [0; 0; 0; 0] ++ floats samples.

(** The bytes of a legacy file whose header records [row] and [col]. *)
Definition oma2_legacy_header (row col : Z) : list Z :=
  repeat 0 7 ++ [col; row] ++ repeat 0 217 ++ [32639] ++ repeat 0 29.

Definition oma2_legacy_bytes (row col : Z) (samples : list Z) : list byte :=
  words (oma2_legacy_header row col) ++ floats (repeat 0 80) ++ floats samples.

(** Channel [k] of interleaved three-channel samples. *)
Fixpoint channel (k : nat) (l : list Z) : list Z :=
  match l with
  | a :: b :: c :: l' => nth k [a; b; c] 0 :: channel k l'
  | _ => []
  end.

(** Three planes interleaved sample by sample. *)
Fixpoint interleave3 (r g b : list Z) : list Z :=
  match r, g, b with
  | x :: r', y :: g', z :: b' => x :: y :: z :: interleave3 r' g' b'
  | _, _, _ => []
  end.

(** A tagged header as it lies in a file: the 30 bytes holding the tag,
    the three counts, the specs, the values, the ruler characters, the
    four integers and the comment and extra blocks they announce. *)
Record tagged_header : Type := mk_tagged_header {
  th_tag : list byte;
  th_specs : list Z;
  th_values : list Z;
  th_ruler : list byte;
  th_error : Z;
  th_big_endian : Z;
  th_comment : list byte;
  th_extra : list byte
}.

Definition len {A} (l : list A) : Z := Z.of_nat (length l).

Definition tagged_header_bytes (h : tagged_header) : list byte :=
  th_tag h
    ++ ints [len (th_specs h); len (th_values h); len (th_ruler h)]
    ++ ints (th_specs h) ++ floats (th_values h) ++ th_ruler h
    ++ ints [th_error h; th_big_endian h; len (th_comment h); len (th_extra h)]
    ++ th_comment h ++ th_extra h.

Definition tagged_header_ok (h : tagged_header) : Prop :=
  length (th_tag h) = 30%nat /\
  py.contains oma2_tag (th_tag h) = true /\
  Forall in_int32 (th_specs h) /\
  Forall is_f32 (th_values h) /\
  in_int32 (len (th_specs h)) /\ in_int32 (len (th_values h)) /\
  in_int32 (len (th_ruler h)) /\
  in_int32 (th_error h) /\ in_int32 (th_big_endian h) /\
  in_int32 (len (th_comment h)) /\ in_int32 (len (th_extra h)).

(** The image the decoder makes of a colour plane of [row] by [col]
    samples: three bands of [row / 3] rows, interleaved. *)
Definition color_of_plane (row col : Z) (plane : list Z) : np.ndarray :=
  let n := Z.to_nat (py.int_truediv row 3 * col) in
  np.mk_ndarray [py.int_truediv row 3; col; 3]
    (interleave3 (firstn n plane)
                 (firstn n (skipn n plane))
                 (firstn n (skipn (2 * n) plane))).

(** A read that returns [a] and leaves the cursor in front of [rest]. *)
Definition ends_at {A} (content : list byte) (a : A) (rest : list byte)
           (r : res (A * nat)) : Prop :=
  exists pos, r = Ok (a, pos) /\ skipn pos content = rest.

(** The values a [uint16] array holds. *)
Definition is_uint16 (v : Z) : Prop := 0 <= v < 2 ^ 16.

(** The header of the file the new-format writer writes. *)
Definition written_header (row col is_color : Z) (ruler : list byte) : tagged_header :=
  mk_tagged_header oma2_header (py.setitem (specs_template row col) 8 is_color)
                   (repeat 0 16) ruler 0 0 [] [].

(** ** Inputs the properties are tried on *)

(** An entropy source. *)
Definition tape0 : nat -> byte := fun i => byte.of_Z (Z.of_nat i + 65).

(** A tagged file with the given specs and samples and no values, ruler,
    comment or extra block. *)
Definition plain_header (specs : list Z) : tagged_header :=
  mk_tagged_header oma2_header specs [] [] 0 0 [] [].

Definition tagged_file (specs samples : list Z) : list byte :=
  tagged_header_bytes (plain_header specs) ++ floats samples.

(** A colour file of 7 rows of one sample. *)
Definition file_rows7 : list byte :=
  tagged_file (py.setitem (specs_template 7 1) 8 1) [1; 2; 3; 4; 5; 6; 7].

(** A colour file of 6 rows of 4 samples. *)
Definition file_6x4 : list byte :=
  tagged_file (py.setitem (specs_template 6 4) 8 1)
    [0; 1; 2; 3; 4; 5; 6; 7; 8; 9; 10; 11; 12; 13; 14; 15; 16; 17; 18; 19;
     20; 21; 22; 23].

(** A file of 3 rows of one sample whose colour flag is 2. *)
Definition file_flag2 : list byte :=
  tagged_file (py.setitem (specs_template 3 1) 8 2) [1; 2; 3].

(** A tagged file that announces 5 specs. *)
Definition file_five_specs : list byte :=
  tagged_header_bytes (plain_header [6; 4; 0; 0; 1]) ++ floats [1; 2].


(** A HOBJ file with [npixels = 4], a stored row count of -2 (so
    [rows = -1]) and a stored column count of 1 (so [cols = 2]). *)
Definition hobj_inferred_rows : list byte :=
  repeat Byte.x00 72 ++ [Byte.x00; Byte.x00; Byte.x00; Byte.x04]
    ++ repeat Byte.x00 4 ++ [Byte.xff; Byte.xfe; Byte.x00; Byte.x01]
    ++ repeat Byte.x00 11 ++ words [1; 2; 3; 4].

(** A HOBJ file with [npixels = 2], [rows = 1] and [cols = 1]. *)
Definition hobj_two_pixels : list byte :=
  repeat Byte.x00 72 ++ [Byte.x00; Byte.x00; Byte.x00; Byte.x02]
    ++ repeat Byte.x00 4 ++ [Byte.x00; Byte.x00; Byte.x00; Byte.x00]
    ++ repeat Byte.x00 23 ++ words [1; 2].

(** A legacy file whose bytes 14 to 17 hold [cols = 4], [rows = 2]. *)
Definition legacy_2x4 : list byte :=
  words (oma2_legacy_header 2 4) ++ floats (repeat 0 80)
    ++ floats [1; 2; 3; 4; 5; 6; 7; 8].

(** Images. *)
Definition mono_2x3 : np.ndarray := np.mk_ndarray [2; 3] [1; 2; 3; 4; 5; 6].
Definition color_1x2 : np.ndarray :=
  np.mk_ndarray [1; 2; 3] [10; 11; 12; 20; 21; 22].
Definition rgb_1x1 : np.ndarray := np.mk_ndarray [1; 1; 3] [10; 20; 30].
Definition line_3 : np.ndarray := np.mk_ndarray [3] [7; 8; 9].

(** A mono image of one sample, the signalling NaN [0x7F800001]. *)
Definition snan_1x1 : np.ndarray := np.mk_ndarray [1; 1] [2139095041].

(** A mono image of [2^31] rows of one sample. *)
Definition huge_mono : np.ndarray :=
  np.mk_ndarray [2 ^ 31; 1] (repeat 0 (Z.to_nat (2 ^ 31))).

(** A one-dimensional array of 65536 samples. *)
Definition line_65536 : np.ndarray :=
  np.mk_ndarray [65536] (repeat 0 (Z.to_nat 65536)).

(** A HOBJ file of one pixel: stored rows and columns 0, [npixels = 1]. *)
Definition hobj_1x1 : list byte :=
  repeat Byte.x00 72 ++ [Byte.x00; Byte.x00; Byte.x00; Byte.x01]
    ++ repeat Byte.x00 4 ++ [Byte.x00; Byte.x00; Byte.x00; Byte.x00]
    ++ repeat Byte.x00 23 ++ [Byte.x34; Byte.x12].

(** The same file without its last byte. *)
Definition hobj_1x1_cut : list byte := firstn 108 hobj_1x1.

(** A tagged header with 32 specs, 16 values, a ruler, set flags, a
    comment and an extra block. *)
Definition busy_header : tagged_header :=
  mk_tagged_header oma2_header (py.setitem (specs_template 1 1) 8 0) (repeat 7 16)
    (repeat Byte.x41 16) 3 1 (repeat Byte.x42 5) [Byte.x43].

(** An untagged file cut in the middle of its samples. *)
Definition legacy_2x4_cut : list byte := firstn 860 legacy_2x4.

(** An untagged file whose header words are [cols = 4], [rows = -1]. *)
Definition legacy_negative_rows : list byte :=
  words (repeat 0 7 ++ [4; 65535] ++ repeat 0 247) ++ floats (repeat 0 80).

(** A mono image of 32768 rows of one sample. *)
Definition tall_mono : np.ndarray :=
  np.mk_ndarray [32768; 1] (repeat 0 (Z.to_nat 32768)).

(** Arrays the writer does not take. *)
Definition rgba_1x1 : np.ndarray := np.mk_ndarray [1; 1; 4] [10; 20; 30; 40].
Definition pair_1x1 : np.ndarray := np.mk_ndarray [1; 1; 2] [10; 20].
Definition scalar_5 : np.ndarray := np.mk_ndarray [] [5].

(** A HOBJ file whose stored row count is -100, so that [rows = -99]. *)
Definition hobj_rows_minus_99 : list byte :=
  repeat Byte.x00 80 ++ [Byte.xff; Byte.x9c; Byte.x00; Byte.x00].

(** * Properties *)

Section StructFacts.

Lemma swrap_small (w v : Z) :
  0 < w -> - 2 ^ (w - 1) <= v < 2 ^ (w - 1) -> struct.swrap w (v mod 2 ^ w) = v.
Proof.
  intros Hw Hv. unfold struct.swrap.
  assert (E : 2 ^ w = 2 * 2 ^ (w - 1)).
  { replace w with (Z.succ (w - 1)) at 1 by lia. rewrite Z.pow_succ_r by lia. reflexivity. }
  rewrite Zplus_mod_idemp_l.
  rewrite Z.mod_small by lia. lia.
Qed.

Lemma swrap_range (w z : Z) :
  0 < w -> - 2 ^ (w - 1) <= struct.swrap w z < 2 ^ (w - 1).
Proof.
  intros Hw. unfold struct.swrap.
  assert (E : 2 ^ w = 2 * 2 ^ (w - 1)).
  { replace w with (Z.succ (w - 1)) at 1 by lia. rewrite Z.pow_succ_r by lia. reflexivity. }
  assert (P : 0 < 2 ^ (w - 1)) by (apply Z.pow_pos_nonneg; lia).
  pose proof (Z.mod_pos_bound (z + 2 ^ (w - 1)) (2 ^ w) ltac:(lia)). lia.
Qed.

Lemma decode_i_le_split v :
  - 2 ^ 31 <= v <= 2 ^ 31 - 1 -> struct.decode_i (le_split 4 v) = v.
Proof.
  intros H. unfold struct.decode_i. rewrite le_combine_split.
  apply (swrap_small 32); lia.
Qed.

Lemma quiet_same x : struct.is_snan x = false -> struct.quiet x = x.
Proof. intros H. unfold struct.quiet. rewrite H. reflexivity. Qed.

Lemma is_snan_quiet x : struct.is_snan (struct.quiet x) = false.
Proof.
  unfold struct.quiet. destruct (struct.is_snan x) eqn:E; [|exact E].
  unfold struct.is_snan. rewrite Z.lor_spec.
  change (Z.testbit 4194304 22) with true. rewrite orb_true_r.
  cbn [negb]. rewrite andb_false_r. reflexivity.
Qed.

Lemma quiet_quiet x : struct.quiet (struct.quiet x) = struct.quiet x.
Proof. apply quiet_same, is_snan_quiet. Qed.

Lemma quiet_range x : 0 <= x < 2 ^ 32 -> 0 <= struct.quiet x < 2 ^ 32.
Proof.
  intros H. unfold struct.quiet. destruct (struct.is_snan x); [|exact H].
  assert (H0 : 0 <= Z.lor x 4194304) by (apply Z.lor_nonneg; lia).
  split; [exact H0|].
  destruct (Z.eq_dec (Z.lor x 4194304) 0) as [E|E]; [rewrite E; lia|].
  apply Z.log2_lt_pow2; [lia|]. rewrite Z.log2_lor by lia.
  apply Z.max_lub_lt; [|reflexivity].
  destruct (Z.eq_dec x 0) as [->|Hx]; [reflexivity|].
  apply Z.log2_lt_pow2; lia.
Qed.

Lemma decode_f_pack_f x :
  0 <= x < 2 ^ 32 -> struct.decode_f (struct.pack_f x) = struct.quiet x.
Proof.
  intros H. unfold struct.decode_f, struct.pack_f. rewrite le_combine_split.
  rewrite Z.mod_small by (apply quiet_range; exact H). apply quiet_quiet.
Qed.

Lemma chunks_flat_map {A B} (k : nat) (enc : A -> list B) (l : list A) (rest : list B) :
  (forall x, length (enc x) = k) ->
  py.chunks k (length l) (flat_map enc l ++ rest) = map enc l.
Proof.
  intros Hk. induction l as [|x l IH]; simpl; [reflexivity|].
  rewrite <- app_assoc.
  rewrite firstn_app, skipn_app, Hk, Nat.sub_diag, firstn_all2 by (rewrite Hk; lia).
  rewrite skipn_all2 by (rewrite Hk; lia).
  simpl. rewrite app_nil_r, IH. reflexivity.
Qed.

Lemma length_flat_map_const {A B} (k : nat) (enc : A -> list B) (l : list A) :
  (forall x, length (enc x) = k) -> length (flat_map enc l) = (k * length l)%nat.
Proof.
  intros Hk. induction l as [|x l IH]; simpl; [lia|].
  rewrite length_app, Hk, IH. lia.
Qed.

Lemma unpack_array_flat_map_any {A B} (w : nat) (dec : list byte -> B)
      (enc : A -> list byte) (l : list A) :
  (forall x, length (enc x) = w) ->
  struct.unpack_array w dec (Z.of_nat (length l)) (flat_map enc l)
  = Ok (map (fun x => dec (enc x)) l).
Proof.
  intros Hw. unfold struct.unpack_array.
  destruct (Z.ltb_spec (Z.of_nat (length l)) 0) as [H|_]; [lia|].
  rewrite (length_flat_map_const w) by exact Hw.
  rewrite Nat2Z.inj_mul, Z.eqb_refl, Nat2Z.id.
  rewrite <- (app_nil_r (flat_map enc l)), (chunks_flat_map w) by exact Hw.
  rewrite map_map. reflexivity.
Qed.

Lemma unpack_array_flat_map {A} (w : nat) (dec : list byte -> A) (enc : A -> list byte)
      (l : list A) :
  (forall x, length (enc x) = w) ->
  Forall (fun x => dec (enc x) = x) l ->
  struct.unpack_array w dec (Z.of_nat (length l)) (flat_map enc l) = Ok l.
Proof.
  intros Hw Hl. unfold struct.unpack_array.
  destruct (Z.ltb_spec (Z.of_nat (length l)) 0) as [H|_]; [lia|].
  rewrite (length_flat_map_const w) by exact Hw.
  rewrite Nat2Z.inj_mul, Z.eqb_refl, Nat2Z.id.
  rewrite <- (app_nil_r (flat_map enc l)), (chunks_flat_map w) by exact Hw.
  rewrite map_map. f_equal.
  induction Hl; simpl; congruence.
Qed.

End StructFacts.

Section WriterFacts.
Import file.

Lemma wbind_ok {A B} (m : writer A) (k : A -> writer B) s s' a :
  m s = (s', Ok a) -> wbind m k s = k a s'.
Proof. intros H. unfold wbind. rewrite H. reflexivity. Qed.

Lemma wbind_raise {A B} (m : writer A) (k : A -> writer B) s s' e :
  m s = (s', Raise e) -> wbind m k s = (s', Raise e).
Proof. intros H. unfold wbind. rewrite H. reflexivity. Qed.

Lemma pack_i_ok v : in_int32 v -> struct.pack_i v = Ok (le_split 4 v).
Proof.
  unfold in_int32, struct.pack_i. intros [H1 H2].
  destruct (Z.leb_spec (- 2 ^ 31) v); [|lia].
  destruct (Z.leb_spec v (2 ^ 31 - 1)); [|lia]. reflexivity.
Qed.

Lemma pack_i_inv v b : struct.pack_i v = Ok b -> in_int32 v /\ b = le_split 4 v.
Proof.
  unfold in_int32, struct.pack_i.
  destruct (Z.leb_spec (- 2 ^ 31) v); cbn [andb]; [|discriminate].
  destruct (Z.leb_spec v (2 ^ 31 - 1)); [|discriminate].
  intros E. injection E as <-. split; [lia | reflexivity].
Qed.

Lemma for_each_pack_i vs w t :
  Forall in_int32 vs ->
  for_each vs (fun spec => wbind (wlift (struct.pack_i spec)) (fun b => write b))
           (mk_wstate w t)
  = (mk_wstate (w ++ ints vs) t, Ok tt).
Proof.
  intros H. revert w. induction H as [|v vs Hv _ IH]; intros w; simpl.
  - unfold wret, ints. simpl. rewrite app_nil_r. reflexivity.
  - unfold wbind at 1. unfold wbind at 1. unfold wlift at 1.
    rewrite (pack_i_ok v Hv). unfold write at 1. simpl.
    rewrite IH. unfold ints. simpl. rewrite <- app_assoc. reflexivity.
Qed.

(** The loop over the specs writes a prefix of them whatever happens,
    independently of the entropy source. *)
Lemma for_each_pack_i_any vs :
  exists out r, forall w t,
    for_each vs (fun spec => wbind (wlift (struct.pack_i spec)) (fun b => write b))
             (mk_wstate w t)
    = (mk_wstate (w ++ out) t, r) /\ (r = Ok tt -> out = ints vs).
Proof.
  induction vs as [|v vs (out & r & IH)]; cbn [for_each].
  - exists [], (Ok tt). intros w t. unfold wret. rewrite app_nil_r. auto.
  - destruct (struct.pack_i v) as [b|e] eqn:E.
    + exists (b ++ out), r. intros w t.
      unfold wbind at 1. unfold wbind at 1. unfold wlift at 1.
      unfold write at 1. cbn [written entropy]. destruct (IH (w ++ b) t) as [-> Hr].
      rewrite <- app_assoc. split; [reflexivity|].
      intros Hok. apply pack_i_inv in E. destruct E as [_ ->].
      rewrite (Hr Hok). reflexivity.
    + exists [], (Raise e). intros w t.
      unfold wbind at 1. unfold wbind at 1. unfold wlift at 1.
      rewrite app_nil_r. split; [reflexivity | discriminate].
Qed.

Lemma for_each_pack_f vs w t :
  for_each vs (fun d => write (struct.pack_f d)) (mk_wstate w t)
  = (mk_wstate (w ++ floats vs) t, Ok tt).
Proof.
  revert w. induction vs as [|v vs IH]; intros w; simpl.
  - unfold wret, floats. simpl. rewrite app_nil_r. reflexivity.
  - unfold wbind, write at 1. simpl. rewrite IH.
    unfold floats. simpl. rewrite <- app_assoc. reflexivity.
Qed.

Lemma for_each_const {A} (l : list A) (b : list byte) w t :
  for_each l (fun _ => write b) (mk_wstate w t)
  = (mk_wstate (w ++ concat (repeat b (length l))) t, Ok tt).
Proof.
  revert w. induction l as [|x l IH]; intros w; simpl.
  - unfold wret. rewrite app_nil_r. reflexivity.
  - unfold wbind, write at 1. simpl. rewrite IH, <- app_assoc. reflexivity.
Qed.

Lemma for_each_urandom (n k : nat) w t :
  for_each (seq k n)
    (fun _ => wbind (urandom 1) (fun r =>
              wbind (wlift (struct.pack_c r)) (fun b => write b)))
    (mk_wstate w t)
  = (mk_wstate (w ++ map t (seq 0 n)) (fun i => t (n + i)%nat), Ok tt).
Proof.
  revert k w t. induction n as [|n IH]; intros k w t; simpl.
  - unfold wret. rewrite app_nil_r. reflexivity.
  - unfold wbind at 1. unfold wbind at 1. unfold urandom at 1. simpl.
    unfold wbind at 1. unfold wlift at 1. unfold write at 1. simpl.
    rewrite IH. simpl. rewrite <- app_assoc. simpl.
    rewrite <- seq_shift, map_map. reflexivity.
Qed.
End WriterFacts.

Section EncoderFacts.
Import file.

Lemma write_samples_ok data row col w t :
  Z.of_nat (length (np.flat data)) = row * col ->
  write_samples data row col (mk_wstate w t)
  = (mk_wstate (w ++ floats (np.flat data)) t, Ok tt).
Proof.
  intros H. unfold write_samples, np.reshape1.
  destruct (Z.ltb_spec (row * col) 0) as [Hn|_]; [lia|].
  rewrite <- H, Z.eqb_refl.
  unfold wbind, wlift. cbn [np.flat]. apply for_each_pack_f.
Qed.

Lemma write_samples_raise data row col w t :
  Z.of_nat (length (np.flat data)) <> row * col -> 0 <= row * col ->
  write_samples data row col (mk_wstate w t)
  = (mk_wstate w t, Raise ValueError).
Proof.
  intros H H0. unfold write_samples, np.reshape1.
  destruct (Z.ltb_spec (row * col) 0) as [Hn|_]; [lia|].
  destruct (Z.eqb_spec (row * col) (Z.of_nat (length (np.flat data)))); [lia|].
  reflexivity.
Qed.

Lemma specs_in_range row col is_color :
  in_int32 row -> in_int32 col -> in_int32 is_color ->
  Forall in_int32 (py.setitem (specs_template row col) 8 is_color).
Proof.
  intros Hr Hc Hi. cbn [py.setitem specs_template].
  repeat (apply Forall_cons; [first [assumption | unfold in_int32; lia]|]).
  apply Forall_nil.
Qed.

Lemma write_oma_new_body_ok is_color data row col w t :
  in_int32 row -> in_int32 col -> in_int32 is_color ->
  Z.of_nat (length (np.flat data)) = row * col ->
  write_oma_new_body is_color data row col (mk_wstate w t)
  = (mk_wstate
       (w ++ ints (py.setitem (specs_template row col) 8 is_color)
          ++ floats (repeat 0 16) ++ map t (seq 0 16)
          ++ ints [0; 0; 0; 0] ++ floats (np.flat data))
       (fun i => t (16 + i)%nat),
     Ok tt).
Proof.
  intros Hr Hc Hi Hlen. unfold write_oma_new_body.
  rewrite (wbind_ok _ _ _ _ _ (for_each_pack_i _ w t (specs_in_range _ _ _ Hr Hc Hi))).
  rewrite (wbind_ok _ _ _ _ _ (for_each_const _ _ _ _)).
  rewrite (wbind_ok _ _ _ _ _ (for_each_urandom _ _ _ _)).
  change (struct.pack_all struct.pack_i [0; 0; 0; 0]) with (Ok (ints [0; 0; 0; 0])).
  unfold wbind at 1. unfold wlift at 1.
  unfold wbind at 1. unfold write at 1. cbn [written entropy].
  rewrite (write_samples_ok _ _ _ _ _ Hlen).
  rewrite <- !app_assoc. reflexivity.
Qed.
End EncoderFacts.

Section ListFacts.

Lemma length_chunks {A} (k n : nat) (l : list A) :
  length (py.chunks k n l) = n.
Proof. revert l. induction n; intros l; simpl; [reflexivity | now rewrite IHn]. Qed.

Lemma length_channel k (l : list Z) n :
  length l = (3 * n)%nat -> length (channel k l) = n.
Proof.
  revert l. induction n as [|n IH]; intros l H.
  - destruct l; [reflexivity | discriminate].
  - destruct l as [|a [|b [|c l]]]; try (simpl in H; lia).
    cbn [channel length]. rewrite IH; [reflexivity | simpl in H; lia].
Qed.

Lemma take_chunks_channel (k : nat) (l : list Z) (n : nat) :
  (k < 3)%nat -> length l = (3 * n)%nat ->
  concat (map (fun px => firstn 1 (skipn (k * 1) px)) (py.chunks 3 n l))
  = channel k l.
Proof.
  intros Hk. revert l. induction n as [|n IH]; intros l H.
  - destruct l; [reflexivity | discriminate].
  - destruct l as [|a [|b [|c l]]]; try (simpl in H; lia).
    cbn [py.chunks map concat channel firstn skipn].
    rewrite IH by (simpl in H; lia).
    destruct k as [|[|[|k]]]; try lia; reflexivity.
Qed.

Lemma interleave3_channels (l : list Z) (n : nat) :
  length l = (3 * n)%nat ->
  interleave3 (channel 0 l) (channel 1 l) (channel 2 l) = l.
Proof.
  revert l. induction n as [|n IH]; intros l H.
  - destruct l; [reflexivity | discriminate].
  - destruct l as [|a [|b [|c l]]]; try (simpl in H; lia).
    cbn [channel interleave3 nth]. rewrite IH by (simpl in H; lia). reflexivity.
Qed.

Lemma put_axis2_interleave (R G B : list Z) :
  length G = length R -> length B = length R ->
  np.put_axis2 3 2 B
    (np.put_axis2 3 1 G (np.put_axis2 3 0 R (repeat 0 (3 * length R))))
  = interleave3 R G B.
Proof.
  revert G B. induction R as [|x R IH]; intros G B HG HB.
  - destruct G; [|discriminate]. destruct B; [|discriminate]. reflexivity.
  - destruct G as [|y G]; [discriminate|]. destruct B as [|z B]; [discriminate|].
    cbn [length].
    replace (3 * S (length R))%nat with (S (S (S (3 * length R)))) by lia.
    cbn [repeat np.put_axis2 firstn skipn py.setitem app interleave3].
    rewrite IH by (simpl in *; lia). reflexivity.
Qed.

Lemma nth_interleave3 (R G B : list Z) (q k : nat) :
  length G = length R -> length B = length R ->
  (q < length R)%nat -> (k < 3)%nat ->
  nth (3 * q + k) (interleave3 R G B) 0 = nth q (nth k [R; G; B] []) 0.
Proof.
  revert G B q. induction R as [|x R IH]; intros G B q HG HB Hq Hk.
  - simpl in Hq. lia.
  - destruct G as [|y G]; [discriminate|]. destruct B as [|z B]; [discriminate|].
    destruct q as [|q].
    + destruct k as [|[|[|k]]]; try lia; reflexivity.
    + replace (3 * S q + k)%nat with (S (S (S (3 * q + k)))) by lia.
      cbn [interleave3 nth].
      rewrite IH by (simpl in *; lia).
      destruct k as [|[|[|k]]]; try lia; reflexivity.
Qed.

Lemma length_interleave3 (R G B : list Z) :
  length G = length R -> length B = length R ->
  length (interleave3 R G B) = (3 * length R)%nat.
Proof.
  revert G B. induction R as [|x R IH]; intros G B HG HB.
  - reflexivity.
  - destruct G as [|y G]; [discriminate|]. destruct B as [|z B]; [discriminate|].
    cbn [interleave3 length]. rewrite IH by (simpl in *; lia). lia.
Qed.

Lemma nth_firstn_skipn {A} (l : list A) (s n q : nat) d :
  (q < n)%nat -> nth q (firstn n (skipn s l)) d = nth (s + q) l d.
Proof.
  intros Hq. rewrite nth_firstn.
  destruct (Nat.ltb_spec q n); [|lia].
  revert l. induction s as [|s IH]; intros l; [reflexivity|].
  destruct l as [|a l]; [destruct q; reflexivity|]. simpl. apply IH.
Qed.

End ListFacts.

Section ReaderFacts.
Import file.

Lemma bind_ok {A B} (m : reader A) (k : A -> reader B) content pos a pos' :
  m content pos = Ok (a, pos') -> bind m k content pos = k a content pos'.
Proof. intros H. unfold bind. rewrite H. reflexivity. Qed.

Lemma bind_raise {A B} (m : reader A) (k : A -> reader B) content pos e :
  m content pos = Raise e -> bind m k content pos = Raise e.
Proof. intros H. unfold bind. rewrite H. reflexivity. Qed.

Lemma bind_inv {A B} (m : reader A) (k : A -> reader B) content pos b pos'' :
  bind m k content pos = Ok (b, pos'') ->
  exists a pos', m content pos = Ok (a, pos') /\ k a content pos' = Ok (b, pos'').
Proof.
  unfold bind. destruct (m content pos) as [[a pos']|e]; [|discriminate].
  intros H. exists a, pos'. auto.
Qed.

Lemma lift_inv {A} (r : res A) content pos a pos' :
  lift r content pos = Ok (a, pos') -> r = Ok a /\ pos' = pos.
Proof.
  unfold lift. destruct r; [|discriminate]. intros H. injection H as <- <-. auto.
Qed.

Lemma read_any n content pos :
  0 <= n <= py.maxsize ->
  read n content pos
  = Ok (firstn (Z.to_nat n) (skipn pos content),
        (pos + length (firstn (Z.to_nat n) (skipn pos content)))%nat).
Proof.
  intros H. unfold read. unfold py.maxsize in *.
  destruct (Z.ltb_spec n (- 2 ^ 63)); [lia|].
  destruct (Z.ltb_spec (2 ^ 63 - 1) n); [lia|]. cbn [orb].
  destruct (Z.ltb_spec n (- 1)); [lia|].
  destruct (Z.ltb_spec n 0); [lia | reflexivity].
Qed.

Lemma read_negative n content pos :
  - 2 ^ 63 <= n < - 1 -> read n content pos = Raise ValueError.
Proof.
  intros H. unfold read. unfold py.maxsize.
  destruct (Z.ltb_spec n (- 2 ^ 63)); [lia|].
  destruct (Z.ltb_spec (2 ^ 63 - 1) n); [lia|]. cbn [orb].
  destruct (Z.ltb_spec n (- 1)); [reflexivity | lia].
Qed.


Lemma read_at n chunk rest content pos :
  skipn pos content = chunk ++ rest -> len chunk = n -> n <= py.maxsize ->
  read n content pos = Ok (chunk, (pos + length chunk)%nat).
Proof.
  intros Hs Hn Hm. rewrite read_any by (unfold len in Hn; lia).
  unfold len in Hn.
  rewrite Hs, <- Hn, Nat2Z.id, firstn_app, Nat.sub_diag, firstn_all.
  cbn [firstn]. rewrite app_nil_r. reflexivity.
Qed.

Lemma skipn_advance {A} (content chunk rest : list A) pos :
  skipn pos content = chunk ++ rest ->
  skipn (pos + length chunk) content = rest.
Proof.
  intros Hs. rewrite Nat.add_comm, <- skipn_skipn, Hs.
  rewrite skipn_app, Nat.sub_diag, skipn_all. reflexivity.
Qed.

Lemma read_enough n content pos :
  0 <= n <= len (skipn pos content) -> n <= py.maxsize ->
  read n content pos
  = Ok (firstn (Z.to_nat n) (skipn pos content), (pos + Z.to_nat n)%nat).
Proof.
  intros H Hm. rewrite read_any by lia. unfold len in H.
  rewrite length_firstn, Nat.min_l by lia. reflexivity.
Qed.

End ReaderFacts.

Section ImageFacts.

Lemma slice_rows_in (r c lo hi n : Z) (S : list Z) :
  0 <= lo -> lo <= hi -> hi <= r -> n = hi - lo ->
  np.slice_rows (np.mk_ndarray [r; c] S) lo hi
  = Ok (np.mk_ndarray [n; c]
          (firstn (Z.to_nat (n * c)) (skipn (Z.to_nat (lo * c)) S))).
Proof.
  intros H0 H1 H2 ->. unfold np.slice_rows, np.slice_bound. cbn [np.shape np.flat].
  destruct (Z.ltb_spec lo 0); [lia|]. destruct (Z.ltb_spec hi 0); [lia|].
  rewrite !Z.min_l by lia. rewrite Z.max_r by lia. reflexivity.
Qed.

Lemma zeros_ok (sh : list Z) :
  Forall (fun d => 0 <= d) sh ->
  np.zeros sh = Ok (np.mk_ndarray sh (repeat 0 (Z.to_nat (np.prod sh)))).
Proof.
  intros H. unfold np.zeros.
  replace (forallb (fun d => 0 <=? d) sh) with true; [reflexivity|].
  symmetry. apply forallb_forall. intros d Hd.
  rewrite Forall_forall in H. apply Z.leb_le. auto.
Qed.

Lemma assign_axis2_ok (r c : Z) (k : nat) (P D : list Z) :
  (k < 3)%nat ->
  np.assign_axis2 (np.mk_ndarray [r; c; 3] D) k (np.mk_ndarray [r; c] P)
  = Ok (np.mk_ndarray [r; c; 3] (np.put_axis2 3 k P D)).
Proof.
  intros Hk. unfold np.assign_axis2. cbn [np.shape np.flat].
  destruct (Z.ltb_spec (Z.of_nat k) 3); [|lia].
  destruct (list_eq_dec Z.eq_dec [r; c] [r; c]) as [_|N]; [|congruence].
  reflexivity.
Qed.

Lemma split_planes_ok (row col : Z) (S : list Z) :
  0 <= row -> 0 <= col -> len S = row * col ->
  split_planes (np.mk_ndarray [row; col] S) row col
  = Ok (color_of_plane row col S).
Proof.
  intros Hr Hc HS. unfold split_planes, color_of_plane, py.int_truediv.
  set (rs := Z.quot row 3).
  assert (Hrs : 0 <= rs /\ 3 * rs <= row).
  { unfold rs. rewrite Z.quot_div_nonneg by lia.
    pose proof (Z.div_mod row 3). pose proof (Z.mod_pos_bound row 3). lia. }
  destruct Hrs as [Hrs0 Hrs3].
  rewrite (slice_rows_in row col 0 rs rs) by lia.
  rewrite (slice_rows_in row col rs (2 * rs) rs) by lia.
  rewrite (slice_rows_in row col (2 * rs) (3 * rs) rs) by lia.
  rewrite zeros_ok by (repeat constructor; lia).
  cbn [res_bind].
  rewrite !assign_axis2_ok by lia. cbn [res_bind]. rewrite !assign_axis2_ok by lia.
  cbn [res_bind]. rewrite !assign_axis2_ok by lia. cbn [res_bind].
  f_equal. f_equal.
  set (n := Z.to_nat (rs * col)).
  assert (Hn : (3 * n <= length S)%nat).
  { unfold len in HS. unfold n. nia. }
  replace (Z.to_nat (0 * col)) with 0%nat by lia.
  replace (Z.to_nat (2 * rs * col)) with (2 * n)%nat by (unfold n; nia).
  replace (Z.to_nat (np.prod [rs; col; 3])) with (3 * length (firstn n S))%nat.
  2:{ rewrite length_firstn, Nat.min_l by lia. unfold np.prod. cbn [fold_right].
      unfold n. nia. }
  cbn [skipn].
  apply put_axis2_interleave;
    rewrite !length_firstn, ?length_skipn; lia.
Qed.

Lemma oma_image_ok row col is_color (buf : list byte) :
  0 <= row -> 0 <= col -> len buf = row * col * 4 ->
  oma_image row col is_color buf
  = Ok (if is_color =? 1
        then color_of_plane row col (samples_at buf 0 (row * col))
        else np.mk_ndarray [row; col] (samples_at buf 0 (row * col))).
Proof.
  intros Hr Hc Hlen. unfold oma_image.
  assert (H0 : 0 <= row * col) by nia.
  unfold struct.unpack_f, struct.unpack_array.
  destruct (Z.ltb_spec (row * col) 0); [lia|].
  destruct (Z.eqb_spec (Z.of_nat (length buf)) (Z.of_nat 4 * (row * col)));
    [|unfold len in Hlen; lia].
  cbn [res_bind].
  replace (py.chunks 4 (Z.to_nat (row * col)) buf)
    with (py.chunks 4 (Z.to_nat (row * col))
                    (firstn (Z.to_nat (row * col * 4)) (skipn 0 buf))).
  2:{ cbn [skipn]. rewrite firstn_all2; [reflexivity | unfold len in Hlen; lia]. }
  fold (samples_at buf 0 (row * col)).
  assert (HS : len (samples_at buf 0 (row * col)) = row * col).
  { unfold len, samples_at. rewrite length_map, length_chunks. lia. }
  unfold np.reshape2, np.array. cbn [np.flat].
  destruct (Z.ltb_spec row 0); [lia|]. destruct (Z.ltb_spec col 0); [lia|].
  cbn [andb]. unfold len in HS. rewrite HS, Z.eqb_refl. cbn [res_bind].
  destruct (is_color =? 1); [|reflexivity].
  apply split_planes_ok; unfold len; lia.
Qed.

Lemma samples_at_firstn (buf : list byte) (n : Z) :
  samples_at (firstn (Z.to_nat (n * 4)) buf) 0 n = samples_at buf 0 n.
Proof.
  unfold samples_at. cbn [skipn]. rewrite firstn_firstn, Nat.min_id. reflexivity.
Qed.

Lemma read_oma_image_ok row col is_color content pos :
  0 <= row -> 0 <= col -> row * col * 4 <= len (skipn pos content) ->
  row * col * 4 <= py.maxsize ->
  read_oma_image row col is_color content pos
  = Ok (if is_color =? 1
        then color_of_plane row col (samples_at content pos (row * col))
        else np.mk_ndarray [row; col] (samples_at content pos (row * col)),
        (pos + Z.to_nat (row * col * 4))%nat).
Proof.
  intros Hr Hc Hlen Hm. unfold read_oma_image.
  assert (H4 : 0 <= row * col * 4 <= len (skipn pos content)) by nia.
  rewrite (bind_ok _ _ _ _ _ _ (read_enough _ _ _ H4 Hm)).
  unfold file.lift. rewrite oma_image_ok; try assumption.
  - rewrite samples_at_firstn. reflexivity.
  - unfold len in *. rewrite length_firstn. lia.
Qed.

(** The samples are read from the cursor on: the image depends on the
    rest of the file only. *)
Lemma read_oma_image_rest row col is_color content pos :
  match read_oma_image row col is_color content pos with
  | Ok (image, _) => Ok image
  | Raise e => Raise e
  end
  = file.run (read_oma_image row col is_color) (skipn pos content).
Proof.
  unfold file.run, read_oma_image, file.bind, file.read, file.lift.
  cbn [skipn].
  destruct ((row * col * 4 <? - 2 ^ 63) || (py.maxsize <? row * col * 4));
    [reflexivity|].
  destruct (row * col * 4 <? - 1); [reflexivity|].
  destruct (oma_image _ _ _ _); reflexivity.
Qed.

Lemma run_image_ok row col is_color (rest : list byte) :
  0 <= row -> 0 <= col -> row * col * 4 <= len rest ->
  row * col * 4 <= py.maxsize ->
  file.run (read_oma_image row col is_color) rest
  = Ok (if is_color =? 1
        then color_of_plane row col (samples_at rest 0 (row * col))
        else np.mk_ndarray [row; col] (samples_at rest 0 (row * col))).
Proof.
  intros Hr Hc Hlen Hm. unfold file.run.
  rewrite read_oma_image_ok by assumption. reflexivity.
Qed.

Lemma run_image_short row col is_color (rest : list byte) :
  len rest < row * col * 4 -> row * col * 4 <= py.maxsize ->
  file.run (read_oma_image row col is_color) rest = Raise StructError.
Proof.
  intros Hlen Hm. unfold file.run, read_oma_image.
  assert (H0 : 0 <= len rest) by (unfold len; lia).
  assert (Hn : 0 <= row * col * 4 <= py.maxsize) by lia.
  rewrite (bind_ok _ _ _ _ _ _ (read_any _ rest 0%nat Hn)).
  unfold file.lift, oma_image, struct.unpack_f, struct.unpack_array.
  destruct (row * col <? 0); [reflexivity|].
  cbn [skipn]. rewrite length_firstn. unfold len in *.
  destruct (Z.eqb_spec (Z.of_nat (Nat.min (Z.to_nat (row * col * 4)) (length rest)))
                       (Z.of_nat 4 * (row * col))); [lia | reflexivity].
Qed.

Lemma run_image_negative row col is_color (rest : list byte) :
  - 2 ^ 63 <= row * col * 4 -> row * col < 0 ->
  file.run (read_oma_image row col is_color) rest = Raise ValueError.
Proof.
  intros Hm Hn. unfold file.run, read_oma_image, file.bind.
  rewrite read_negative by lia. reflexivity.
Qed.


End ImageFacts.

Section HeaderFacts.
Import file.

Lemma ends_read {B} n chunk rest' content pos (k : list byte -> reader B)
      (a : B) rest :
  skipn pos content = chunk ++ rest' -> len chunk = n -> n <= py.maxsize ->
  (skipn (pos + length chunk) content = rest' ->
   ends_at content a rest (k chunk content (pos + length chunk)%nat)) ->
  ends_at content a rest (bind (read n) k content pos).
Proof.
  intros Hs Hn Hm Hk. rewrite (bind_ok _ _ _ _ _ _ (read_at _ _ _ _ _ Hs Hn Hm)).
  apply Hk. apply (skipn_advance _ _ _ _ Hs).
Qed.

Lemma ends_lift {A B} (r0 : res A) x content pos (k : A -> reader B) (a : B) rest :
  r0 = Ok x ->
  ends_at content a rest (k x content pos) ->
  ends_at content a rest (bind (lift r0) k content pos).
Proof. intros -> Hk. exact Hk. Qed.

Lemma ends_ret {A} content pos (a : A) rest :
  skipn pos content = rest -> ends_at content a rest (ret a content pos).
Proof. intros H. exists pos. split; [reflexivity | exact H]. Qed.

Lemma len_ints vs : len (ints vs) = 4 * len vs.
Proof. unfold len, ints. rewrite (length_flat_map_const 4); [lia|].
       intros x. apply length_le_split. Qed.

Lemma len_floats vs : len (floats vs) = 4 * len vs.
Proof. unfold len, floats. rewrite (length_flat_map_const 4); [lia|].
       intros x. apply length_le_split. Qed.

Lemma unpack_i_ints vs :
  Forall in_int32 vs -> struct.unpack_i (len vs) (ints vs) = Ok vs.
Proof.
  intros H. apply unpack_array_flat_map.
  - intros x. apply length_le_split.
  - revert H. apply Forall_impl. intros v Hv. apply decode_i_le_split. exact Hv.
Qed.

Lemma unpack_f_floats vs :
  Forall is_f32 vs ->
  struct.unpack_f (len vs) (floats vs) = Ok (map struct.quiet vs).
Proof.
  intros H. unfold struct.unpack_f, floats, len.
  rewrite (unpack_array_flat_map_any 4) by (intros x; apply length_le_split).
  f_equal. induction H as [|v vs Hv _ IH]; [reflexivity|].
  cbn [map]. rewrite IH, decode_f_pack_f by exact Hv. reflexivity.
Qed.

Lemma unpack_c_ok (b : list byte) :
  exists t, struct.unpack_c (len b) b = Ok t.
Proof.
  unfold struct.unpack_c, struct.unpack_array, len.
  destruct (Z.ltb_spec (Z.of_nat (length b)) 0); [lia|].
  destruct (Z.eqb_spec (Z.of_nat (length b)) (Z.of_nat 1 * Z.of_nat (length b))); [|lia].
  eexists. reflexivity.
Qed.

(** An optional block of the header: read when its size is positive. *)
Lemma ends_block {B} (b rest' : list byte) content pos (k : unit -> reader B)
      (a : B) rest :
  skipn pos content = b ++ rest' -> len b <= py.maxsize ->
  (forall pos', skipn pos' content = rest' ->
                ends_at content a rest (k tt content pos')) ->
  ends_at content a rest
    (bind (if 0 <? len b
           then bind (read (1 * len b)) (fun buf =>
                bind (lift (struct.unpack_c (len b) buf)) (fun _ => ret tt))
           else ret tt) k content pos).
Proof.
  intros Hs Hm Hk. destruct (Z.ltb_spec 0 (len b)) as [Hpos|Hz].
  - destruct (unpack_c_ok b) as [t Ht].
    unfold bind at 1.
    assert (E : len b = 1 * len b) by lia.
    assert (Hm1 : 1 * len b <= py.maxsize) by lia.
    rewrite (bind_ok _ _ _ _ _ _ (read_at _ _ _ _ _ Hs E Hm1)).
    unfold bind at 1. unfold lift. rewrite Ht. unfold ret.
    apply Hk. apply (skipn_advance _ _ _ _ Hs).
  - assert (b = []) as -> by (destruct b; [reflexivity | unfold len in Hz; simpl in Hz; lia]).
    unfold bind, ret. apply Hk. exact Hs.
Qed.

Lemma read_oma_tagged_fields_ok (h : tagged_header) (rest : list byte) :
  tagged_header_ok h ->
  ends_at (tagged_header_bytes h ++ rest) (th_specs h) rest
          (read_oma_tagged_fields (tagged_header_bytes h ++ rest) 30%nat).
Proof.
  intros (Htag & _ & Hspecs & Hvalues & Hn1 & Hn2 & Hn3 & He & Hb & Hc & Hx).
  set (content := tagged_header_bytes h ++ rest).
  assert (Hs : skipn 30%nat content = skipn 30%nat (tagged_header_bytes h) ++ rest).
  { unfold content. rewrite skipn_app.
    replace (30 - length (tagged_header_bytes h))%nat with 0%nat; [reflexivity|].
    unfold tagged_header_bytes. rewrite length_app. lia. }
  clearbody content.
  unfold tagged_header_bytes in Hs.
  rewrite skipn_app in Hs. rewrite (skipn_all2 (th_tag h)) in Hs by lia.
  rewrite Htag, Nat.sub_diag in Hs.
  cbn [skipn app] in Hs. rewrite <- !app_assoc in Hs.
  assert (M : py.maxsize = 2 ^ 63 - 1) by reflexivity.
  unfold in_int32 in Hn1, Hn2, Hn3, Hc, Hx.
  unfold read_oma_tagged_fields.
  eapply ends_read;
    [exact Hs | rewrite len_ints; reflexivity | lia | clear Hs; intros Hs].
  eapply ends_lift.
  { apply (unpack_i_ints [_; _; _]). repeat (apply Forall_cons; [assumption|]). apply Forall_nil. }
  eapply ends_lift; [reflexivity|]. cbv beta iota.
  eapply ends_read; [exact Hs | apply len_ints | lia | clear Hs; intros Hs].
  eapply ends_lift; [apply unpack_i_ints; exact Hspecs|].
  eapply ends_read; [exact Hs | apply len_floats | lia | clear Hs; intros Hs].
  eapply ends_lift; [apply unpack_f_floats; exact Hvalues|].
  eapply ends_read; [exact Hs | lia | lia | clear Hs; intros Hs].
  destruct (unpack_c_ok (th_ruler h)) as [t Ht].
  eapply ends_lift; [exact Ht|].
  eapply ends_read;
    [exact Hs | rewrite len_ints; reflexivity | lia | clear Hs; intros Hs].
  eapply ends_lift.
  { apply (unpack_i_ints [_; _; _; _]). repeat (apply Forall_cons; [assumption|]). apply Forall_nil. }
  eapply ends_lift; [reflexivity|]. cbv beta iota.
  eapply ends_block; [exact Hs | lia | clear Hs; intros pos1 Hs].
  eapply ends_block; [exact Hs | lia | clear Hs; intros pos2 Hs].
  apply ends_ret. exact Hs.
Qed.
End HeaderFacts.

Section TaggedDecoder.
Import file.

Lemma read_header_tag (h : tagged_header) (rest : list byte) :
  length (th_tag h) = 30%nat ->
  read 30 (tagged_header_bytes h ++ rest) 0%nat = Ok (th_tag h, 30%nat).
Proof.
  intros Htag. unfold tagged_header_bytes. rewrite <- app_assoc.
  erewrite (read_at 30 (th_tag h) _ _ 0%nat).
  - rewrite Htag. reflexivity.
  - reflexivity.
  - unfold len. rewrite Htag. reflexivity.
  - unfold py.maxsize. lia.
Qed.


(** What [read_oma] makes of a tagged file: the image of the bytes that
    follow the header, with the geometry of the specs. *)
Lemma read_oma_tagged (h : tagged_header) (rest : list byte) :
  tagged_header_ok h ->
  run read_oma (tagged_header_bytes h ++ rest)
  = res_bind (specs_geometry (th_specs h)) (fun '(row, col, is_color) =>
      run (read_oma_image row col is_color) rest).
Proof.
  intros Hok. pose proof Hok as (Htag & Hin & _).
  destruct (read_oma_tagged_fields_ok h rest Hok) as (pos & Hf & Hs).
  unfold run at 1. unfold read_oma.
  rewrite (bind_ok _ _ _ _ _ _ (read_header_tag h rest Htag)). rewrite Hin.
  unfold read_oma_tagged_header.
  unfold bind at 1. unfold bind at 1. rewrite Hf. unfold lift at 1.
  destruct (specs_geometry (th_specs h)) as [[[row col] ic]|e]; [|reflexivity].
  cbn [res_bind].
  pose proof (read_oma_image_rest row col ic (tagged_header_bytes h ++ rest) pos) as E.
  rewrite Hs in E. exact E.
Qed.

Lemma read_oma_tagged_ok (h : tagged_header) (rest : list byte) row col is_color :
  tagged_header_ok h ->
  specs_geometry (th_specs h) = Ok (row, col, is_color) ->
  0 <= row -> 0 <= col -> row * col * 4 <= len rest ->
  row * col * 4 <= py.maxsize ->
  run read_oma (tagged_header_bytes h ++ rest)
  = Ok (if is_color =? 1
        then color_of_plane row col (samples_at rest 0 (row * col))
        else np.mk_ndarray [row; col] (samples_at rest 0 (row * col))).
Proof.
  intros Hok Hg Hr Hc Hlen Hm. rewrite (read_oma_tagged h rest Hok), Hg.
  cbn [res_bind]. apply run_image_ok; assumption.
Qed.

Lemma getitem_nth_error {A} (l : list A) (i : nat) :
  py.getitem l (Z.of_nat i)
  = match nth_error l i with Some a => Ok a | None => Raise IndexError end.
Proof.
  unfold py.getitem. destruct (Z.ltb_spec (Z.of_nat i) 0); [lia|].
  destruct (Z.leb_spec 0 (Z.of_nat i)); [|lia]. rewrite Nat2Z.id. cbn [andb].
  destruct (Z.ltb_spec (Z.of_nat i) (Z.of_nat (length l))).
  - reflexivity.
  - replace (nth_error l i) with (@None A); [reflexivity|].
    symmetry. apply nth_error_None. lia.
Qed.

Lemma specs_geometry_nth (specs : list Z) :
  specs_geometry specs
  = match nth_error specs 0, nth_error specs 1, nth_error specs 8 with
    | Some row, Some col, Some is_color => Ok (row, col, is_color)
    | _, _, _ => Raise IndexError
    end.
Proof.
  unfold specs_geometry.
  change 0 with (Z.of_nat 0). change 1 with (Z.of_nat 1). change 8 with (Z.of_nat 8).
  rewrite !getitem_nth_error.
  destruct (nth_error specs 0), (nth_error specs 1), (nth_error specs 8); reflexivity.
Qed.

Lemma specs_geometry_short (specs : list Z) :
  (length specs < 9)%nat -> specs_geometry specs = Raise IndexError.
Proof.
  intros H. rewrite specs_geometry_nth.
  replace (nth_error specs 8) with (@None Z) by (symmetry; apply nth_error_None; lia).
  destruct (nth_error specs 0), (nth_error specs 1); reflexivity.
Qed.
End TaggedDecoder.

Section ColorFacts.

Lemma quot3_bounds row : 0 <= row -> 0 <= Z.quot row 3 /\ 3 * Z.quot row 3 <= row.
Proof.
  intros H. rewrite Z.quot_div_nonneg by lia.
  pose proof (Z.div_mod row 3). pose proof (Z.mod_pos_bound row 3). lia.
Qed.

Lemma item3_color_of_plane row col (S : list Z) i j k :
  0 <= row -> 0 <= col -> len S = row * col ->
  0 <= i < py.int_truediv row 3 -> 0 <= j < col -> 0 <= k < 3 ->
  item3 (color_of_plane row col S) i j k
  = item2 (np.mk_ndarray [row; col] S) (k * py.int_truediv row 3 + i) j.
Proof.
  intros Hr Hc HS Hi Hj Hk. unfold item3, item2, color_of_plane, py.int_truediv in *.
  cbn [np.shape np.flat].
  destruct (quot3_bounds row Hr) as [Hq0 Hq3].
  set (rs := Z.quot row 3) in *. set (n := Z.to_nat (rs * col)).
  assert (Hn : (3 * n <= length S)%nat) by (unfold len in HS; unfold n; nia).
  replace (Z.to_nat ((i * col + j) * 3 + k))
    with (3 * Z.to_nat (i * col + j) + Z.to_nat k)%nat by nia.
  assert (Hq : (Z.to_nat (i * col + j) < n)%nat) by (unfold n; nia).
  rewrite nth_interleave3;
    try (rewrite ?length_firstn, ?length_skipn; lia).
  replace (Z.to_nat ((k * rs + i) * col + j))
    with (Z.to_nat k * n + Z.to_nat (i * col + j))%nat by (unfold n; nia).
  assert (Hk3 : k = 0 \/ k = 1 \/ k = 2) by lia.
  destruct Hk3 as [-> | [-> | ->]].
  - change (Z.to_nat 0) with 0%nat. cbn [nth].
    rewrite (nth_firstn_skipn S 0 n) by lia. reflexivity.
  - change (Z.to_nat 1) with 1%nat. cbn [nth].
    rewrite (nth_firstn_skipn S n n) by lia. f_equal. lia.
  - change (Z.to_nat 2) with 2%nat. cbn [nth].
    rewrite (nth_firstn_skipn S (2 * n) n) by lia. reflexivity.
Qed.

Lemma color_of_plane_channels (rows cols : Z) (l : list Z) :
  0 <= rows -> 0 <= cols -> len l = rows * cols * 3 ->
  color_of_plane (3 * rows) cols (channel 0 l ++ channel 1 l ++ channel 2 l)
  = np.mk_ndarray [rows; cols; 3] l.
Proof.
  intros Hr Hc Hl. unfold color_of_plane, py.int_truediv.
  replace (Z.quot (3 * rows) 3) with rows
    by (rewrite Z.mul_comm, Z.quot_mul; lia).
  set (n := Z.to_nat (rows * cols)).
  assert (Hlen : length l = (3 * n)%nat) by (unfold len in Hl; unfold n; lia).
  pose proof (length_channel 0 l n Hlen) as L0.
  pose proof (length_channel 1 l n Hlen) as L1.
  pose proof (length_channel 2 l n Hlen) as L2.
  f_equal.
  rewrite firstn_app, L0, Nat.sub_diag, firstn_all2 by lia.
  cbn [firstn]. rewrite app_nil_r.
  rewrite skipn_app, L0, Nat.sub_diag, skipn_all2 by lia. cbn [skipn app].
  rewrite firstn_app, L1, Nat.sub_diag, firstn_all2 by lia.
  cbn [firstn]. rewrite app_nil_r.
  rewrite skipn_app, L0, skipn_all2 by lia.
  replace (2 * n - n)%nat with n by lia. cbn [app].
  rewrite skipn_app, L1, Nat.sub_diag, skipn_all2 by lia. cbn [skipn app].
  rewrite firstn_all2 by lia.
  apply (interleave3_channels l n Hlen).
Qed.
End ColorFacts.

Section EncoderShapes.
Import file.

Lemma take_axis2_ok (r c : Z) (l : list Z) (k : nat) :
  (k < 3)%nat -> 0 <= r * c -> len l = r * c * 3 ->
  np.take_axis2 (np.mk_ndarray [r; c; 3] l) k
  = Ok (np.mk_ndarray [r; c] (channel k l)).
Proof.
  intros Hk H0 Hl. unfold np.take_axis2. cbn [np.shape np.flat].
  destruct (Z.ltb_spec (Z.of_nat k) 3); [|lia].
  change (Z.to_nat (np.prod [])) with 1%nat.
  change (Z.to_nat 3 * 1)%nat with 3%nat.
  rewrite take_chunks_channel; [reflexivity | exact Hk | unfold len in Hl; lia].
Qed.

Lemma stack_planes_ok (r c : Z) (l : list Z) :
  0 <= r * c -> len l = r * c * 3 ->
  exists sh,
    stack_planes (np.mk_ndarray [r; c; 3] l)
    = Ok (np.mk_ndarray sh (channel 0 l ++ channel 1 l ++ channel 2 l)).
Proof.
  intros H0 Hl. unfold stack_planes.
  rewrite !take_axis2_ok by (assumption || lia). cbn [res_bind].
  unfold np.vstack, np.atleast_2d. cbn [map np.shape np.flat tl hd forallb].
  destruct (list_eq_dec Z.eq_dec [c] [c]) as [_|N]; [|congruence].
  cbn [andb concat]. rewrite app_nil_r. eexists. reflexivity.
Qed.

Lemma getitem_0 {A} (x : A) l : py.getitem (x :: l) 0 = Ok x.
Proof. apply (getitem_nth_error (x :: l) 0). Qed.

Lemma getitem_1 {A} (x y : A) l : py.getitem (x :: y :: l) 1 = Ok y.
Proof. apply (getitem_nth_error (x :: y :: l) 1). Qed.

Lemma getitem_2 {A} (x y z : A) l : py.getitem (x :: y :: z :: l) 2 = Ok z.
Proof. apply (getitem_nth_error (x :: y :: z :: l) 2). Qed.

Lemma write_oma_new_front w t :
  wbind (write oma2_header) (fun _ =>
    wbind (wlift (struct.pack_all struct.pack_i [32; 16; 16])) (fun b => write b))
    (mk_wstate w t)
  = (mk_wstate (w ++ oma2_header ++ ints [32; 16; 16]) t, Ok tt).
Proof.
  change (struct.pack_all struct.pack_i [32; 16; 16]) with (Ok (ints [32; 16; 16])).
  unfold wbind, write, wlift. cbn [written entropy]. rewrite <- app_assoc. reflexivity.
Qed.

Lemma write_oma_new_mono (data : np.ndarray) (r c : Z) w t :
  np.shape data = [r; c] -> in_int32 r -> in_int32 c ->
  len (np.flat data) = r * c ->
  write_oma_new data (mk_wstate w t)
  = (mk_wstate (w ++ oma2_new_bytes r c 0 (map t (seq 0 16)) (np.flat data))
               (fun i => t (16 + i)%nat), Ok tt).
Proof.
  intros Hsh Hr Hc Hl. unfold write_oma_new, rows_and_cols, ndim. rewrite Hsh.
  rewrite getitem_0, getitem_1. cbn [length Z.of_nat Z.ltb Z.compare Pos.of_succ_nat Pos.succ Pos.compare Pos.compare_cont].
  unfold wbind at 1. unfold write at 1. cbn [written entropy].
  change (struct.pack_all struct.pack_i [32; 16; 16]) with (Ok (ints [32; 16; 16])).
  unfold wbind at 1. unfold wlift at 1.
  unfold wbind at 1. unfold write at 1. cbn [written entropy].
  unfold wbind at 1. unfold wbind at 1. unfold wlift at 1.
  unfold wbind at 1. unfold wlift at 1. unfold wret at 1.
  unfold wbind at 1. unfold wret at 1.
  unfold wbind at 1. unfold wret at 1.
  rewrite write_oma_new_body_ok; try assumption; [|unfold in_int32; lia].
  unfold oma2_new_bytes. rewrite <- !app_assoc. reflexivity.
Qed.

Lemma write_oma_new_1d (data : np.ndarray) (n : Z) w t :
  np.shape data = [n] -> in_int32 n -> len (np.flat data) = n ->
  write_oma_new data (mk_wstate w t)
  = (mk_wstate (w ++ oma2_new_bytes n 1 0 (map t (seq 0 16)) (np.flat data))
               (fun i => t (16 + i)%nat), Ok tt).
Proof.
  intros Hsh Hn Hl. unfold write_oma_new, rows_and_cols, ndim. rewrite Hsh.
  rewrite getitem_0.
  change (struct.pack_all struct.pack_i [32; 16; 16]) with (Ok (ints [32; 16; 16])).
  change (1 <? Z.of_nat (length [n])) with false.
  change (2 <? Z.of_nat (length [n])) with false.
  cbv [wbind wlift wret write written entropy].
  rewrite write_oma_new_body_ok;
    [| assumption | unfold in_int32; lia | unfold in_int32; lia
     | unfold len in *; lia].
  unfold oma2_new_bytes. rewrite <- !app_assoc. reflexivity.
Qed.

Lemma write_oma_new_color (data : np.ndarray) (r c : Z) w t :
  np.shape data = [r; c; 3] -> 0 <= r -> 0 <= c ->
  in_int32 (3 * r) -> in_int32 c ->
  len (np.flat data) = r * c * 3 ->
  write_oma_new data (mk_wstate w t)
  = (mk_wstate
       (w ++ oma2_new_bytes (3 * r) c 1 (map t (seq 0 16))
               (channel 0 (np.flat data) ++ channel 1 (np.flat data)
                  ++ channel 2 (np.flat data)))
       (fun i => t (16 + i)%nat), Ok tt).
Proof.
  intros Hsh Hr0 Hc0 Hr Hc Hl. unfold write_oma_new, rows_and_cols, ndim.
  destruct data as [sh l]. cbn [np.shape np.flat] in *. subst sh.
  destruct (stack_planes_ok r c l ltac:(nia) Hl) as [sh Hst]. rewrite Hst.
  rewrite getitem_0, getitem_1, getitem_2.
  change (struct.pack_all struct.pack_i [32; 16; 16]) with (Ok (ints [32; 16; 16])).
  change (1 <? Z.of_nat (length [r; c; 3])) with true.
  change (2 <? Z.of_nat (length [r; c; 3])) with true.
  cbv [wbind wlift wret write written entropy].
  change (3 =? 3) with true. cbv beta iota.
  rewrite write_oma_new_body_ok; try assumption; try (unfold in_int32; lia).
  - unfold oma2_new_bytes. rewrite <- !app_assoc. reflexivity.
  - cbn [np.flat]. unfold len in *. rewrite !length_app.
    rewrite !(length_channel _ l (Z.to_nat (r * c))) by lia. nia.
Qed.
End EncoderShapes.

Section LegacyDecoder.
Import file.

Lemma unpack_array_inv {A} w (dec : list byte -> A) count buf t :
  struct.unpack_array w dec count buf = Ok t ->
  0 <= count /\ len buf = Z.of_nat w * count /\
  t = map dec (py.chunks w (Z.to_nat count) buf).
Proof.
  unfold struct.unpack_array, len.
  destruct (Z.ltb_spec count 0); [discriminate|].
  destruct (Z.eqb_spec (Z.of_nat (length buf)) (Z.of_nat w * count)); [|discriminate].
  intros E. injection E as <-. auto.
Qed.

Lemma unpack_array_short {A} w (dec : list byte -> A) count buf :
  len buf <> Z.of_nat w * count ->
  struct.unpack_array w dec count buf = Raise StructError.
Proof.
  unfold struct.unpack_array, len. intros H.
  destruct (count <? 0); [reflexivity|].
  destruct (Z.eqb_spec (Z.of_nat (length buf)) (Z.of_nat w * count)); [lia|reflexivity].
Qed.

Lemma seek_ok p content pos :
  0 <= p -> seek p content pos = Ok (tt, Z.to_nat p).
Proof. intros H. unfold seek. destruct (Z.ltb_spec p 0); [lia | reflexivity]. Qed.

(** The header of an untagged file of at least 18 bytes. *)
Lemma read_oma_legacy_header_ok content pos :
  18 <= len content ->
  read_oma_legacy_header content pos
  = Ok ((int16_at content 16, int16_at content 14, 0), 832%nat).
Proof.
  intros Hlen. unfold read_oma_legacy_header.
  rewrite (bind_ok _ _ _ _ _ _ (seek_ok (7 * 2) content pos ltac:(lia))).
  rewrite (bind_ok _ _ _ _ _ _ (read_any 4 content _ ltac:(unfold py.maxsize; lia))).
  change (Z.to_nat (7 * 2)) with 14%nat. change (Z.to_nat 4) with 4%nat.
  assert (L4 : length (firstn 4 (skipn 14 content)) = 4%nat).
  { rewrite length_firstn, length_skipn. unfold len in Hlen. lia. }
  unfold struct.unpack_h, struct.unpack_array.
  change (2 <? 0) with false. rewrite L4.
  change (Z.of_nat 4 =? Z.of_nat 2 * 2) with true.
  change (Z.to_nat 2) with 2%nat. cbn [py.chunks map].
  unfold bind at 1. unfold lift at 1. unfold bind at 1. unfold lift at 1.
  cbn [py.unpack2].
  rewrite (bind_ok _ _ _ _ _ _ (seek_ok (256 * 2 + 80 * 4) content _ ltac:(lia))).
  unfold ret. change (Z.to_nat (256 * 2 + 80 * 4)) with 832%nat.
  unfold int16_at. rewrite firstn_firstn, skipn_firstn_comm, firstn_firstn, skipn_skipn.
  reflexivity.
Qed.

Lemma read_oma_legacy_header_short content pos :
  len content < 18 ->
  read_oma_legacy_header content pos = Raise StructError.
Proof.
  intros Hlen. unfold read_oma_legacy_header.
  rewrite (bind_ok _ _ _ _ _ _ (seek_ok (7 * 2) content pos ltac:(lia))).
  rewrite (bind_ok _ _ _ _ _ _ (read_any 4 content _ ltac:(unfold py.maxsize; lia))).
  change (Z.to_nat (7 * 2)) with 14%nat. change (Z.to_nat 4) with 4%nat.
  unfold bind at 1. unfold lift at 1.
  unfold struct.unpack_h. rewrite unpack_array_short; [reflexivity|].
  unfold len in *. rewrite length_firstn, length_skipn. lia.
Qed.

Lemma read_first_30 content :
  read 30 content 0%nat = Ok (firstn 30 content, length (firstn 30 content)).
Proof. reflexivity. Qed.

(** What [read_oma] makes of an untagged file. *)
Lemma read_oma_legacy content :
  py.contains oma2_tag (firstn 30 content) = false ->
  run read_oma content
  = if len content <? 18 then Raise StructError
    else
      let row := int16_at content 16 in
      let col := int16_at content 14 in
      run (read_oma_image row col 0) (skipn 832 content).
Proof.
  intros Htag. unfold run at 1. unfold read_oma.
  rewrite (bind_ok _ _ _ _ _ _ (read_first_30 content)). rewrite Htag.
  destruct (Z.ltb_spec (len content) 18) as [Hs|Hl].
  - unfold bind. rewrite (read_oma_legacy_header_short _ _ Hs). reflexivity.
  - rewrite (bind_ok _ _ _ _ _ _ (read_oma_legacy_header_ok _ _ Hl)).
    cbv zeta. apply read_oma_image_rest.
Qed.

(** The image of samples that were unpacked has the shape asked for. *)
Lemma oma_image_mono_inv row col is_color buf image :
  is_color <> 1 ->
  oma_image row col is_color buf = Ok image ->
  0 <= row /\ 0 <= col /\ len buf = row * col * 4 /\
  image = np.mk_ndarray [row; col] (samples_at buf 0 (row * col)).
Proof.
  intros Hc. unfold oma_image.
  destruct (struct.unpack_f (row * col) buf) as [t|e] eqn:E; [|discriminate].
  apply unpack_array_inv in E. destruct E as (H0 & Hlen & ->).
  cbn [res_bind]. unfold np.reshape2, np.array. cbn [np.flat].
  rewrite length_map, length_chunks.
  destruct (Z.eqb_spec is_color 1); [contradiction|].
  destruct (Z.ltb_spec row 0), (Z.ltb_spec col 0); cbn [andb]; try discriminate.
  - destruct (Z.eqb_spec col 0); [discriminate|]. nia.
  - destruct (Z.eqb_spec row 0); [discriminate|]. nia.
  - destruct (Z.eqb_spec (row * col) (Z.of_nat (Z.to_nat (row * col)))); [|lia].
    cbn [res_bind]. intros E. injection E as <-.
    repeat split; try lia. f_equal. unfold samples_at. cbn [skipn].
    rewrite firstn_all2; [reflexivity | unfold len in Hlen; lia].
Qed.

Lemma run_image_mono_inv row col is_color rest image :
  is_color <> 1 ->
  run (read_oma_image row col is_color) rest = Ok image ->
  image = np.mk_ndarray [row; col] (samples_at rest 0 (row * col)).
Proof.
  intros Hc. unfold run, read_oma_image, bind, read, lift. cbn [skipn].
  destruct ((row * col * 4 <? - 2 ^ 63) || (py.maxsize <? row * col * 4));
    [discriminate|].
  destruct (row * col * 4 <? - 1); [discriminate|].
  destruct (oma_image _ _ _ _) as [im|e] eqn:E; [|discriminate].
  intros H. injection H as <-.
  apply oma_image_mono_inv in E; [|exact Hc].
  destruct E as (Hr & Hc' & Hlen & ->). f_equal.
  destruct (Z.ltb_spec (row * col * 4) 0); [nia|]. apply samples_at_firstn.
Qed.

(** The header words of an untagged file are signed 16-bit integers. *)
Lemma int16_at_range content pos : - 2 ^ 15 <= int16_at content pos < 2 ^ 15.
Proof. unfold int16_at, struct.decode_h. apply (swrap_range 16). lia. Qed.
End LegacyDecoder.

Section HobjDecoder.
Import file.

Lemma slice_header {A} (content : list A) (lo hi : nat) :
  (lo <= hi)%nat -> (hi <= 84)%nat ->
  py.slice (firstn 84 content) lo hi = firstn (hi - lo) (skipn lo content).
Proof.
  intros H1 H2. unfold py.slice.
  rewrite skipn_firstn_comm, firstn_firstn. f_equal. lia.
Qed.

Lemma unpack_one {A} (w : nat) (dec : list byte -> A) (buf : list byte) :
  length buf = w ->
  struct.unpack_array w dec 1 buf = Ok [dec buf].
Proof.
  intros H. unfold struct.unpack_array. change (1 <? 0) with false.
  rewrite H. rewrite Z.mul_1_r, Z.eqb_refl. change (Z.to_nat 1) with 1%nat.
  cbn [py.chunks map]. rewrite <- H, firstn_all. reflexivity.
Qed.

(** What [read_hobj] makes of a file that holds the 84 bytes of the
    header. *)
Lemma read_hobj_spec content :
  84 <= len content ->
  run read_hobj content
  = let npixels := int32_be_at content 72 in
    let rows := int16_be_at content 80 + 1 in
    let cols := int16_be_at content 82 + 1 in
    if 84 + rows * 6 + 17 <? 0 then Raise OSError
    else if npixels <? 0 then Raise ValueError
    else
      let p := Z.to_nat (84 + rows * 6 + 17) in
      res_bind
        (struct.unpack_h npixels
           (firstn (Z.to_nat (npixels * 2)) (skipn p content)))
        (fun image_array => np.reshape2 (np.array image_array) rows cols).
Proof.
  intros Hlen. unfold run, read_hobj.
  rewrite (bind_ok _ _ _ _ _ _ (read_any 84 content 0%nat ltac:(unfold py.maxsize; lia))).
  change (Z.to_nat 84) with 84%nat. cbn [skipn].
  rewrite !slice_header by lia.
  change (76 - 72)%nat with 4%nat. change (82 - 80)%nat with 2%nat.
  change (84 - 82)%nat with 2%nat.
  unfold struct.unpack_i, struct.unpack_h at 1 2.
  rewrite !unpack_one
    by (rewrite length_rev, length_firstn, length_skipn; unfold len in Hlen; lia).
  unfold bind at 1. unfold lift at 1. rewrite getitem_0.
  unfold bind at 1. unfold lift at 1.
  unfold bind at 1. unfold lift at 1.
  unfold bind at 1. unfold lift at 1. rewrite getitem_0.
  unfold bind at 1. unfold lift at 1.
  unfold bind at 1. unfold lift at 1. rewrite getitem_0.
  fold (int32_be_at content 72) (int16_be_at content 80) (int16_be_at content 82).
  cbv zeta. unfold bind at 1. unfold seek.
  destruct (84 + (int16_be_at content 80 + 1) * 6 + 17 <? 0); [reflexivity|].
  assert (Hnp : - 2 ^ 31 <= int32_be_at content 72 < 2 ^ 31).
  { apply (swrap_range 32). lia. }
  destruct (Z.ltb_spec (int32_be_at content 72) 0) as [Hneg|Hpos].
  - unfold bind at 1. rewrite read_negative by lia. reflexivity.
  - assert (Hn : 0 <= int32_be_at content 72 * 2 <= py.maxsize)
      by (unfold py.maxsize; lia).
    rewrite (bind_ok _ _ _ _ _ _ (read_any _ content _ Hn)).
    unfold bind, lift.
    destruct (struct.unpack_h _ _) as [arr|e]; [|reflexivity].
    cbn [res_bind]. destruct (np.reshape2 _ _ _); reflexivity.
Qed.

(** A plane whose size is not the product of two non-negative
    dimensions is not reshaped. *)
Lemma reshape2_mismatch (t : list Z) (r c : Z) :
  0 <= r -> 0 <= c -> len t <> r * c ->
  np.reshape2 (np.array t) r c = Raise ValueError.
Proof.
  intros Hr Hc Hne. unfold np.reshape2, np.array. cbn [np.flat].
  destruct (Z.ltb_spec r 0); [lia|]. destruct (Z.ltb_spec c 0); [lia|].
  cbn [andb]. unfold len in Hne.
  destruct (Z.eqb_spec (r * c) (Z.of_nat (length t))); [lia | reflexivity].
Qed.
End HobjDecoder.

Section LegacyEncoder.
Import file.

Lemma pack_H_ok v : is_uint16 v -> struct.pack_H v = Ok (le_split 2 v).
Proof.
  unfold is_uint16, struct.pack_H. intros [H1 H2].
  destruct (Z.leb_spec 0 v); [|lia].
  destruct (Z.leb_spec v (2 ^ 16 - 1)); [|lia]. reflexivity.
Qed.

Lemma for_each_pack_H vs w t :
  Forall is_uint16 vs ->
  for_each vs (fun h => wbind (wlift (struct.pack_H h)) (fun b => write b))
           (mk_wstate w t)
  = (mk_wstate (w ++ words vs) t, Ok tt).
Proof.
  intros H. revert w. induction H as [|v vs Hv _ IH]; intros w; cbn [for_each].
  - unfold wret, words. simpl. rewrite app_nil_r. reflexivity.
  - unfold wbind at 1. unfold wbind at 1. unfold wlift at 1.
    rewrite (pack_H_ok v Hv). unfold write at 1. cbn [written entropy].
    rewrite IH. unfold words. cbn [flat_map]. rewrite <- app_assoc. reflexivity.
Qed.

Lemma legacy_header_eq (row col : Z) :
  np.setitem_uint16
    (np.setitem_uint16 (np.setitem_uint16 (repeat 0 256) 226 32639) 7 col) 8 row
  = oma2_legacy_header (row mod 2 ^ 16) (col mod 2 ^ 16).
Proof.
  unfold np.setitem_uint16.
  generalize (row mod 2 ^ 16) (col mod 2 ^ 16). intros r c. reflexivity.
Qed.

Lemma Forall_repeat {A} (P : A -> Prop) (x : A) (n : nat) :
  P x -> Forall P (repeat x n).
Proof. intros H. induction n; simpl; constructor; assumption. Qed.

Lemma legacy_header_range (r c : Z) :
  is_uint16 r -> is_uint16 c -> Forall is_uint16 (oma2_legacy_header r c).
Proof.
  intros Hr Hc. unfold oma2_legacy_header.
  assert (Z0 : is_uint16 0) by (unfold is_uint16; lia).
  repeat (apply Forall_app; split); try (apply Forall_repeat; exact Z0).
  - repeat (apply Forall_cons; [assumption|]). apply Forall_nil.
  - apply Forall_cons; [unfold is_uint16; lia | apply Forall_nil].
Qed.

Lemma mod_uint16 v : is_uint16 (v mod 2 ^ 16).
Proof. unfold is_uint16. apply Z.mod_pos_bound. lia. Qed.

(** The legacy writer, once the rows, the columns and the plane to
    write are known. *)
Lemma write_oma_legacy_ok (data plane : np.ndarray) (row row' col : Z) w t :
  rows_and_cols data (mk_wstate w t) = (mk_wstate w t, Ok (row, col)) ->
  (if ndim data =? 3
   then stack_planes data = Ok plane /\ row' = 3 * row
   else plane = data /\ row' = row) ->
  len (np.flat plane) = row' * col ->
  write_oma_legacy data (mk_wstate w t)
  = (mk_wstate
       (w ++ oma2_legacy_bytes (row mod 2 ^ 16) (col mod 2 ^ 16) (np.flat plane))
       t, Ok tt).
Proof.
  intros Hrc Hst Hlen. unfold write_oma_legacy. cbv zeta.
  rewrite (wbind_ok _ _ _ _ _ Hrc). cbv beta iota.
  rewrite legacy_header_eq.
  rewrite (wbind_ok _ _ _ _ _
             (for_each_pack_H _ w t
                (legacy_header_range _ _ (mod_uint16 row) (mod_uint16 col)))).
  rewrite (wbind_ok _ _ _ _ _ (for_each_pack_f _ _ _)).
  destruct (ndim data =? 3); destruct Hst as [Hp ->].
  - rewrite Hp. cbv [wbind wlift wret].
    rewrite (write_samples_ok _ _ _ _ _ Hlen).
    unfold oma2_legacy_bytes. rewrite <- !app_assoc. reflexivity.
  - subst plane. cbv [wbind wlift wret].
    rewrite (write_samples_ok _ _ _ _ _ Hlen).
    unfold oma2_legacy_bytes. rewrite <- !app_assoc. reflexivity.
Qed.

Lemma rows_and_cols_1d data n s :
  np.shape data = [n] -> rows_and_cols data s = (s, Ok (n, 1)).
Proof.
  intros H. unfold rows_and_cols, ndim. rewrite H, getitem_0. reflexivity.
Qed.

Lemma rows_and_cols_2d data r c l s :
  np.shape data = r :: c :: l -> rows_and_cols data s = (s, Ok (r, c)).
Proof.
  intros H. unfold rows_and_cols, ndim. rewrite H, getitem_0, getitem_1.
  cbn [length]. destruct (Z.ltb_spec 1 (Z.of_nat (S (S (length l))))); [|lia].
  reflexivity.
Qed.
End LegacyEncoder.

Section EntropyFacts.
Import file.

Lemma write_samples_any data row col :
  exists out r, forall w t,
    write_samples data row col (mk_wstate w t) = (mk_wstate (w ++ out) t, r).
Proof.
  unfold write_samples.
  destruct (np.reshape1 data (row * col)) as [d|e].
  - exists (floats (np.flat d)), (Ok tt). intros w t.
    unfold wbind, wlift. apply for_each_pack_f.
  - exists [], (Raise e). intros w t. unfold wbind, wlift.
    rewrite app_nil_r. reflexivity.
Qed.

(** The new-format writer either fails before the ruler, having written
    bytes that do not depend on the entropy source, or writes 192 bytes,
    the 16 bytes drawn, and bytes that do not depend on the source. *)
Lemma write_oma_new_body_cases is_color data row col :
  (exists out e, forall w t,
      write_oma_new_body is_color data row col (mk_wstate w t)
      = (mk_wstate (w ++ out) t, Raise e))
  \/
  (exists pre post r, length pre = 192%nat /\ forall w t,
      write_oma_new_body is_color data row col (mk_wstate w t)
      = (mk_wstate (w ++ pre ++ map t (seq 0 16) ++ post)
                   (fun i => t (16 + i)%nat), r)).
Proof.
  unfold write_oma_new_body. cbv zeta.
  destruct (for_each_pack_i_any (py.setitem (specs_template row col) 8 is_color))
    as (out & r & Hspecs).
  destruct r as [[]|e].
  - right. destruct (write_samples_any data row col) as (post & r & Hpost).
    exists (out ++ floats (repeat 0 16)), (ints [0; 0; 0; 0] ++ post), r.
    split.
    { destruct (Hspecs [] (fun _ => Byte.x00)) as [_ Hout].
      rewrite (Hout eq_refl), length_app. reflexivity. }
    intros w t. destruct (Hspecs w t) as [Hs _].
    rewrite (wbind_ok _ _ _ _ _ Hs).
    rewrite (wbind_ok _ _ _ _ _ (for_each_const _ _ _ _)).
    rewrite (wbind_ok _ _ _ _ _ (for_each_urandom _ _ _ _)).
    change (struct.pack_all struct.pack_i [0; 0; 0; 0]) with (Ok (ints [0; 0; 0; 0])).
    unfold wbind at 1. unfold wlift at 1.
    unfold wbind at 1. unfold write at 1. cbn [written entropy].
    rewrite Hpost. rewrite <- !app_assoc. reflexivity.
  - left. exists out, e. intros w t. destruct (Hspecs w t) as [Hs _].
    rewrite (wbind_raise _ _ _ _ _ Hs). reflexivity.
Qed.

Lemma write_oma_new_cases data :
  (exists e, forall w t,
      write_oma_new data (mk_wstate w t)
      = (mk_wstate (w ++ oma2_header ++ ints [32; 16; 16]) t, Raise e))
  \/
  (exists is_color plane row col, forall w t,
      write_oma_new data (mk_wstate w t)
      = write_oma_new_body is_color plane row col
          (mk_wstate (w ++ oma2_header ++ ints [32; 16; 16]) t)).
Proof.
  unfold write_oma_new, rows_and_cols.
  change (struct.pack_all struct.pack_i [32; 16; 16]) with (Ok (ints [32; 16; 16])).
  destruct (py.getitem (np.shape data) 0) as [row|e].
  2:{ left. exists e. intros w t. cbv [wbind wlift wret write written entropy].
      rewrite <- app_assoc. reflexivity. }
  assert (Hcol : exists rc, (if 1 <? ndim data
                             then wlift (py.getitem (np.shape data) 1)
                             else wret 1) = wlift rc).
  { destruct (1 <? ndim data); eexists; reflexivity. }
  destruct Hcol as [rc ->]. destruct rc as [col|e].
  2:{ left. exists e. intros w t. cbv [wbind wlift wret write written entropy].
      rewrite <- app_assoc. reflexivity. }
  assert (Hc : exists rb, (if 2 <? ndim data
                           then wbind (wlift (py.getitem (np.shape data) 2))
                                      (fun d => wret (d =? 3))
                           else wret false) = wlift rb).
  { destruct (2 <? ndim data); [|exists (Ok false); reflexivity].
    destruct (py.getitem (np.shape data) 2) as [d|e].
    - exists (Ok (d =? 3)). reflexivity.
    - exists (Raise e). reflexivity. }
  destruct Hc as [rb ->]. destruct rb as [colour|e].
  2:{ left. exists e. intros w t. cbv [wbind wlift wret write written entropy].
      rewrite <- app_assoc. reflexivity. }
  destruct colour.
  - destruct (stack_planes data) as [plane|e].
    + right. exists 1, plane, (3 * row), col. intros w t.
      cbv [wbind wlift wret write written entropy].
      rewrite <- app_assoc. reflexivity.
    + left. exists e. intros w t. cbv [wbind wlift wret write written entropy].
      rewrite <- app_assoc. reflexivity.
  - right. exists 0, data, row, col. intros w t.
    cbv [wbind wlift wret write written entropy].
    rewrite <- app_assoc. reflexivity.
Qed.

Lemma nth_error_around {A} (pre r1 r2 post : list A) (i : nat) :
  length r1 = length r2 ->
  (i < length pre \/ length pre + length r1 <= i)%nat ->
  nth_error (pre ++ r1 ++ post) i = nth_error (pre ++ r2 ++ post) i.
Proof.
  intros Hr [Hi|Hi].
  - rewrite !nth_error_app1 by assumption. reflexivity.
  - rewrite !(nth_error_app2 pre) by lia.
    rewrite !nth_error_app2 by lia. rewrite Hr. reflexivity.
Qed.
End EntropyFacts.

Section MissingSpecs.
Import file.

Ltac inv_bind H a p Ha :=
  apply bind_inv in H; destruct H as (a & p & Ha & H).

(** A header that is read holds as many specs as its first count says. *)
Lemma read_oma_tagged_fields_len content pos specs pos' :
  read_oma_tagged_fields content pos = Ok (specs, pos') ->
  len specs = int32_at content pos.
Proof.
  unfold read_oma_tagged_fields. intros H.
  inv_bind H buf p1 H1. inv_bind H t p2 H2. inv_bind H c3 p3 H3.
  destruct c3 as [[nspecs nvalues] nruler].
  inv_bind H buf2 p4 H4. inv_bind H specs' p5 H5.
  inv_bind H buf3 p6 H6. inv_bind H values p7 H7.
  inv_bind H buf4 p8 H8. inv_bind H ruler p9 H9.
  inv_bind H buf5 p10 H10. inv_bind H t4 p11 H11. inv_bind H c4 p12 H12.
  destruct c4 as [[[err be] cs] es].
  inv_bind H u1 p13 H13. inv_bind H u2 p14 H14.
  unfold ret in H. injection H as <- <-.
  apply lift_inv in H2. destruct H2 as [H2 ->].
  apply lift_inv in H3. destruct H3 as [H3 ->].
  apply lift_inv in H5. destruct H5 as [H5 ->].
  apply unpack_array_inv in H2. destruct H2 as (_ & Hl & ->).
  apply unpack_array_inv in H5. destruct H5 as (Hn & _ & ->).
  change (Z.to_nat 3) with 3%nat in H3. cbn [py.chunks map py.unpack3] in H3.
  assert (Hspecs : nspecs = struct.decode_i (firstn 4 buf)) by congruence.
  unfold len. rewrite length_map, length_chunks, Z2Nat.id by lia.
  rewrite Hspecs. rewrite (read_any (3 * 4) content pos ltac:(unfold py.maxsize; lia)) in H1.
  assert (Hbuf : buf = firstn (Z.to_nat (3 * 4)) (skipn pos content)) by congruence.
  rewrite Hbuf. unfold int32_at. change (Z.to_nat (3 * 4)) with 12%nat.
  rewrite firstn_firstn. reflexivity.
Qed.

Lemma specs_geometry_ok_len specs g :
  specs_geometry specs = Ok g -> 9 <= len specs.
Proof.
  intros H. destruct (Z.lt_ge_cases (len specs) 9) as [Hs|Hs]; [|exact Hs].
  rewrite specs_geometry_short in H by (unfold len in Hs; lia). discriminate.
Qed.

(** A tagged file is never decoded when its first count is below 9. *)
Lemma read_oma_few_specs content :
  py.contains oma2_tag (firstn 30 content) = true ->
  int32_at content 30 < 9 ->
  exists e, run read_oma content = Raise e.
Proof.
  intros Htag Hn. unfold run.
  destruct (read_oma content 0%nat) as [[image p]|e] eqn:E; [|eauto].
  exfalso. unfold read_oma in E.
  rewrite (bind_ok _ _ _ _ _ _ (read_first_30 content)), Htag in E.
  apply bind_inv in E. destruct E as ([[row col] ic] & p1 & E & _).
  unfold read_oma_tagged_header in E.
  apply bind_inv in E. destruct E as (specs & p2 & Ef & Eg).
  apply lift_inv in Eg. destruct Eg as [Eg _].
  apply specs_geometry_ok_len in Eg.
  apply read_oma_tagged_fields_len in Ef.
  assert (Hp : int32_at content (length (firstn 30 content)) = int32_at content 30).
  { unfold int32_at. rewrite length_firstn.
    destruct (Nat.le_ge_cases 30 (length content)) as [Hl|Hl].
    - rewrite Nat.min_l by lia. reflexivity.
    - rewrite Nat.min_r by lia. rewrite !skipn_all2 by lia. reflexivity. }
  lia.
Qed.
End MissingSpecs.

Section RoundTrip.

Lemma Forall_channel (P : Z -> Prop) (k : nat) (l : list Z) (n : nat) :
  (k < 3)%nat -> length l = (3 * n)%nat -> Forall P l -> Forall P (channel k l).
Proof.
  intros Hk. revert l. induction n as [|n IH]; intros l Hl HP.
  - destruct l; [constructor | discriminate].
  - destruct l as [|a [|b [|c l]]]; try (simpl in Hl; lia).
    inversion HP as [|? ? Pa HP1]; subst. inversion HP1 as [|? ? Pb HP2]; subst.
    inversion HP2 as [|? ? Pc HP3]; subst.
    cbn [channel]. constructor.
    + destruct k as [|[|[|k]]]; try lia; assumption.
    + apply IH; [simpl in Hl; lia | assumption].
Qed.

Lemma samples_at_floats (samples : list Z) :
  Forall is_f32 samples ->
  samples_at (floats samples) 0 (len samples) = map struct.quiet samples.
Proof.
  intros H. unfold samples_at. cbn [skipn].
  rewrite firstn_all2 by (pose proof (len_floats samples); unfold len in *; lia).
  unfold len. rewrite Nat2Z.id.
  rewrite <- (app_nil_r (floats samples)). unfold floats.
  rewrite (chunks_flat_map 4) by (intros x; apply length_le_split).
  rewrite map_map. induction H as [|x l Hx _ IH]; [reflexivity|].
  cbn [map]. rewrite IH, decode_f_pack_f by exact Hx. reflexivity.
Qed.

Lemma oma2_new_bytes_tagged row col is_color ruler samples :
  length ruler = 16%nat ->
  oma2_new_bytes row col is_color ruler samples
  = tagged_header_bytes (written_header row col is_color ruler) ++ floats samples.
Proof.
  intros Hr. unfold oma2_new_bytes, tagged_header_bytes, written_header.
  cbn [th_tag th_specs th_values th_ruler th_error th_big_endian th_comment th_extra].
  unfold len. rewrite Hr. cbn [py.setitem specs_template length repeat].
  rewrite <- !app_assoc. reflexivity.
Qed.

Lemma written_header_ok row col is_color ruler :
  length ruler = 16%nat -> in_int32 row -> in_int32 col -> in_int32 is_color ->
  tagged_header_ok (written_header row col is_color ruler).
Proof.
  intros Hr Hrow Hcol Hic. unfold tagged_header_ok, written_header.
  cbn [th_tag th_specs th_values th_ruler th_error th_big_endian th_comment th_extra].
  unfold len. rewrite Hr.
  split; [reflexivity|]. split; [vm_compute; reflexivity|].
  split; [apply specs_in_range; assumption|].
  split; [apply Forall_repeat; unfold is_f32; lia|].
  cbn [py.setitem specs_template length repeat].
  repeat split; unfold in_int32; cbn; lia.
Qed.

Lemma read_written row col is_color ruler samples :
  length ruler = 16%nat -> 0 <= row -> 0 <= col ->
  in_int32 row -> in_int32 col -> in_int32 is_color ->
  len samples = row * col -> Forall is_f32 samples ->
  row * col * 4 <= py.maxsize ->
  file.run read_oma (oma2_new_bytes row col is_color ruler samples)
  = Ok (if is_color =? 1
        then color_of_plane row col (map struct.quiet samples)
        else np.mk_ndarray [row; col] (map struct.quiet samples)).
Proof.
  intros Hr H0 H1 Hrow Hcol Hic Hlen Hf Hm.
  rewrite oma2_new_bytes_tagged by exact Hr.
  rewrite (read_oma_tagged_ok _ _ row col is_color).
  - rewrite <- Hlen, samples_at_floats by exact Hf. reflexivity.
  - apply written_header_ok; assumption.
  - apply specs_geometry_nth.
  - exact H0.
  - exact H1.
  - rewrite len_floats. lia.
  - exact Hm.
Qed.

End RoundTrip.

(** ** Further facts the claims use *)

Lemma wrun_eq {A} (m : file.writer A) tape out tape' r :
  m (file.mk_wstate [] tape) = (file.mk_wstate out tape', r) ->
  file.wrun m tape = (out, r).
Proof. intros H. unfold file.wrun. rewrite H. reflexivity. Qed.

Lemma write_oma_new_too_many_rows (fl : list Z) (tape : nat -> byte) :
  snd (file.wrun (write_oma (np.mk_ndarray [2 ^ 31; 1] fl) true) tape)
  = Raise StructError.
Proof. vm_compute. reflexivity. Qed.

Section TaggedClaims.

Lemma specs_geometry_of_nth (specs : list Z) (rows cols flag : Z) :
  nth_error specs 0 = Some rows -> nth_error specs 1 = Some cols ->
  nth_error specs 8 = Some flag ->
  specs_geometry specs = Ok (rows, cols, flag).
Proof. intros H0 H1 H8. rewrite specs_geometry_nth, H0, H1, H8. reflexivity. Qed.

Lemma plain_header_ok (specs : list Z) :
  Forall in_int32 specs -> in_int32 (len specs) ->
  tagged_header_ok (plain_header specs).
Proof.
  intros Hs Hl. unfold tagged_header_ok, plain_header.
  cbn [th_tag th_specs th_values th_ruler th_error th_big_endian th_comment th_extra].
  split; [reflexivity|]. split; [vm_compute; reflexivity|].
  split; [exact Hs|]. split; [apply Forall_nil|]. split; [exact Hl|].
  repeat split; unfold in_int32, len; cbn [length Z.of_nat]; lia.
Qed.

Lemma shape_color_of_plane rows cols plane :
  0 <= rows ->
  np.shape (color_of_plane rows cols plane) = [rows / 3; cols; 3].
Proof.
  intros H. unfold color_of_plane, py.int_truediv. cbn [np.shape].
  rewrite Z.quot_div_nonneg by lia. reflexivity.
Qed.

Lemma len_samples_at content pos n :
  0 <= n -> len (samples_at content pos n) = n.
Proof.
  intros H. unfold len, samples_at. rewrite length_map, length_chunks. lia.
Qed.

End TaggedClaims.

Section OneDimension.

Lemma reshape1_flat (d1 d2 : np.ndarray) (n : Z) :
  np.flat d1 = np.flat d2 -> np.reshape1 d1 n = np.reshape1 d2 n.
Proof. intros H. unfold np.reshape1. rewrite H. reflexivity. Qed.

Lemma write_samples_flat (d1 d2 : np.ndarray) (row col : Z) :
  np.flat d1 = np.flat d2 -> write_samples d1 row col = write_samples d2 row col.
Proof.
  intros H. unfold write_samples. rewrite (reshape1_flat d1 d2 _ H). reflexivity.
Qed.

Lemma write_oma_new_body_flat (d1 d2 : np.ndarray) (is_color row col : Z) :
  np.flat d1 = np.flat d2 ->
  write_oma_new_body is_color d1 row col = write_oma_new_body is_color d2 row col.
Proof.
  intros H. unfold write_oma_new_body. rewrite (write_samples_flat d1 d2 _ _ H).
  reflexivity.
Qed.

(** A one-dimensional array is written as the array of one column with
    the same elements. *)
Lemma write_oma_1d_as_column (l : list Z) (n : Z) (use_new : bool) s :
  write_oma (np.mk_ndarray [n] l) use_new s
  = write_oma (np.mk_ndarray [n; 1] l) use_new s.
Proof.
  destruct s as [w t]. destruct use_new; cbn [write_oma].
  - unfold write_oma_new, rows_and_cols, ndim. cbn [np.shape].
    rewrite !getitem_0, getitem_1.
    change (1 <? Z.of_nat (length [n])) with false.
    change (2 <? Z.of_nat (length [n])) with false.
    change (1 <? Z.of_nat (length [n; 1])) with true.
    change (2 <? Z.of_nat (length [n; 1])) with false.
    cbv [file.wbind file.wlift file.wret file.write file.written file.entropy].
    rewrite (write_oma_new_body_flat (np.mk_ndarray [n] l) (np.mk_ndarray [n; 1] l));
      reflexivity.
  - unfold write_oma_legacy, rows_and_cols, ndim. cbn [np.shape].
    rewrite !getitem_0, getitem_1.
    change (1 <? Z.of_nat (length [n])) with false.
    change (1 <? Z.of_nat (length [n; 1])) with true.
    change (Z.of_nat (length [n]) =? 3) with false.
    change (Z.of_nat (length [n; 1]) =? 3) with false.
    cbv [file.wbind file.wlift file.wret].
    rewrite (write_samples_flat (np.mk_ndarray [n] l) (np.mk_ndarray [n; 1] l));
      reflexivity.
Qed.

Lemma write_oma_legacy_1d (data : np.ndarray) (n : Z) w t :
  np.shape data = [n] -> len (np.flat data) = n ->
  write_oma_legacy data (file.mk_wstate w t)
  = (file.mk_wstate (w ++ oma2_legacy_bytes (n mod 2 ^ 16) 1 (np.flat data)) t,
     Ok tt).
Proof.
  intros Hsh Hl.
  apply (write_oma_legacy_ok data data n n 1 w t).
  - apply rows_and_cols_1d. exact Hsh.
  - unfold ndim. rewrite Hsh. split; reflexivity.
  - lia.
Qed.

Lemma write_oma_legacy_color (data : np.ndarray) (r c : Z) w t :
  np.shape data = [r; c; 3] -> 0 <= r -> 0 <= c ->
  len (np.flat data) = r * c * 3 ->
  write_oma_legacy data (file.mk_wstate w t)
  = (file.mk_wstate
       (w ++ oma2_legacy_bytes (r mod 2 ^ 16) (c mod 2 ^ 16)
              (channel 0 (np.flat data) ++ channel 1 (np.flat data)
                 ++ channel 2 (np.flat data))) t,
     Ok tt).
Proof.
  intros Hsh Hr Hc Hl. destruct data as [sh l]. cbn [np.shape np.flat] in *. subst sh.
  destruct (stack_planes_ok r c l ltac:(nia) Hl) as [sh Hst].
  apply (write_oma_legacy_ok _ (np.mk_ndarray sh _) r (3 * r) c w t).
  - apply (rows_and_cols_2d _ r c [3]). reflexivity.
  - split; [exact Hst | reflexivity].
  - cbn [np.flat]. unfold len in *. rewrite !length_app.
    rewrite !(length_channel _ l (Z.to_nat (r * c))) by lia. nia.
Qed.

End OneDimension.

Lemma write_oma_legacy_65536 (l : list Z) (tape : nat -> byte) :
  len l = 65536 ->
  file.wrun (write_oma (np.mk_ndarray [65536] l) false) tape
  = (oma2_legacy_bytes 0 1 l, Ok tt) /\
  int16_at (oma2_legacy_bytes 0 1 l) 16 = 0.
Proof.
  intros Hl. split.
  - eapply wrun_eq. cbn [write_oma].
    rewrite (write_oma_legacy_1d (np.mk_ndarray [65536] l) 65536 [] tape eq_refl Hl).
    reflexivity.
  - reflexivity.
Qed.

Section Quieting.

Lemma quieted_same (a : np.ndarray) : no_snan a -> quieted a = a.
Proof.
  intros H. destruct a as [sh fl]. unfold quieted, no_snan in *.
  cbn [np.shape np.flat] in *. f_equal.
  induction H as [|x l Hx _ IH]; [reflexivity|].
  cbn [map]. rewrite IH, (quiet_same x Hx). reflexivity.
Qed.

Lemma channel_map (f : Z -> Z) (k : nat) (l : list Z) (n : nat) :
  (k < 3)%nat -> length l = (3 * n)%nat ->
  channel k (map f l) = map f (channel k l).
Proof.
  intros Hk. revert l. induction n as [|n IH]; intros l Hl.
  - destruct l; [reflexivity | discriminate].
  - destruct l as [|a [|b [|c l]]]; try (simpl in Hl; lia).
    cbn [map channel]. rewrite IH by (simpl in Hl; lia).
    destruct k as [|[|[|k]]]; try lia; reflexivity.
Qed.

(** The new-format round trip: the image comes back with its samples
    quieted. *)
Lemma write_read_oma_quieted (a : np.ndarray) (l : layout) (rows cols : Z)
      (tape : nat -> byte) :
  Image a l rows cols ->
  stored_rows l rows <= 2 ^ 31 - 1 -> cols <= 2 ^ 31 - 1 ->
  4 * len (np.flat a) <= py.maxsize ->
  exists bytes,
    file.wrun (write_oma a true) tape = (bytes, Ok tt) /\
    file.run read_oma bytes = Ok (quieted a).
Proof.
  intros (Hsh & Hr & Hc & Hlen & Hf) Hrows Hcols Hfit.
  destruct a as [sh fl]. unfold quieted. cbn [np.shape np.flat] in *. subst sh.
  assert (Hruler : length (map tape (seq 0 16)) = 16%nat) by reflexivity.
  destruct l; cbn [image_shape stored_rows] in *.
  - assert (Hl : len fl = rows * cols)
      by (unfold len; cbn [np.prod fold_right] in Hlen; lia).
    eexists. split.
    + eapply wrun_eq. cbn [write_oma].
      apply (write_oma_new_mono _ rows cols); try reflexivity;
        unfold in_int32; cbn [np.flat]; try lia; exact Hl.
    + cbn [app np.flat]. rewrite read_written; try assumption;
        unfold in_int32; try lia; reflexivity.
  - assert (Hl3 : len fl = rows * cols * 3)
      by (unfold len; cbn [np.prod fold_right] in Hlen; lia).
    assert (Hn : length fl = (3 * Z.to_nat (rows * cols))%nat)
      by (unfold len in Hl3; lia).
    assert (L : forall k, len (channel k fl) = rows * cols).
    { intros k. unfold len. rewrite (length_channel _ fl _ Hn). lia. }
    eexists. split.
    + eapply wrun_eq. cbn [write_oma].
      apply (write_oma_new_color _ rows cols); try reflexivity;
        unfold in_int32; cbn [np.flat]; try lia; exact Hl3.
    + cbn [app np.flat].
      assert (LP : len (channel 0 fl ++ channel 1 fl ++ channel 2 fl)
                   = 3 * rows * cols).
      { unfold len in *. rewrite !length_app. pose proof (L 0%nat).
        pose proof (L 1%nat). pose proof (L 2%nat). lia. }
      assert (FP : Forall is_f32 (channel 0 fl ++ channel 1 fl ++ channel 2 fl)).
      { apply Forall_app; split; [|apply Forall_app; split];
          apply (Forall_channel _ _ _ (Z.to_nat (rows * cols))); (lia || assumption). }
      assert (I1 : in_int32 (3 * rows)) by (unfold in_int32; lia).
      assert (I2 : in_int32 cols) by (unfold in_int32; lia).
      assert (I3 : in_int32 1) by (unfold in_int32; lia).
      assert (P1 : 0 <= 3 * rows) by lia.
      assert (P2 : 0 <= cols) by lia.
      assert (M : 3 * rows * cols * 4 <= py.maxsize) by lia.
      rewrite (read_written (3 * rows) cols 1 _ _ Hruler P1 P2 I1 I2 I3 LP FP M).
      change (1 =? 1) with true. cbv iota. apply f_equal.
      rewrite !map_app.
      rewrite <- !(channel_map struct.quiet _ fl _) by (lia || exact Hn).
      apply color_of_plane_channels; try lia.
      unfold len in *. rewrite length_map. exact Hl3.
Qed.

End Quieting.

(** * The claims *)

(** C1 (amended): an image whose stored row count and column count fit the
    32-bit signed header fields, and whose samples take no more bytes than
    the largest length, is written in the new format and read back with
    the same shape, hence rows, columns and channel layout, and with the
    same samples, except that a signalling NaN comes back as the quiet NaN
    with the same payload; an image without a signalling NaN is read back
    unchanged. *)
Theorem write_read_oma_roundtrip (a : np.ndarray) (l : layout) (rows cols : Z)
        (tape : nat -> byte) :
  Image a l rows cols ->
  stored_rows l rows <= 2 ^ 31 - 1 -> cols <= 2 ^ 31 - 1 ->
  4 * len (np.flat a) <= py.maxsize ->
  exists bytes,
    file.wrun (write_oma a true) tape = (bytes, Ok tt) /\
    file.run read_oma bytes = Ok (quieted a) /\
    (no_snan a -> file.run read_oma bytes = Ok a).
Proof.
  intros HI Hrows Hcols Hfit.
  destruct (write_read_oma_quieted a l rows cols tape HI Hrows Hcols Hfit)
    as (bytes & Hw & Hrd).
  exists bytes. split; [exact Hw|]. split; [exact Hrd|].
  intros Hq. rewrite Hrd, (quieted_same a Hq). reflexivity.
Qed.

Lemma write_read_oma_roundtrip_witness :
  Image color_1x2 Color 1 2 /\
  no_snan color_1x2 /\
  exists bytes,
    file.wrun (write_oma color_1x2 true) tape0 = (bytes, Ok tt) /\
    file.run read_oma bytes = Ok (quieted color_1x2) /\
    (no_snan color_1x2 -> file.run read_oma bytes = Ok color_1x2).
Proof.
  assert (HI : Image color_1x2 Color 1 2).
  { unfold Image, color_1x2. cbn [np.shape np.flat image_shape].
    repeat split; try lia; try reflexivity.
    repeat (apply Forall_cons; [unfold is_f32; lia|]). apply Forall_nil. }
  assert (H1 : stored_rows Color 1 <= 2 ^ 31 - 1) by (cbn; lia).
  assert (H2 : 2 <= 2 ^ 31 - 1) by lia.
  assert (H3 : 4 * len (np.flat color_1x2) <= py.maxsize) by (cbv; discriminate).
  assert (Hq : no_snan color_1x2).
  { unfold no_snan, color_1x2. cbn [np.flat].
    repeat (apply Forall_cons; [reflexivity|]). apply Forall_nil. }
  split; [exact HI|]. split; [exact Hq|].
  exact (write_read_oma_roundtrip color_1x2 Color 1 2 tape0 HI H1 H2 H3).
Defined.

(** C1, counterexamples: a mono image of 2^31 rows satisfies the image
    invariant and is not written, because the row count does not fit the
    ['i'] format; and the 1 x 1 image of the signalling NaN [0x7F800001]
    satisfies the invariant, is written, and is read back as the image of
    the quiet NaN [0x7FC00001]. *)
Lemma roundtrip_fails_2p31_rows_or_snan :
  Image huge_mono Mono (2 ^ 31) 1 /\
  snd (file.wrun (write_oma huge_mono true) tape0) = Raise StructError /\
  Image snan_1x1 Mono 1 1 /\
  snd (file.wrun (write_oma snan_1x1 true) tape0) = Ok tt /\
  file.run read_oma (fst (file.wrun (write_oma snan_1x1 true) tape0))
  = Ok (np.mk_ndarray [1; 1] [2143289345]).
Proof.
  split; [|split; [|split; [|split]]].
  - unfold Image, huge_mono. cbn [np.shape np.flat image_shape].
    split; [reflexivity|]. split; [lia|]. split; [lia|]. split.
    + rewrite repeat_length, Z2Nat.id by lia. reflexivity.
    + apply Forall_repeat. unfold is_f32. lia.
  - exact (write_oma_new_too_many_rows _ tape0).
  - unfold Image, snan_1x1. cbn [np.shape np.flat image_shape].
    split; [reflexivity|]. split; [lia|]. split; [lia|]. split; [reflexivity|].
    apply Forall_cons; [unfold is_f32; lia | apply Forall_nil].
  - vm_compute. reflexivity.
  - vm_compute. reflexivity.
Qed.

(** C2 (amended): for a tagged file marked as colour (specs[8] = 1) whose
    row count is not a multiple of 3, the decoder does not fail: it returns
    the image of rows/3 rows (rounded down) made of the first 3*(rows/3)
    rows of the plane; the remaining rows are dropped.  (The sample bytes
    are a part of a file, which holds at most [sys.maxsize] bytes.) *)
Theorem read_oma_color_drops_remainder (h : tagged_header) (rest : list byte)
        (rows cols : Z) :
  tagged_header_ok h ->
  nth_error (th_specs h) 0 = Some rows ->
  nth_error (th_specs h) 1 = Some cols ->
  nth_error (th_specs h) 8 = Some 1 ->
  0 <= rows -> 0 <= cols -> rows mod 3 <> 0 ->
  rows * cols * 4 <= len rest -> len rest <= py.maxsize ->
  exists image,
    file.run read_oma (tagged_header_bytes h ++ rest) = Ok image /\
    np.shape image = [rows / 3; cols; 3] /\
    3 * (rows / 3) < rows /\
    forall i j k,
      0 <= i < rows / 3 -> 0 <= j < cols -> 0 <= k < 3 ->
      item3 image i j k
      = item2 (np.mk_ndarray [rows; cols] (samples_at rest 0 (rows * cols)))
              (k * (rows / 3) + i) j.
Proof.
  intros Hok H0 H1 H8 Hr Hc Hm Hlen Hfit.
  exists (color_of_plane rows cols (samples_at rest 0 (rows * cols))).
  split; [|split; [|split]].
  - rewrite (read_oma_tagged_ok h rest rows cols 1 Hok
               (specs_geometry_of_nth _ _ _ _ H0 H1 H8) Hr Hc Hlen) by lia.
    reflexivity.
  - apply shape_color_of_plane. exact Hr.
  - pose proof (Z.div_mod rows 3 ltac:(lia)).
    pose proof (Z.mod_pos_bound rows 3 ltac:(lia)). lia.
  - intros i j k Hi Hj Hk.
    assert (Hq : py.int_truediv rows 3 = rows / 3)
      by (unfold py.int_truediv; apply Z.quot_div_nonneg; lia).
    rewrite <- Hq in *.
    apply item3_color_of_plane; try assumption.
    apply len_samples_at. nia.
Qed.

Lemma read_oma_color_drops_remainder_witness :
  tagged_header_ok (plain_header (py.setitem (specs_template 7 1) 8 1)) /\
  7 mod 3 <> 0 /\
  exists image,
    file.run read_oma file_rows7 = Ok image /\
    np.shape image = [7 / 3; 1; 3] /\
    3 * (7 / 3) < 7 /\
    forall i j k,
      0 <= i < 7 / 3 -> 0 <= j < 1 -> 0 <= k < 3 ->
      item3 image i j k
      = item2 (np.mk_ndarray [7; 1]
                 (samples_at (floats [1; 2; 3; 4; 5; 6; 7]) 0 (7 * 1)))
              (k * (7 / 3) + i) j.
Proof.
  assert (Hok : tagged_header_ok (plain_header (py.setitem (specs_template 7 1) 8 1))).
  { apply plain_header_ok.
    - apply specs_in_range; unfold in_int32; lia.
    - unfold in_int32, len. cbn [py.setitem specs_template length Z.of_nat]. lia. }
  assert (Hm : 7 mod 3 <> 0) by (intros H; discriminate H).
  split; [exact Hok|]. split; [exact Hm|].
  apply (read_oma_color_drops_remainder
           (plain_header (py.setitem (specs_template 7 1) 8 1))
           (floats [1; 2; 3; 4; 5; 6; 7]) 7 1 Hok);
    try reflexivity; try lia; try exact Hm; vm_compute; discriminate.
Defined.

(** C2, counterexample: a colour file of 7 rows is decoded without an
    error to an image of 2 rows; the seventh row is dropped. *)
Lemma read_oma_rows7_not_rejected :
  nth_error (py.setitem (specs_template 7 1) 8 1) 0 = Some 7 /\
  nth_error (py.setitem (specs_template 7 1) 8 1) 8 = Some 1 /\
  file.run read_oma file_rows7
  = Ok (np.mk_ndarray [2; 1; 3] [1; 3; 5; 2; 4; 6]).
Proof. vm_compute. repeat split; reflexivity. Qed.




(** C4 (amended): for a HOBJ file whose header gives non-negative rows and
    cols and a pixel count different from rows*cols, the decoder fails and
    returns no image: with a negative pixel count the read of a negative
    length raises the value error; with fewer payload bytes than the pixel
    count asks for the unpack raises the struct error; with the payload
    all there the reshape raises the value error. *)
Theorem read_hobj_shape_mismatch (content : list byte) :
  let npixels := int32_be_at content 72 in
  let rows := int16_be_at content 80 + 1 in
  let cols := int16_be_at content 82 + 1 in
  let payload := skipn (Z.to_nat (84 + rows * 6 + 17)) content in
  84 <= len content ->
  0 <= rows -> 0 <= cols -> npixels <> rows * cols ->
  (exists e, file.run read_hobj content = Raise e) /\
  (npixels < 0 -> file.run read_hobj content = Raise ValueError) /\
  (0 <= npixels -> len payload < npixels * 2 ->
   file.run read_hobj content = Raise StructError) /\
  (0 <= npixels -> npixels * 2 <= len payload ->
   file.run read_hobj content = Raise ValueError).
Proof.
  intros npixels rows cols payload Hlen Hr Hc Hne.
  rewrite (read_hobj_spec content Hlen). fold npixels rows cols. cbv zeta.
  fold payload.
  destruct (Z.ltb_spec (84 + rows * 6 + 17) 0) as [Hneg|_]; [lia|].
  assert (Hshort : 0 <= npixels -> len payload < npixels * 2 ->
                   struct.unpack_h npixels (firstn (Z.to_nat (npixels * 2)) payload)
                   = Raise StructError).
  { intros Hn Hpay. unfold struct.unpack_h. apply unpack_array_short.
    unfold len in *. rewrite length_firstn. lia. }
  assert (Hfull : 0 <= npixels -> npixels * 2 <= len payload ->
                  res_bind
                    (struct.unpack_h npixels
                       (firstn (Z.to_nat (npixels * 2)) payload))
                    (fun image_array => np.reshape2 (np.array image_array) rows cols)
                  = Raise ValueError).
  { intros Hn Hpay. unfold struct.unpack_h, struct.unpack_array.
    destruct (Z.ltb_spec npixels 0); [lia|].
    rewrite length_firstn, Nat.min_l by (unfold len in Hpay; lia).
    destruct (Z.eqb_spec (Z.of_nat (Z.to_nat (npixels * 2))) (Z.of_nat 2 * npixels)); [|lia].
    cbn [res_bind]. apply reshape2_mismatch; try assumption.
    unfold len. rewrite length_map, length_chunks. lia. }
  destruct (Z.ltb_spec npixels 0) as [Hn|Hn].
  - split; [exists ValueError; reflexivity|].
    split; [reflexivity|]. split; intros; lia.
  - split.
    + destruct (Z.lt_ge_cases (len payload) (npixels * 2)) as [Hp|Hp].
      * exists StructError. rewrite (Hshort Hn Hp). reflexivity.
      * exists ValueError. apply (Hfull Hn Hp).
    + split; [intros; lia|]. split.
      * intros _ Hp. rewrite (Hshort Hn Hp). reflexivity.
      * intros _ Hp. apply (Hfull Hn Hp).
Qed.

Lemma read_hobj_shape_mismatch_witness :
  84 <= len hobj_two_pixels /\
  int32_be_at hobj_two_pixels 72 = 2 /\
  int16_be_at hobj_two_pixels 80 + 1 = 1 /\
  int16_be_at hobj_two_pixels 82 + 1 = 1 /\
  len (skipn 107 hobj_two_pixels) = 4 /\
  file.run read_hobj hobj_two_pixels = Raise ValueError.
Proof.
  assert (Hlen : 84 <= len hobj_two_pixels) by (vm_compute; discriminate).
  assert (Hn : int32_be_at hobj_two_pixels 72 = 2) by reflexivity.
  assert (Hr : int16_be_at hobj_two_pixels 80 + 1 = 1) by reflexivity.
  assert (Hc : int16_be_at hobj_two_pixels 82 + 1 = 1) by reflexivity.
  split; [exact Hlen|]. split; [exact Hn|]. split; [exact Hr|]. split; [exact Hc|].
  split; [reflexivity|].
  apply (read_hobj_shape_mismatch hobj_two_pixels Hlen);
    rewrite ?Hn, ?Hr, ?Hc; try lia.
  vm_compute. discriminate.
Defined.

(** C4, counterexample: a header with [npixels = 4], [rows = -1] and
    [cols = 2] has [npixels <> rows * cols], and the file is decoded to a
    2 x 2 image: the reshape infers the negative dimension. *)
Lemma read_hobj_negative_rows_decoded :
  int32_be_at hobj_inferred_rows 72 = 4 /\
  int16_be_at hobj_inferred_rows 80 + 1 = - 1 /\
  int16_be_at hobj_inferred_rows 82 + 1 = 2 /\
  file.run read_hobj hobj_inferred_rows
  = Ok (np.mk_ndarray [2; 2] [1; 2; 3; 4]).
Proof. vm_compute. repeat split; reflexivity. Qed.

(** C5: an untagged file is decoded from the two 16-bit integers at bytes
    14 and 16, read as (cols, rows), and from the samples at byte 832: when
    the samples are there the image is rows x cols, and no other image is
    ever returned. *)
Theorem read_oma_legacy_geometry (content : list byte) :
  let cols := int16_at content 14 in
  let rows := int16_at content 16 in
  py.contains oma2_tag (firstn 30 content) = false ->
  (18 <= len content -> 0 <= rows -> 0 <= cols ->
   rows * cols * 4 <= len (skipn 832 content) ->
   file.run read_oma content
   = Ok (np.mk_ndarray [rows; cols] (samples_at content 832 (rows * cols)))) /\
  (forall image,
      file.run read_oma content = Ok image ->
      image = np.mk_ndarray [rows; cols] (samples_at content 832 (rows * cols))).
Proof.
  intros cols rows Htag. rewrite (read_oma_legacy content Htag).
  fold cols rows. cbv zeta. split.
  - intros Hlen Hr Hc Hpay.
    destruct (Z.ltb_spec (len content) 18); [lia|].
    pose proof (int16_at_range content 14) as Bc.
    pose proof (int16_at_range content 16) as Br.
    fold cols in Bc. fold rows in Br.
    rewrite run_image_ok; try assumption; [reflexivity|].
    unfold py.maxsize. nia.
  - intros image. destruct (len content <? 18); [discriminate|].
    intros H. apply run_image_mono_inv in H; [|lia]. exact H.
Qed.

Lemma read_oma_legacy_geometry_witness :
  py.contains oma2_tag (firstn 30 legacy_2x4) = false /\
  int16_at legacy_2x4 14 = 4 /\ int16_at legacy_2x4 16 = 2 /\
  file.run read_oma legacy_2x4
  = Ok (np.mk_ndarray [2; 4] (samples_at legacy_2x4 832 (2 * 4))).
Proof.
  assert (Htag : py.contains oma2_tag (firstn 30 legacy_2x4) = false) by reflexivity.
  split; [exact Htag|]. split; [reflexivity|]. split; [reflexivity|].
  apply (proj1 (read_oma_legacy_geometry legacy_2x4 Htag)).
  - vm_compute. discriminate.
  - vm_compute. discriminate.
  - vm_compute. discriminate.
  - vm_compute. discriminate.
Defined.

(** C6: a tagged file with specs[8] = 1, 6 rows and 4 columns is decoded to
    a 2 x 4 x 3 image whose channel 0 is rows 0-1 of the plane, channel 1
    rows 2-3 and channel 2 rows 4-5. *)
Theorem read_oma_color_6x4 (h : tagged_header) (rest : list byte) :
  tagged_header_ok h ->
  nth_error (th_specs h) 0 = Some 6 ->
  nth_error (th_specs h) 1 = Some 4 ->
  nth_error (th_specs h) 8 = Some 1 ->
  96 <= len rest ->
  exists image,
    file.run read_oma (tagged_header_bytes h ++ rest) = Ok image /\
    np.shape image = [2; 4; 3] /\
    forall i j,
      0 <= i < 2 -> 0 <= j < 4 ->
      let plane := np.mk_ndarray [6; 4] (samples_at rest 0 24) in
      item3 image i j 0 = item2 plane i j /\
      item3 image i j 1 = item2 plane (2 + i) j /\
      item3 image i j 2 = item2 plane (4 + i) j.
Proof.
  intros Hok H0 H1 H8 Hlen.
  exists (color_of_plane 6 4 (samples_at rest 0 (6 * 4))).
  split; [|split].
  - rewrite (read_oma_tagged_ok h rest 6 4 1 Hok
               (specs_geometry_of_nth _ _ _ _ H0 H1 H8));
      [reflexivity | lia | lia | lia | unfold py.maxsize; lia].
  - reflexivity.
  - intros i j Hi Hj plane. unfold plane.
    change 24 with (6 * 4).
    assert (HS : len (samples_at rest 0 (6 * 4)) = 6 * 4)
      by (apply len_samples_at; lia).
    assert (Hq : py.int_truediv 6 3 = 2) by reflexivity.
    rewrite !item3_color_of_plane by (rewrite ?Hq; (lia || assumption)).
    rewrite Hq. repeat split; f_equal; lia.
Qed.

Lemma read_oma_color_6x4_witness :
  tagged_header_ok (plain_header (py.setitem (specs_template 6 4) 8 1)) /\
  exists image,
    file.run read_oma file_6x4 = Ok image /\
    np.shape image = [2; 4; 3] /\
    forall i j,
      0 <= i < 2 -> 0 <= j < 4 ->
      let plane :=
        np.mk_ndarray [6; 4]
          (samples_at
             (floats [0; 1; 2; 3; 4; 5; 6; 7; 8; 9; 10; 11; 12; 13; 14; 15;
                      16; 17; 18; 19; 20; 21; 22; 23]) 0 24) in
      item3 image i j 0 = item2 plane i j /\
      item3 image i j 1 = item2 plane (2 + i) j /\
      item3 image i j 2 = item2 plane (4 + i) j.
Proof.
  assert (Hok : tagged_header_ok (plain_header (py.setitem (specs_template 6 4) 8 1))).
  { apply plain_header_ok.
    - apply specs_in_range; unfold in_int32; lia.
    - unfold in_int32, len. cbn [py.setitem specs_template length Z.of_nat]. lia. }
  split; [exact Hok|].
  apply (read_oma_color_6x4 (plain_header (py.setitem (specs_template 6 4) 8 1)) _ Hok);
    try reflexivity.
Defined.

(** C7 (the code at a failing input): the legacy writer records the row
    count of one plane, not of the three stacked planes: for a 1 x 1
    colour image the header word 8 is 1 while three samples are written,
    and the file is read back as the 1 x 1 image of the red sample. *)
Theorem write_oma_legacy_color_rows_unstacked :
  file.wrun (write_oma rgb_1x1 false) tape0
  = (oma2_legacy_bytes 1 1 [10; 20; 30], Ok tt) /\
  int16_at (oma2_legacy_bytes 1 1 [10; 20; 30]) 16 = 1 /\
  len (oma2_legacy_bytes 1 1 [10; 20; 30]) = 832 + 4 * 3 /\
  file.run read_oma (oma2_legacy_bytes 1 1 [10; 20; 30])
  = Ok (np.mk_ndarray [1; 1] [10]).
Proof. vm_compute. repeat split; reflexivity. Qed.

(** C8 (amended): for a tagged file with at least 9 specs the frame is
    treated as colour exactly when specs[8] = 1: then the image has three
    channels; with any other value of specs[8], zero or not, the decoder
    returns the mono image of rows x cols samples.  (The sample bytes are a
    part of a file, which holds at most [sys.maxsize] bytes.) *)
Theorem read_oma_color_flag (h : tagged_header) (rest : list byte)
        (rows cols flag : Z) :
  tagged_header_ok h ->
  nth_error (th_specs h) 0 = Some rows ->
  nth_error (th_specs h) 1 = Some cols ->
  nth_error (th_specs h) 8 = Some flag ->
  0 <= rows -> 0 <= cols -> rows * cols * 4 <= len rest ->
  len rest <= py.maxsize ->
  (flag = 1 ->
   exists image,
     file.run read_oma (tagged_header_bytes h ++ rest) = Ok image /\
     np.shape image = [rows / 3; cols; 3]) /\
  (flag <> 1 ->
   file.run read_oma (tagged_header_bytes h ++ rest)
   = Ok (np.mk_ndarray [rows; cols] (samples_at rest 0 (rows * cols)))).
Proof.
  intros Hok H0 H1 H8 Hr Hc Hlen Hfit.
  assert (Hm : rows * cols * 4 <= py.maxsize) by lia.
  pose proof (read_oma_tagged_ok h rest rows cols flag Hok
                (specs_geometry_of_nth _ _ _ _ H0 H1 H8) Hr Hc Hlen Hm) as Hrun.
  split.
  - intros ->. change (1 =? 1) with true in Hrun. cbv iota in Hrun.
    eexists. split; [exact Hrun|]. apply shape_color_of_plane. exact Hr.
  - intros Hne. destruct (Z.eqb_spec flag 1); [contradiction|]. exact Hrun.
Qed.

Lemma read_oma_color_flag_witness :
  tagged_header_ok (plain_header (py.setitem (specs_template 3 1) 8 2)) /\
  (2 = 1 ->
   exists image,
     file.run read_oma file_flag2 = Ok image /\
     np.shape image = [3 / 3; 1; 3]) /\
  (2 <> 1 ->
   file.run read_oma file_flag2
   = Ok (np.mk_ndarray [3; 1] (samples_at (floats [1; 2; 3]) 0 (3 * 1)))).
Proof.
  assert (Hok : tagged_header_ok (plain_header (py.setitem (specs_template 3 1) 8 2))).
  { apply plain_header_ok.
    - apply specs_in_range; unfold in_int32; lia.
    - unfold in_int32, len. cbn [py.setitem specs_template length Z.of_nat]. lia. }
  split; [exact Hok|].
  apply (read_oma_color_flag (plain_header (py.setitem (specs_template 3 1) 8 2))
           (floats [1; 2; 3]) 3 1 2 Hok);
    try reflexivity; try lia; vm_compute; discriminate.
Defined.

(** C8, counterexample: a file whose specs[8] is 2 is decoded as a mono
    image of 3 x 1 samples, not as a colour image. *)
Lemma read_oma_flag2_is_mono :
  nth_error (py.setitem (specs_template 3 1) 8 2) 8 = Some 2 /\
  file.run read_oma file_flag2 = Ok (np.mk_ndarray [3; 1] [1; 2; 3]).
Proof. vm_compute. split; reflexivity. Qed.

(** C9: two runs of the new-format writer on the same image, with any two
    entropy sources, end alike (both succeed or both raise the same
    exception) and write files of the same length that agree at every
    byte outside the 16 bytes of the ruler block, bytes 234 to 249. *)
Theorem write_oma_new_differs_in_ruler_only (data : np.ndarray)
        (t1 t2 : nat -> byte) :
  snd (file.wrun (write_oma data true) t1)
  = snd (file.wrun (write_oma data true) t2) /\
  length (fst (file.wrun (write_oma data true) t1))
  = length (fst (file.wrun (write_oma data true) t2)) /\
  forall i : nat,
    (i < 234 \/ 250 <= i)%nat ->
    nth_error (fst (file.wrun (write_oma data true) t1)) i
    = nth_error (fst (file.wrun (write_oma data true) t2)) i.
Proof.
  cbn [write_oma]. unfold file.wrun.
  destruct (write_oma_new_cases data) as [(e & He) | (ic & plane & row & col & Hb)].
  - rewrite !He. cbn [fst snd file.written]. auto.
  - rewrite !Hb.
    destruct (write_oma_new_body_cases ic plane row col)
      as [(out & e & He) | (pre & post & r & Hpre & Hr)].
    + rewrite !He. cbn [fst snd file.written]. auto.
    + rewrite !Hr. cbn [fst snd file.written app].
      set (front := oma2_header ++ ints [32; 16; 16]).
      assert (Hf : length front = 42%nat) by reflexivity.
      rewrite !(app_assoc front pre).
      split; [reflexivity|]. split.
      * rewrite !length_app, !length_map. reflexivity.
      * intros i Hi. apply nth_error_around.
        -- rewrite !length_map. reflexivity.
        -- rewrite length_app, length_map, length_seq, Hf, Hpre. lia.
Qed.

(** C10 (amended): a one-dimensional array of [n] samples is written, in
    both variants, exactly as the image of [n] rows and one column with the
    same samples; the new-format header records [n] rows and 1 column when
    [n] fits the ['i'] format, the legacy header when [n] fits 16 bits, and
    the payload is the [n] samples. *)
Theorem write_oma_one_dimensional (data : np.ndarray) (n : Z) (tape : nat -> byte) :
  np.shape data = [n] -> len (np.flat data) = n ->
  (forall use_new : bool,
      file.wrun (write_oma data use_new) tape
      = file.wrun (write_oma (np.mk_ndarray [n; 1] (np.flat data)) use_new) tape) /\
  (n <= 2 ^ 31 - 1 ->
   file.wrun (write_oma data true) tape
   = (oma2_new_bytes n 1 0 (map tape (seq 0 16)) (np.flat data), Ok tt)) /\
  (n <= 2 ^ 16 - 1 ->
   file.wrun (write_oma data false) tape
   = (oma2_legacy_bytes n 1 (np.flat data), Ok tt)).
Proof.
  intros Hsh Hl. split; [|split].
  - intros use_new. destruct data as [sh l]. cbn [np.shape np.flat] in *. subst sh.
    unfold file.wrun. rewrite write_oma_1d_as_column. reflexivity.
  - intros Hn. eapply wrun_eq. cbn [write_oma].
    apply (write_oma_new_1d data n [] tape Hsh); [|exact Hl].
    unfold in_int32, len in *. lia.
  - intros Hn. eapply wrun_eq. cbn [write_oma].
    rewrite (write_oma_legacy_1d data n [] tape Hsh Hl).
    rewrite Z.mod_small by (unfold len in Hl; lia). reflexivity.
Qed.

Lemma write_oma_one_dimensional_witness :
  np.shape line_3 = [3] /\ len (np.flat line_3) = 3 /\
  (forall use_new : bool,
      file.wrun (write_oma line_3 use_new) tape0
      = file.wrun (write_oma (np.mk_ndarray [3; 1] (np.flat line_3)) use_new) tape0) /\
  (3 <= 2 ^ 31 - 1 ->
   file.wrun (write_oma line_3 true) tape0
   = (oma2_new_bytes 3 1 0 (map tape0 (seq 0 16)) (np.flat line_3), Ok tt)) /\
  (3 <= 2 ^ 16 - 1 ->
   file.wrun (write_oma line_3 false) tape0
   = (oma2_legacy_bytes 3 1 (np.flat line_3), Ok tt)).
Proof.
  split; [reflexivity|]. split; [reflexivity|].
  exact (write_oma_one_dimensional line_3 3 tape0 eq_refl eq_refl).
Defined.

(** C10, counterexample: for a one-dimensional array of 65536 samples the
    legacy header records 0 rows, not 65536. *)
Lemma write_oma_legacy_65536_rows_recorded_as_0 :
  np.shape line_65536 = [65536] /\
  len (np.flat line_65536) = 65536 /\
  file.wrun (write_oma line_65536 false) tape0
  = (oma2_legacy_bytes 0 1 (np.flat line_65536), Ok tt) /\
  int16_at (oma2_legacy_bytes 0 1 (np.flat line_65536)) 16 = 0.
Proof.
  assert (Hl : len (repeat 0 (Z.to_nat 65536)) = 65536).
  { unfold len. rewrite repeat_length. reflexivity. }
  split; [reflexivity|]. split; [exact Hl|].
  exact (write_oma_legacy_65536 _ tape0 Hl).
Qed.

(** * Further properties of the decoders and of the writer *)

Section HobjFacts.

Lemma reshape2_ok (t : list Z) (r c : Z) :
  0 <= r -> 0 <= c -> len t = r * c ->
  np.reshape2 (np.array t) r c = Ok (np.mk_ndarray [r; c] t).
Proof.
  intros Hr Hc Hl. unfold np.reshape2, np.array. cbn [np.flat].
  destruct (Z.ltb_spec r 0); [lia|]. destruct (Z.ltb_spec c 0); [lia|].
  cbn [andb]. unfold len in Hl. rewrite Hl, Z.eqb_refl. reflexivity.
Qed.

Lemma unpack_one_short {A} (w : nat) (dec : list byte -> A) (buf : list byte) :
  length buf <> w -> struct.unpack_array w dec 1 buf = Raise StructError.
Proof. intros H. apply unpack_array_short. unfold len. lia. Qed.

End HobjFacts.

Section LegacyFiles.

Lemma decode_h_le_split v :
  is_uint16 v -> struct.decode_h (le_split 2 v) = struct.swrap 16 v.
Proof.
  intros H. unfold struct.decode_h. rewrite le_combine_split.
  rewrite Z.mod_small; [reflexivity | exact H].
Qed.

Lemma legacy_front (r c : Z) (s : list Z) :
  firstn 30 (oma2_legacy_bytes r c s)
  = repeat Byte.x00 14 ++ le_split 2 c ++ le_split 2 r ++ repeat Byte.x00 12.
Proof. reflexivity. Qed.

Lemma no_tag_between_zeros (b1 b2 b3 b4 : byte) :
  py.contains oma2_tag
    (repeat Byte.x00 14 ++ [b1; b2] ++ [b3; b4] ++ repeat Byte.x00 12) = false.
Proof.
  let t := eval vm_compute in oma2_tag in change oma2_tag with t.
  cbn [repeat app py.contains py.starts_with].
  repeat match goal with
         | |- context [Byte.eqb ?a Byte.x00] =>
             let v := eval vm_compute in (Byte.eqb a Byte.x00) in
             change (Byte.eqb a Byte.x00) with v
         end.
  cbn [andb orb]. rewrite ?andb_false_r. reflexivity.
Qed.

Lemma legacy_untagged (r c : Z) (s : list Z) :
  py.contains oma2_tag (firstn 30 (oma2_legacy_bytes r c s)) = false.
Proof. rewrite legacy_front. apply no_tag_between_zeros. Qed.

Lemma legacy_dims (r c : Z) (s : list Z) :
  int16_at (oma2_legacy_bytes r c s) 14 = struct.decode_h (le_split 2 c) /\
  int16_at (oma2_legacy_bytes r c s) 16 = struct.decode_h (le_split 2 r).
Proof. split; reflexivity. Qed.

Lemma legacy_payload (r c : Z) (s : list Z) :
  skipn 832 (oma2_legacy_bytes r c s) = floats s.
Proof. reflexivity. Qed.

Lemma len_legacy (r c : Z) (s : list Z) :
  len (oma2_legacy_bytes r c s) = 832 + 4 * len s.
Proof.
  pose proof (len_floats s) as L.
  unfold oma2_legacy_bytes, len in *. rewrite !length_app.
  change (length (words (oma2_legacy_header r c))) with 512%nat.
  change (length (floats (repeat 0 80))) with 320%nat. lia.
Qed.

(** What the decoder makes of the file the legacy writer writes. *)
Lemma read_legacy_written (r c : Z) (s : list Z) :
  is_uint16 r -> is_uint16 c ->
  file.run read_oma (oma2_legacy_bytes r c s)
  = let row := struct.swrap 16 r in
    let col := struct.swrap 16 c in
    file.run (read_oma_image row col 0) (floats s).
Proof.
  intros Hr Hc. rewrite (read_oma_legacy _ (legacy_untagged r c s)).
  rewrite len_legacy.
  destruct (Z.ltb_spec (832 + 4 * len s) 18); [unfold len in *; lia|].
  destruct (legacy_dims r c s) as [-> ->].
  rewrite legacy_payload, !decode_h_le_split by assumption. reflexivity.
Qed.

Lemma swrap16_small v : 0 <= v <= 32767 -> struct.swrap 16 v = v.
Proof.
  intros H. unfold struct.swrap. change (2 ^ (16 - 1)) with 32768.
  change (2 ^ 16) with 65536. rewrite Z.mod_small by lia. lia.
Qed.

Lemma swrap16_large v : 32768 <= v <= 65535 -> struct.swrap 16 v = v - 65536.
Proof.
  intros H. unfold struct.swrap. change (2 ^ (16 - 1)) with 32768.
  change (2 ^ 16) with 65536.
  replace (v + 32768) with (v - 32768 + 1 * 65536) by lia.
  rewrite Z.mod_add, Z.mod_small by lia. lia.
Qed.

Lemma floats_app (a b : list Z) : floats (a ++ b) = floats a ++ floats b.
Proof. unfold floats. apply flat_map_app. Qed.

Lemma read_legacy_plane (r c : Z) (s rest : list Z) :
  0 <= r <= 32767 -> 0 <= c <= 32767 ->
  len s = r * c -> Forall is_f32 s ->
  file.run read_oma (oma2_legacy_bytes r c (s ++ rest))
  = Ok (np.mk_ndarray [r; c] (map struct.quiet s)).
Proof.
  intros Hr Hc Hl Hf.
  rewrite read_legacy_written by (unfold is_uint16; lia).
  rewrite !swrap16_small by assumption. cbv zeta.
  assert (E : firstn (Z.to_nat (r * c * 4)) (floats (s ++ rest)) = floats s).
  { rewrite floats_app, firstn_app.
    pose proof (len_floats s) as L. unfold len in L, Hl.
    rewrite firstn_all2 by lia.
    replace (Z.to_nat (r * c * 4) - length (floats s))%nat with 0%nat by lia.
    cbn [firstn]. apply app_nil_r. }
  rewrite run_image_ok; try lia.
  - change (0 =? 1) with false. cbv iota.
    rewrite <- samples_at_firstn, E, <- Hl, samples_at_floats by exact Hf.
    reflexivity.
  - rewrite floats_app. pose proof (len_floats s) as L.
    unfold len in *. rewrite length_app. lia.
  - unfold py.maxsize. nia.
Qed.

End LegacyFiles.

Section WriterFailures.
Import file.

Lemma pack_i_raise v : ~ in_int32 v -> struct.pack_i v = Raise StructError.
Proof.
  unfold in_int32, struct.pack_i. intros H.
  destruct (Z.leb_spec (- 2 ^ 31) v); [|reflexivity].
  destruct (Z.leb_spec v (2 ^ 31 - 1)); [lia | reflexivity].
Qed.

Lemma write_oma_new_body_bad_rows is_color data row col w t :
  ~ in_int32 row ->
  write_oma_new_body is_color data row col (mk_wstate w t)
  = (mk_wstate w t, Raise StructError).
Proof.
  intros H. unfold write_oma_new_body. cbv zeta.
  cbn [py.setitem specs_template for_each].
  unfold wbind at 1. unfold wbind at 1. unfold wbind at 1. unfold wlift at 1.
  rewrite (pack_i_raise row H). reflexivity.
Qed.

Lemma write_oma_new_body_bad_size is_color data row col w t :
  in_int32 row -> in_int32 col -> in_int32 is_color ->
  Z.of_nat (length (np.flat data)) <> row * col -> 0 <= row * col ->
  write_oma_new_body is_color data row col (mk_wstate w t)
  = (mk_wstate
       (w ++ ints (py.setitem (specs_template row col) 8 is_color)
          ++ floats (repeat 0 16) ++ map t (seq 0 16) ++ ints [0; 0; 0; 0])
       (fun i => t (16 + i)%nat),
     Raise ValueError).
Proof.
  intros Hr Hc Hi Hlen H0. unfold write_oma_new_body.
  rewrite (wbind_ok _ _ _ _ _ (for_each_pack_i _ w t (specs_in_range _ _ _ Hr Hc Hi))).
  rewrite (wbind_ok _ _ _ _ _ (for_each_const _ _ _ _)).
  rewrite (wbind_ok _ _ _ _ _ (for_each_urandom _ _ _ _)).
  change (struct.pack_all struct.pack_i [0; 0; 0; 0]) with (Ok (ints [0; 0; 0; 0])).
  unfold wbind at 1. unfold wlift at 1.
  unfold wbind at 1. unfold write at 1. cbn [written entropy].
  rewrite (write_samples_raise _ _ _ _ _ Hlen H0).
  rewrite <- !app_assoc. reflexivity.
Qed.

Lemma stack_planes_few (data : np.ndarray) (r c d : Z) :
  np.shape data = [r; c; d] -> d < 3 -> stack_planes data = Raise IndexError.
Proof.
  intros Hsh Hd. unfold stack_planes, np.take_axis2. rewrite Hsh.
  change (Z.of_nat 0) with 0. change (Z.of_nat 1) with 1. change (Z.of_nat 2) with 2.
  destruct (Z.ltb_spec 2 d); [lia|].
  destruct (0 <? d); [|reflexivity]. cbn [res_bind].
  destruct (1 <? d); reflexivity.
Qed.

End WriterFailures.

(** X1: a file that carries the tag in its first 30 bytes and whose first
    count, the 32-bit integer at byte 30, is below 9 is never decoded,
    whatever else it holds. *)
Theorem read_oma_tagged_needs_9_specs (content : list byte) :
  py.contains oma2_tag (firstn 30 content) = true ->
  int32_at content 30 < 9 ->
  exists e, file.run read_oma content = Raise e.
Proof. exact (read_oma_few_specs content). Qed.

Lemma read_oma_tagged_needs_9_specs_witness :
  py.contains oma2_tag (firstn 30 file_five_specs) = true /\
  int32_at file_five_specs 30 < 9 /\
  exists e, file.run read_oma file_five_specs = Raise e.
Proof.
  assert (Ht : py.contains oma2_tag (firstn 30 file_five_specs) = true) by reflexivity.
  assert (Hn : int32_at file_five_specs 30 < 9) by reflexivity.
  split; [exact Ht|]. split; [exact Hn|].
  exact (read_oma_tagged_needs_9_specs file_five_specs Ht Hn).
Defined.

(** X2: a HOBJ file whose header gives non-negative rows and cols with
    [npixels = rows * cols] and whose pixel bytes are all there is decoded to
    the rows x cols image of the little-endian signed 16-bit samples found
    at byte [84 + rows*6 + 17]. *)
Theorem read_hobj_decodes (content : list byte) :
  let npixels := int32_be_at content 72 in
  let rows := int16_be_at content 80 + 1 in
  let cols := int16_be_at content 82 + 1 in
  let start := Z.to_nat (84 + rows * 6 + 17) in
  84 <= len content ->
  0 <= rows -> 0 <= cols -> npixels = rows * cols ->
  npixels * 2 <= len (skipn start content) ->
  file.run read_hobj content
  = Ok (np.mk_ndarray [rows; cols] (int16s_at content start npixels)).
Proof.
  intros npixels rows cols start Hlen Hr Hc Hn Hpay.
  rewrite (read_hobj_spec content Hlen). fold npixels rows cols. cbv zeta.
  fold start.
  assert (H0 : 0 <= npixels) by nia.
  destruct (Z.ltb_spec (84 + rows * 6 + 17) 0); [lia|].
  destruct (Z.ltb_spec (npixels * 2) 0); [lia|].
  unfold struct.unpack_h, struct.unpack_array.
  destruct (Z.ltb_spec npixels 0); [lia|].
  rewrite length_firstn, Nat.min_l by (unfold len in Hpay; lia).
  destruct (Z.eqb_spec (Z.of_nat (Z.to_nat (npixels * 2))) (Z.of_nat 2 * npixels)); [|lia].
  cbn [res_bind]. fold (int16s_at content start npixels).
  apply reshape2_ok; try assumption.
  unfold len, int16s_at. rewrite length_map, length_chunks. lia.
Qed.

Lemma read_hobj_decodes_witness :
  84 <= len hobj_1x1 /\
  int32_be_at hobj_1x1 72 = 1 /\
  int16_be_at hobj_1x1 80 + 1 = 1 /\ int16_be_at hobj_1x1 82 + 1 = 1 /\
  file.run read_hobj hobj_1x1
  = Ok (np.mk_ndarray [int16_be_at hobj_1x1 80 + 1; int16_be_at hobj_1x1 82 + 1]
          (int16s_at hobj_1x1
             (Z.to_nat (84 + (int16_be_at hobj_1x1 80 + 1) * 6 + 17))
             (int32_be_at hobj_1x1 72))) /\
  int16s_at hobj_1x1 107 1 = [4660].
Proof.
  assert (Hlen : 84 <= len hobj_1x1) by (vm_compute; discriminate).
  split; [exact Hlen|]. split; [reflexivity|]. split; [reflexivity|].
  split; [reflexivity|]. split; [|reflexivity].
  apply (read_hobj_decodes hobj_1x1 Hlen).
  - vm_compute; discriminate.
  - vm_compute; discriminate.
  - reflexivity.
  - vm_compute; discriminate.
Defined.

(** X3: a file shorter than the 84 bytes of the HOBJ header is not decoded:
    one of the three header fields cannot be unpacked. *)
Theorem read_hobj_short_header (content : list byte) :
  len content < 84 -> file.run read_hobj content = Raise StructError.
Proof.
  intros Hlen. unfold file.run, read_hobj.
  rewrite (bind_ok _ _ _ _ _ _ (read_any 84 content 0%nat ltac:(unfold py.maxsize; lia))).
  change (Z.to_nat 84) with 84%nat. cbn [skipn].
  rewrite firstn_all2 by (unfold len in Hlen; lia).
  unfold py.slice. change (76 - 72)%nat with 4%nat.
  change (82 - 80)%nat with 2%nat. change (84 - 82)%nat with 2%nat.
  unfold struct.unpack_i, struct.unpack_h at 1 2.
  destruct (Nat.eq_dec (length (rev (firstn 4 (skipn 72 content)))) 4) as [E4|E4].
  2:{ unfold file.bind at 1. unfold file.lift at 1.
      rewrite (unpack_one_short _ _ _ E4). reflexivity. }
  rewrite (unpack_one _ _ _ E4).
  unfold file.bind at 1. unfold file.lift at 1. rewrite getitem_0.
  unfold file.bind at 1. unfold file.lift at 1.
  destruct (Nat.eq_dec (length (rev (firstn 2 (skipn 80 content)))) 2) as [E2|E2].
  2:{ unfold file.bind at 1. unfold file.lift at 1.
      rewrite (unpack_one_short _ _ _ E2). reflexivity. }
  rewrite (unpack_one _ _ _ E2).
  unfold file.bind at 1. unfold file.lift at 1. rewrite getitem_0.
  unfold file.bind at 1. unfold file.lift at 1.
  unfold file.bind at 1. unfold file.lift at 1.
  rewrite unpack_one_short; [reflexivity|].
  rewrite length_rev, length_firstn, length_skipn. unfold len in Hlen. lia.
Qed.

Lemma read_hobj_short_header_witness :
  len (firstn 83 hobj_1x1) < 84 /\
  file.run read_hobj (firstn 83 hobj_1x1) = Raise StructError.
Proof.
  assert (H : len (firstn 83 hobj_1x1) < 84) by reflexivity.
  split; [exact H|]. exact (read_hobj_short_header _ H).
Defined.

(** X4: a HOBJ file whose pixel bytes are cut short is not decoded: for a
    non-negative pixel count and fewer than [2 * npixels] bytes from the
    pixel offset on, unpacking raises the struct error. *)
Theorem read_hobj_truncated_payload (content : list byte) :
  let npixels := int32_be_at content 72 in
  let rows := int16_be_at content 80 + 1 in
  let start := Z.to_nat (84 + rows * 6 + 17) in
  84 <= len content ->
  0 <= 84 + rows * 6 + 17 -> 0 <= npixels ->
  len (skipn start content) < npixels * 2 ->
  file.run read_hobj content = Raise StructError.
Proof.
  intros npixels rows start Hlen Hs Hn Hpay.
  rewrite (read_hobj_spec content Hlen). fold npixels rows. cbv zeta. fold start.
  destruct (Z.ltb_spec (84 + rows * 6 + 17) 0); [lia|].
  destruct (Z.ltb_spec npixels 0); [lia|].
  unfold struct.unpack_h. rewrite unpack_array_short; [reflexivity|].
  unfold len in *. rewrite length_firstn. lia.
Qed.

Lemma read_hobj_truncated_payload_witness :
  84 <= len hobj_1x1_cut /\
  file.run read_hobj hobj_1x1_cut = Raise StructError.
Proof.
  assert (Hlen : 84 <= len hobj_1x1_cut) by (vm_compute; discriminate).
  split; [exact Hlen|].
  apply (read_hobj_truncated_payload hobj_1x1_cut Hlen).
  - vm_compute; discriminate.
  - vm_compute; discriminate.
  - reflexivity.
Defined.

(** X5: a HOBJ file whose stored row count makes the pixel offset
    [84 + rows*6 + 17] negative is not decoded: the seek raises. *)
Theorem read_hobj_negative_offset (content : list byte) :
  let rows := int16_be_at content 80 + 1 in
  84 <= len content -> 84 + rows * 6 + 17 < 0 ->
  file.run read_hobj content = Raise OSError.
Proof.
  intros rows Hlen Hneg. rewrite (read_hobj_spec content Hlen).
  fold rows. cbv zeta.
  destruct (Z.ltb_spec (84 + rows * 6 + 17) 0); [reflexivity | lia].
Qed.

Lemma read_hobj_negative_offset_witness :
  int16_be_at hobj_rows_minus_99 80 + 1 = - 99 /\
  file.run read_hobj hobj_rows_minus_99 = Raise OSError.
Proof.
  split; [reflexivity|].
  apply (read_hobj_negative_offset hobj_rows_minus_99); [vm_compute; discriminate | reflexivity].
Defined.

(** X6: a HOBJ file whose stored row count is -2 (so that [rows] is -1)
    is decoded with the row count inferred from the pixel count, when the
    columns divide it: [-1] is the dimension [reshape] works out. *)
Theorem read_hobj_infers_rows (content : list byte) :
  let npixels := int32_be_at content 72 in
  let rows := int16_be_at content 80 + 1 in
  let cols := int16_be_at content 82 + 1 in
  84 <= len content ->
  rows = - 1 -> 0 < cols -> 0 <= npixels -> npixels mod cols = 0 ->
  npixels * 2 <= len (skipn 95 content) ->
  file.run read_hobj content
  = Ok (np.mk_ndarray [npixels / cols; cols] (int16s_at content 95 npixels)).
Proof.
  intros npixels rows cols Hlen Hr Hc Hn Hm Hpay.
  rewrite (read_hobj_spec content Hlen). fold npixels rows cols. cbv zeta.
  rewrite Hr. change (84 + -1 * 6 + 17) with 95. change (95 <? 0) with false.
  change (Z.to_nat 95) with 95%nat.
  destruct (Z.ltb_spec (npixels * 2) 0); [lia|].
  unfold struct.unpack_h, struct.unpack_array.
  destruct (Z.ltb_spec npixels 0); [lia|].
  rewrite length_firstn, Nat.min_l by (unfold len in Hpay; lia).
  destruct (Z.eqb_spec (Z.of_nat (Z.to_nat (npixels * 2))) (Z.of_nat 2 * npixels)); [|lia].
  cbn [res_bind]. fold (int16s_at content 95 npixels).
  unfold np.reshape2, np.array. cbn [np.flat].
  assert (L : Z.of_nat (length (int16s_at content 95 npixels)) = npixels).
  { unfold int16s_at. rewrite length_map, length_chunks. lia. }
  rewrite L. change (-1 <? 0) with true.
  destruct (Z.ltb_spec cols 0); [lia|]. cbn [andb].
  destruct (Z.eqb_spec cols 0); [lia|]. rewrite Hm. reflexivity.
Qed.

Lemma read_hobj_infers_rows_witness :
  int16_be_at hobj_inferred_rows 80 + 1 = - 1 /\
  file.run read_hobj hobj_inferred_rows
  = Ok (np.mk_ndarray [int32_be_at hobj_inferred_rows 72
                         / (int16_be_at hobj_inferred_rows 82 + 1);
                       int16_be_at hobj_inferred_rows 82 + 1]
          (int16s_at hobj_inferred_rows 95 (int32_be_at hobj_inferred_rows 72))) /\
  int32_be_at hobj_inferred_rows 72 / (int16_be_at hobj_inferred_rows 82 + 1) = 2.
Proof.
  split; [reflexivity|]. split; [|reflexivity].
  apply (read_hobj_infers_rows hobj_inferred_rows);
    first [reflexivity | vm_compute; discriminate].
Defined.



(** X8: what a tagged file is decoded to depends on its specs and its
    sample bytes only: the values, the ruler, the error and byte-order
    flags, the comment and the extra block are read and dropped. *)
Theorem read_oma_tagged_uses_specs_only (h1 h2 : tagged_header) (rest : list byte) :
  tagged_header_ok h1 -> tagged_header_ok h2 ->
  th_specs h1 = th_specs h2 ->
  file.run read_oma (tagged_header_bytes h1 ++ rest)
  = file.run read_oma (tagged_header_bytes h2 ++ rest).
Proof.
  intros H1 H2 Hs.
  rewrite (read_oma_tagged h1 rest H1), (read_oma_tagged h2 rest H2), Hs.
  reflexivity.
Qed.

Lemma read_oma_tagged_uses_specs_only_witness :
  tagged_header_ok busy_header /\
  tagged_header_ok (plain_header (py.setitem (specs_template 1 1) 8 0)) /\
  th_big_endian busy_header = 1 /\
  file.run read_oma (tagged_header_bytes busy_header ++ floats [5])
  = file.run read_oma (tagged_file (py.setitem (specs_template 1 1) 8 0) [5]) /\
  file.run read_oma (tagged_file (py.setitem (specs_template 1 1) 8 0) [5])
  = Ok (np.mk_ndarray [1; 1] [5]).
Proof.
  assert (Hs : Forall in_int32 (py.setitem (specs_template 1 1) 8 0)).
  { apply specs_in_range; unfold in_int32; lia. }
  assert (H2 : tagged_header_ok (plain_header (py.setitem (specs_template 1 1) 8 0))).
  { apply plain_header_ok; [exact Hs|].
    unfold in_int32, len. cbn [py.setitem specs_template length Z.of_nat]. lia. }
  assert (H1 : tagged_header_ok busy_header).
  { unfold tagged_header_ok, busy_header.
    cbn [th_tag th_specs th_values th_ruler th_error th_big_endian th_comment th_extra].
    split; [reflexivity|]. split; [reflexivity|]. split; [exact Hs|].
    split; [apply Forall_repeat; unfold is_f32; lia|].
    repeat split; unfold in_int32, len; cbn; lia. }
  split; [exact H1|]. split; [exact H2|]. split; [reflexivity|].
  split; [|reflexivity].
  exact (read_oma_tagged_uses_specs_only busy_header
           (plain_header (py.setitem (specs_template 1 1) 8 0)) (floats [5]) H1 H2 eq_refl).
Defined.

(** X9: an untagged file shorter than 18 bytes, the empty file included,
    is not decoded: the two header words cannot be unpacked. *)
Theorem read_oma_untagged_short (content : list byte) :
  py.contains oma2_tag (firstn 30 content) = false ->
  len content < 18 ->
  file.run read_oma content = Raise StructError.
Proof.
  intros Htag Hlen. rewrite (read_oma_legacy content Htag).
  destruct (Z.ltb_spec (len content) 18); [reflexivity | lia].
Qed.

Lemma read_oma_untagged_short_witness :
  file.run read_oma [] = Raise StructError.
Proof.
  apply (read_oma_untagged_short []); reflexivity.
Defined.

(** X10: an untagged file with fewer sample bytes after byte 832 than its
    header words announce (4 * rows * cols) is not decoded. *)
Theorem read_oma_legacy_truncated_payload (content : list byte) :
  let cols := int16_at content 14 in
  let rows := int16_at content 16 in
  py.contains oma2_tag (firstn 30 content) = false ->
  len (skipn 832 content) < rows * cols * 4 ->
  file.run read_oma content = Raise StructError.
Proof.
  intros cols rows Htag Hlen. rewrite (read_oma_legacy content Htag).
  fold cols rows. cbv zeta.
  destruct (Z.ltb_spec (len content) 18); [reflexivity|].
  pose proof (int16_at_range content 14) as Bc.
  pose proof (int16_at_range content 16) as Br.
  fold cols in Bc. fold rows in Br.
  apply run_image_short; [exact Hlen|]. unfold py.maxsize. nia.
Qed.

Lemma read_oma_legacy_truncated_payload_witness :
  int16_at legacy_2x4_cut 16 = 2 /\ int16_at legacy_2x4_cut 14 = 4 /\
  len (skipn 832 legacy_2x4_cut) = 28 /\
  file.run read_oma legacy_2x4_cut = Raise StructError.
Proof.
  split; [reflexivity|]. split; [reflexivity|]. split; [reflexivity|].
  apply (read_oma_legacy_truncated_payload legacy_2x4_cut); reflexivity.
Defined.

(** X11: the header words of an untagged file are signed: when exactly one
    of them is negative the pixel count is negative, the read of a negative
    length raises the value error and the file is not decoded, whatever
    follows the header. *)
Theorem read_oma_legacy_negative_count (content : list byte) :
  let cols := int16_at content 14 in
  let rows := int16_at content 16 in
  py.contains oma2_tag (firstn 30 content) = false ->
  18 <= len content ->
  rows * cols < 0 ->
  file.run read_oma content = Raise ValueError.
Proof.
  intros cols rows Htag Hlen Hneg. rewrite (read_oma_legacy content Htag).
  fold cols rows. cbv zeta.
  destruct (Z.ltb_spec (len content) 18); [lia|].
  pose proof (int16_at_range content 14) as Bc.
  pose proof (int16_at_range content 16) as Br.
  fold cols in Bc. fold rows in Br.
  apply run_image_negative; [nia | exact Hneg].
Qed.

Lemma read_oma_legacy_negative_count_witness :
  int16_at legacy_negative_rows 16 = - 1 /\
  int16_at legacy_negative_rows 14 = 4 /\
  file.run read_oma legacy_negative_rows = Raise ValueError.
Proof.
  split; [reflexivity|]. split; [reflexivity|].
  apply (read_oma_legacy_negative_count legacy_negative_rows);
    [reflexivity | vm_compute; discriminate | reflexivity].
Defined.

(** X12: a mono image whose rows and columns fit a signed 16-bit word is
    written in the legacy format and read back with the same shape and the
    same samples, except that a signalling NaN comes back as the quiet NaN
    with the same payload; an image without a signalling NaN is read back
    unchanged. *)
Theorem write_read_oma_legacy_roundtrip (a : np.ndarray) (rows cols : Z)
        (tape : nat -> byte) :
  Image a Mono rows cols -> rows <= 32767 -> cols <= 32767 ->
  exists bytes,
    file.wrun (write_oma a false) tape = (bytes, Ok tt) /\
    file.run read_oma bytes = Ok (quieted a) /\
    (no_snan a -> file.run read_oma bytes = Ok a).
Proof.
  intros (Hsh & Hr & Hc & Hlen & Hf) Hrows Hcols.
  destruct a as [sh fl]. cbn [np.shape np.flat image_shape] in *. subst sh.
  assert (Hl : len fl = rows * cols).
  { unfold len. rewrite Hlen. cbn [np.prod fold_right]. lia. }
  assert (Hrd : file.run read_oma (oma2_legacy_bytes rows cols fl)
                = Ok (quieted (np.mk_ndarray [rows; cols] fl))).
  { rewrite <- (app_nil_r fl) at 1.
    apply read_legacy_plane; try lia; assumption. }
  exists (oma2_legacy_bytes rows cols fl). split; [|split].
  - apply (wrun_eq _ tape _ tape). cbn [write_oma].
    rewrite (write_oma_legacy_ok _ (np.mk_ndarray [rows; cols] fl) rows rows cols).
    + rewrite !Z.mod_small by lia. reflexivity.
    + apply (rows_and_cols_2d _ rows cols []). reflexivity.
    + split; reflexivity.
    + exact Hl.
  - exact Hrd.
  - intros Hq. rewrite Hrd, (quieted_same _ Hq). reflexivity.
Qed.

Lemma write_read_oma_legacy_roundtrip_witness :
  Image mono_2x3 Mono 2 3 /\
  no_snan mono_2x3 /\
  exists bytes,
    file.wrun (write_oma mono_2x3 false) tape0 = (bytes, Ok tt) /\
    file.run read_oma bytes = Ok (quieted mono_2x3) /\
    (no_snan mono_2x3 -> file.run read_oma bytes = Ok mono_2x3).
Proof.
  assert (Hi : Image mono_2x3 Mono 2 3).
  { unfold Image, mono_2x3. cbn [np.shape np.flat image_shape].
    split; [reflexivity|]. split; [lia|]. split; [lia|]. split; [reflexivity|].
    repeat (apply Forall_cons; [unfold is_f32; lia|]). apply Forall_nil. }
  assert (Hq : no_snan mono_2x3).
  { unfold no_snan, mono_2x3. cbn [np.flat].
    repeat (apply Forall_cons; [reflexivity|]). apply Forall_nil. }
  split; [exact Hi|]. split; [exact Hq|].
  apply (write_read_oma_legacy_roundtrip mono_2x3 2 3 tape0 Hi); lia.
Defined.

(** X13: a colour image whose rows and columns fit a signed 16-bit word is
    written in the legacy format as three stacked planes under a header
    that records the rows of one plane, and the file is read back as the
    mono image of the first channel only (its signalling NaNs quieted). *)
Theorem write_read_oma_legacy_color_keeps_red (a : np.ndarray) (rows cols : Z)
        (tape : nat -> byte) :
  Image a Color rows cols -> rows <= 32767 -> cols <= 32767 ->
  let planes := channel 0 (np.flat a) ++ channel 1 (np.flat a)
                  ++ channel 2 (np.flat a) in
  file.wrun (write_oma a false) tape
  = (oma2_legacy_bytes rows cols planes, Ok tt) /\
  file.run read_oma (oma2_legacy_bytes rows cols planes)
  = Ok (np.mk_ndarray [rows; cols] (map struct.quiet (channel 0 (np.flat a)))).
Proof.
  intros (Hsh & Hr & Hc & Hlen & Hf) Hrows Hcols planes.
  destruct a as [sh fl]. cbn [np.shape np.flat image_shape] in *. subst sh.
  assert (Hl : len fl = rows * cols * 3).
  { unfold len. rewrite Hlen. cbn [np.prod fold_right]. lia. }
  assert (Hn : length fl = (3 * Z.to_nat (rows * cols))%nat).
  { unfold len in Hl. lia. }
  split.
  - apply (wrun_eq _ tape _ tape). cbn [write_oma].
    rewrite (write_oma_legacy_color _ rows cols) by (try reflexivity; try lia; exact Hl).
    rewrite !Z.mod_small by lia. reflexivity.
  - assert (H03 : (0 < 3)%nat) by lia.
    apply read_legacy_plane; try lia.
    + unfold len. rewrite (length_channel _ fl _ Hn). lia.
    + exact (Forall_channel _ _ _ _ H03 Hn Hf).
Qed.

Lemma write_read_oma_legacy_color_keeps_red_witness :
  Image color_1x2 Color 1 2 /\
  file.wrun (write_oma color_1x2 false) tape0
  = (oma2_legacy_bytes 1 2 [10; 20; 11; 21; 12; 22], Ok tt) /\
  file.run read_oma (oma2_legacy_bytes 1 2 [10; 20; 11; 21; 12; 22])
  = Ok (np.mk_ndarray [1; 2] [10; 20]).
Proof.
  assert (Hi : Image color_1x2 Color 1 2).
  { unfold Image, color_1x2. cbn [np.shape np.flat image_shape].
    split; [reflexivity|]. split; [lia|]. split; [lia|]. split; [reflexivity|].
    repeat (apply Forall_cons; [unfold is_f32; lia|]). apply Forall_nil. }
  split; [exact Hi|].
  apply (write_read_oma_legacy_color_keeps_red color_1x2 1 2 tape0 Hi); lia.
Defined.

(** X14: a mono image of 32768 to 65535 rows is written in the legacy
    format without an error, its row count stored in the unsigned header
    word, but the file cannot be read back: the decoder reads the word as
    a signed one, gets a negative pixel count, and the read of a negative
    length raises the value error. *)
Theorem write_oma_legacy_tall_unreadable (a : np.ndarray) (rows cols : Z)
        (tape : nat -> byte) :
  Image a Mono rows cols -> 32768 <= rows <= 65535 -> cols <= 32767 ->
  file.wrun (write_oma a false) tape
  = (oma2_legacy_bytes rows cols (np.flat a), Ok tt) /\
  file.run read_oma (oma2_legacy_bytes rows cols (np.flat a)) = Raise ValueError.
Proof.
  intros (Hsh & Hr & Hc & Hlen & Hf) Hrows Hcols.
  destruct a as [sh fl]. cbn [np.shape np.flat image_shape] in *. subst sh.
  assert (Hl : len fl = rows * cols).
  { unfold len. rewrite Hlen. cbn [np.prod fold_right]. lia. }
  split.
  - apply (wrun_eq _ tape _ tape). cbn [write_oma].
    rewrite (write_oma_legacy_ok _ (np.mk_ndarray [rows; cols] fl) rows rows cols).
    + rewrite !Z.mod_small by lia. reflexivity.
    + apply (rows_and_cols_2d _ rows cols []). reflexivity.
    + split; reflexivity.
    + exact Hl.
  - rewrite read_legacy_written by (unfold is_uint16; lia).
    rewrite swrap16_large, swrap16_small by lia. cbv zeta.
    apply run_image_negative; nia.
Qed.

Lemma write_oma_legacy_tall_unreadable_witness :
  Image tall_mono Mono 32768 1 /\
  file.wrun (write_oma tall_mono false) tape0
  = (oma2_legacy_bytes 32768 1 (np.flat tall_mono), Ok tt) /\
  file.run read_oma (oma2_legacy_bytes 32768 1 (np.flat tall_mono))
  = Raise ValueError.
Proof.
  assert (Hi : Image tall_mono Mono 32768 1).
  { unfold Image, tall_mono. cbn [np.shape np.flat image_shape].
    split; [reflexivity|]. split; [lia|]. split; [lia|]. split.
    - rewrite repeat_length, Z2Nat.id by lia. reflexivity.
    - apply Forall_repeat. unfold is_f32. lia. }
  assert (H1 : 32768 <= 32768 <= 65535) by lia.
  assert (H2 : 1 <= 32767) by lia.
  exact (conj Hi (write_oma_legacy_tall_unreadable tall_mono 32768 1 tape0 Hi H1 H2)).
Defined.

(** X15: a one-dimensional array of [n] samples written in either format
    is read back as the image of [n] rows and one column of the same
    samples (a signalling NaN quieted), as long as [n] fits the header
    field of the format. *)
Theorem write_read_oma_line_as_column (data : np.ndarray) (n : Z)
        (use_new : bool) (tape : nat -> byte) :
  np.shape data = [n] -> len (np.flat data) = n -> Forall is_f32 (np.flat data) ->
  n <= (if use_new then 2 ^ 31 - 1 else 32767) ->
  exists bytes,
    file.wrun (write_oma data use_new) tape = (bytes, Ok tt) /\
    file.run read_oma bytes
    = Ok (np.mk_ndarray [n; 1] (map struct.quiet (np.flat data))).
Proof.
  intros Hsh Hl Hf Hn.
  assert (H0 : 0 <= n) by (unfold len in Hl; lia).
  destruct use_new; cbn [write_oma].
  - exists (oma2_new_bytes n 1 0 (map tape (seq 0 16)) (np.flat data)). split.
    + apply (wrun_eq _ tape _ (fun i => tape (16 + i)%nat)).
      rewrite (write_oma_new_1d data n [] tape Hsh); [reflexivity | | exact Hl].
      unfold in_int32. lia.
    + assert (I1 : in_int32 n) by (unfold in_int32; lia).
      assert (I2 : in_int32 1) by (unfold in_int32; lia).
      assert (I3 : in_int32 0) by (unfold in_int32; lia).
      assert (L : len (np.flat data) = n * 1) by lia.
      assert (M : n * 1 * 4 <= py.maxsize) by (unfold py.maxsize; lia).
      assert (P1 : 0 <= 1) by lia.
      assert (R : length (map tape (seq 0 16)) = 16%nat) by reflexivity.
      rewrite (read_written n 1 0 _ _ R H0 P1 I1 I2 I3 L Hf M).
      reflexivity.
  - exists (oma2_legacy_bytes n 1 (np.flat data)). split.
    + apply (wrun_eq _ tape _ tape).
      rewrite (write_oma_legacy_1d data n [] tape Hsh Hl).
      rewrite Z.mod_small by lia. reflexivity.
    + rewrite <- (app_nil_r (np.flat data)) at 1.
      apply read_legacy_plane; try lia; assumption.
Qed.

Lemma write_read_oma_line_as_column_witness :
  (exists bytes,
      file.wrun (write_oma line_3 true) tape0 = (bytes, Ok tt) /\
      file.run read_oma bytes = Ok (np.mk_ndarray [3; 1] [7; 8; 9])) /\
  (exists bytes,
      file.wrun (write_oma line_3 false) tape0 = (bytes, Ok tt) /\
      file.run read_oma bytes = Ok (np.mk_ndarray [3; 1] [7; 8; 9])).
Proof.
  assert (Hf : Forall is_f32 (np.flat line_3)).
  { repeat (apply Forall_cons; [unfold is_f32; lia|]). apply Forall_nil. }
  split.
  - apply (write_read_oma_line_as_column line_3 3 true tape0);
      [reflexivity | reflexivity | exact Hf | cbv; discriminate].
  - apply (write_read_oma_line_as_column line_3 3 false tape0);
      [reflexivity | reflexivity | exact Hf | cbv; discriminate].
Defined.

(** X16: the new-format file of a colour image holds, after a header whose
    specs record three times the rows, the columns and the colour flag 1,
    the three channels one after the other; it is 266 header bytes and 4
    bytes a sample long. *)
Theorem write_oma_new_color_layout (a : np.ndarray) (rows cols : Z)
        (tape : nat -> byte) :
  Image a Color rows cols -> 3 * rows <= 2 ^ 31 - 1 -> cols <= 2 ^ 31 - 1 ->
  let planes := channel 0 (np.flat a) ++ channel 1 (np.flat a)
                  ++ channel 2 (np.flat a) in
  file.wrun (write_oma a true) tape
  = (oma2_new_bytes (3 * rows) cols 1 (map tape (seq 0 16)) planes, Ok tt) /\
  len (oma2_new_bytes (3 * rows) cols 1 (map tape (seq 0 16)) planes)
  = 266 + 4 * (3 * rows * cols).
Proof.
  intros (Hsh & Hr & Hc & Hlen & Hf) Hrows Hcols planes.
  destruct a as [sh fl]. cbn [np.shape np.flat image_shape] in *. subst sh.
  assert (Hl : len fl = rows * cols * 3).
  { unfold len. rewrite Hlen. cbn [np.prod fold_right]. lia. }
  assert (Hn : length fl = (3 * Z.to_nat (rows * cols))%nat).
  { unfold len in Hl. lia. }
  split.
  - apply (wrun_eq _ tape _ (fun i => tape (16 + i)%nat)). cbn [write_oma].
    rewrite (write_oma_new_color _ rows cols [] tape);
      try reflexivity; try (unfold in_int32; lia); try lia. exact Hl.
  - pose proof (len_floats planes) as Lp.
    assert (Lpl : len planes = 3 * rows * cols).
    { unfold len, planes. rewrite !length_app.
      rewrite !(length_channel _ fl _ Hn). lia. }
    unfold oma2_new_bytes, len in *. rewrite !length_app.
    change (length oma2_header) with 30%nat.
    change (length (ints [32; 16; 16])) with 12%nat.
    change (length (ints (py.setitem (specs_template (3 * rows) cols) 8 1)))
      with 128%nat.
    change (length (floats (repeat 0 16))) with 64%nat.
    change (length (ints [0; 0; 0; 0])) with 16%nat.
    rewrite length_map, length_seq. lia.
Qed.

Lemma write_oma_new_color_layout_witness :
  Image color_1x2 Color 1 2 /\
  file.wrun (write_oma color_1x2 true) tape0
  = (oma2_new_bytes 3 2 1 (map tape0 (seq 0 16)) [10; 20; 11; 21; 12; 22], Ok tt) /\
  len (oma2_new_bytes 3 2 1 (map tape0 (seq 0 16)) [10; 20; 11; 21; 12; 22]) = 290.
Proof.
  assert (Hi : Image color_1x2 Color 1 2).
  { unfold Image, color_1x2. cbn [np.shape np.flat image_shape].
    split; [reflexivity|]. split; [lia|]. split; [lia|]. split; [reflexivity|].
    repeat (apply Forall_cons; [unfold is_f32; lia|]). apply Forall_nil. }
  split; [exact Hi|].
  apply (write_oma_new_color_layout color_1x2 1 2 tape0 Hi); lia.
Defined.

(** X17: a three-dimensional array whose third axis is neither 3 nor 1 is
    not written in the new format: it is taken for a mono image, the 266
    header bytes are written with its rows and columns, and flattening it
    to rows * cols samples raises the value error before any sample is
    written. *)
Theorem write_oma_new_wrong_depth (data : np.ndarray) (r c d : Z)
        (tape : nat -> byte) :
  np.shape data = [r; c; d] -> len (np.flat data) = r * c * d ->
  0 < r <= 2 ^ 31 - 1 -> 0 < c <= 2 ^ 31 - 1 -> d <> 3 -> d <> 1 ->
  file.wrun (write_oma data true) tape
  = (oma2_new_bytes r c 0 (map tape (seq 0 16)) [], Raise ValueError).
Proof.
  intros Hsh Hl Hr Hc H3 H1.
  apply (wrun_eq _ tape _ (fun i => tape (16 + i)%nat)). cbn [write_oma].
  unfold write_oma_new, rows_and_cols, ndim. rewrite Hsh.
  rewrite getitem_0, getitem_1, getitem_2.
  change (struct.pack_all struct.pack_i [32; 16; 16]) with (Ok (ints [32; 16; 16])).
  change (1 <? Z.of_nat (length [r; c; d])) with true.
  change (2 <? Z.of_nat (length [r; c; d])) with true.
  cbv [file.wbind file.wlift file.wret file.write file.written file.entropy].
  destruct (Z.eqb_spec d 3); [contradiction|].
  assert (Hne : Z.of_nat (length (np.flat data)) <> r * c).
  { unfold len in Hl. rewrite Hl. nia. }
  assert (H0 : 0 <= r * c) by nia.
  assert (Hir : in_int32 r) by (unfold in_int32; lia).
  assert (Hic : in_int32 c) by (unfold in_int32; lia).
  assert (Hi0 : in_int32 0) by (unfold in_int32; lia).
  rewrite (write_oma_new_body_bad_size 0 data r c _ _ Hir Hic Hi0 Hne H0).
  unfold oma2_new_bytes. cbn [floats flat_map app].
  rewrite <- !app_assoc. reflexivity.
Qed.

Lemma write_oma_new_wrong_depth_witness :
  file.wrun (write_oma rgba_1x1 true) tape0
  = (oma2_new_bytes 1 1 0 (map tape0 (seq 0 16)) [], Raise ValueError).
Proof.
  apply (write_oma_new_wrong_depth rgba_1x1 1 1 4 tape0);
    try reflexivity; try lia.
Defined.

(** X18: a three-dimensional array with fewer than 3 entries on its third
    axis is not written in the legacy format: the 832 header bytes are
    written and taking the missing plane raises the index error. *)
Theorem write_oma_legacy_few_channels (data : np.ndarray) (r c d : Z)
        (tape : nat -> byte) :
  np.shape data = [r; c; d] -> d < 3 ->
  file.wrun (write_oma data false) tape
  = (oma2_legacy_bytes (r mod 2 ^ 16) (c mod 2 ^ 16) [], Raise IndexError).
Proof.
  intros Hsh Hd. apply (wrun_eq _ tape _ tape). cbn [write_oma].
  unfold write_oma_legacy. cbv zeta.
  rewrite (wbind_ok _ _ _ _ _ (rows_and_cols_2d data r c [d] _ Hsh)).
  cbv beta iota. rewrite legacy_header_eq.
  rewrite (wbind_ok _ _ _ _ _
             (for_each_pack_H _ [] tape
                (legacy_header_range _ _ (mod_uint16 r) (mod_uint16 c)))).
  rewrite (wbind_ok _ _ _ _ _ (for_each_pack_f _ _ _)).
  unfold ndim. rewrite Hsh. change (Z.of_nat (length [r; c; d]) =? 3) with true.
  rewrite (stack_planes_few data r c d Hsh Hd).
  cbv [file.wbind file.wlift file.wret].
  unfold oma2_legacy_bytes. cbn [floats flat_map app].
  rewrite app_nil_r. reflexivity.
Qed.

Lemma write_oma_legacy_few_channels_witness :
  file.wrun (write_oma pair_1x1 false) tape0
  = (oma2_legacy_bytes 1 1 [], Raise IndexError) /\
  len (oma2_legacy_bytes 1 1 []) = 832.
Proof.
  split; [|reflexivity].
  apply (write_oma_legacy_few_channels pair_1x1 1 1 2 tape0); [reflexivity | lia].
Defined.

(** X19: a zero-dimensional array is not written: reading its first
    dimension raises the index error, after the tag and the three counts
    (42 bytes) in the new format, before any byte in the legacy format. *)
Theorem write_oma_zero_dimensional (data : np.ndarray) (tape : nat -> byte) :
  np.shape data = [] ->
  file.wrun (write_oma data true) tape
  = (oma2_header ++ ints [32; 16; 16], Raise IndexError) /\
  file.wrun (write_oma data false) tape = ([], Raise IndexError).
Proof.
  intros Hsh. split.
  - apply (wrun_eq _ tape _ tape). cbn [write_oma].
    unfold write_oma_new, rows_and_cols. rewrite Hsh.
    change (struct.pack_all struct.pack_i [32; 16; 16]) with (Ok (ints [32; 16; 16])).
    reflexivity.
  - apply (wrun_eq _ tape _ tape). cbn [write_oma].
    unfold write_oma_legacy, rows_and_cols. rewrite Hsh. reflexivity.
Qed.

Lemma write_oma_zero_dimensional_witness :
  file.wrun (write_oma scalar_5 true) tape0
  = (oma2_header ++ ints [32; 16; 16], Raise IndexError) /\
  file.wrun (write_oma scalar_5 false) tape0 = ([], Raise IndexError).
Proof. apply (write_oma_zero_dimensional scalar_5 tape0). reflexivity. Defined.

(** X20: a two-dimensional array whose row count does not fit the ['i']
    format is not written in the new format: packing the first spec raises
    the struct error when only the tag and the three counts (42 bytes) are
    in the file. *)
Theorem write_oma_new_rows_out_of_range (data : np.ndarray) (r c : Z)
        (tape : nat -> byte) :
  np.shape data = [r; c] -> 2 ^ 31 - 1 < r ->
  file.wrun (write_oma data true) tape
  = (oma2_header ++ ints [32; 16; 16], Raise StructError).
Proof.
  intros Hsh Hr. apply (wrun_eq _ tape _ tape). cbn [write_oma].
  unfold write_oma_new, rows_and_cols, ndim. rewrite Hsh.
  rewrite getitem_0, getitem_1.
  change (struct.pack_all struct.pack_i [32; 16; 16]) with (Ok (ints [32; 16; 16])).
  change (1 <? Z.of_nat (length [r; c])) with true.
  change (2 <? Z.of_nat (length [r; c])) with false.
  cbv [file.wbind file.wlift file.wret file.write file.written file.entropy].
  rewrite write_oma_new_body_bad_rows by (unfold in_int32; lia).
  cbn [app]. rewrite <- ?app_assoc. reflexivity.
Qed.

Lemma write_oma_new_rows_out_of_range_witness :
  file.wrun (write_oma (np.mk_ndarray [2 ^ 31; 0] []) true) tape0
  = (oma2_header ++ ints [32; 16; 16], Raise StructError).
Proof.
  apply (write_oma_new_rows_out_of_range (np.mk_ndarray [2 ^ 31; 0] []) (2 ^ 31) 0 tape0);
    [reflexivity | lia].
Defined.
